(** * r.learn.predict.parallel: tiled, parallel raster prediction

    A shallow embedding of the two GRASS GIS addon scripts

    - [r.learn.parallel.predict.py]  (module [Parallel] below), and
    - [r.learn.predict.worker.py]    (module [Worker] below),

    together with a model of the part of GRASS they talk to (module
    [Grass]): the GRASS database (mapsets holding rasters, imagery groups
    and vector maps), the session files named by [GISRC], and the modules
    the scripts run ([v.mkgrid], [v.category], [g.copy], [r.patch],
    [r.buildvrt], [g.mapset], [g.region], [v.db.select], [g.remove],
    [r.learn.predict]).

    Each script is a state-and-exception computation: [grass.fatal] and an
    uncaught Python exception end [main] with an [error]; every effect
    that happened before stays in the state, so that the [atexit] handler
    can be run afterwards. *)

From Stdlib Require Import ZArith String Ascii List Decimal DecimalString DecimalZ DecimalPos Lia.
From stdpp Require Import base option list gmap strings.

Local Open Scope string_scope.
Local Open Scope Z_scope.
Local Open Scope list_scope.

(** ** Python values and operators used by the scripts *)

Module Py.

(** ["%d" % n]: the decimal numeral of an integer. *)
Definition fmt_d (n : Z) : string := NilZero.string_of_int (Z.to_int n).

(** [int(s)] restricted to decimal numerals; [None] is [ValueError]. *)
Definition int (s : string) : option Z := Z.of_int <$> NilZero.int_of_string s.

(** [s.split(sep)] for a one-character separator. *)
Fixpoint split (sep : ascii) (s : string) : list string :=
  match s with
  | EmptyString => [EmptyString]
  | String c s' =>
      if Ascii.eqb c sep then EmptyString :: split sep s'
      else match split sep s' with
           | [] => [String c EmptyString]
           | w :: ws => String c w :: ws
           end
  end.

(** [c in s] for a character. *)
Fixpoint mem (c : ascii) (s : string) : bool :=
  match s with
  | EmptyString => false
  | String d s' => Ascii.eqb d c || mem c s'
  end.

(** Truth value of a string: [if s:]. *)
Definition truthy (s : string) : bool :=
  match s with EmptyString => false | _ => true end.

(** Keys of a dict built by inserting the items of [l] in order: first
    occurrence keeps its place, later duplicates are dropped. *)
Fixpoint dict_keys (l : list string) : list string :=
  match l with
  | [] => []
  | k :: l' => k :: filter (fun k' => k' <> k) (dict_keys l')
  end.

End Py.

(** ** Outcomes of a script *)

Inductive error : Type :=
| Fatal (msg : string)                  (* grass.fatal(msg): message, then sys.exit(1) *)
| CalledModuleError (module : string)   (* a GRASS module returned non-zero *)
| FileNotFoundError (path : string)
| IndexError                            (* list index out of range *)
| KeyError (key : string)               (* a dict has no such key *)
| ValueError (literal : string).        (* int(literal) of a non-number *)

(** A computation over a state [S] that may raise. *)
Definition M (S A : Type) : Type := S -> (error + A) * S.

Definition ret {S A} (a : A) : M S A := fun s => (inr a, s).
Definition raise {S A} (e : error) : M S A := fun s => (inl e, s).
Definition bind {S A B} (m : M S A) (k : A -> M S B) : M S B :=
  fun s => match m s with
           | (inl e, s') => (inl e, s')
           | (inr a, s') => k a s'
           end.
Definition get {S} : M S S := fun s => (inr s, s).
Definition modify {S} (f : S -> S) : M S unit := fun s => (inr tt, f s).

Declare Scope script_scope.
Delimit Scope script_scope with script.
Notation "'let!' x ':=' m 'in' k" := (bind m (fun x => k))
  (at level 10, x name, m at level 100, k at level 200, only parsing) : script_scope.
Notation "'do!' m 'in' k" := (bind m (fun _ => k))
  (at level 10, m at level 100, k at level 200, only parsing) : script_scope.

(** [for x in l: body x] *)
Fixpoint for_each {S A} (l : list A) (body : A -> M S unit) : M S unit :=
  match l with
  | [] => ret tt
  | x :: l' => bind (body x) (fun _ => for_each l' body)
  end.

(** [sys.exit(main())] and the interpreter's exit status. *)
Definition exit_code (r : error + Z) : Z :=
  match r with
  | inr n => n
  | inl _ => 1
  end.

(** ** The GRASS session and database, and the modules the scripts run *)

Module Grass.

(** [g.gisenv]: the variables of a session file. *)
Record gisenv : Type := {
  GISDBASE : string;
  LOCATION_NAME : string;
  MAPSET : string
}.

(** A mapset directory: [os.path.join(gisdbase, location, mapset)]. *)
Definition mapset_dir : Type := (string * string * string)%type.

Definition mapset_of (e : gisenv) : mapset_dir :=
  (GISDBASE e, LOCATION_NAME e, MAPSET e).

(** Bounds printed by [v.db.select -r map=... where=...]: they are only
    handed on to [g.region], so they are kept symbolic. *)
Record bbox : Type := { of_map : string; of_where : string }.

(** A computational region.  Extents and resolutions are floating point
    numbers the scripts never compute with; they are carried as text. *)
Inductive region : Type :=
| Wind (extent nsres ewres : string)
| Aligned (nsres ewres : string) (grow : string) (box : bbox).

Definition reg_nsres (r : region) : string :=
  match r with Wind _ n _ => n | Aligned n _ _ _ => n end.
Definition reg_ewres (r : region) : string :=
  match r with Wind _ _ e => e | Aligned _ e _ _ => e end.

(** The keyword arguments of one [r.learn.predict] run. *)
Record predict_call : Type := {
  pc_group : string;
  pc_output : string;
  pc_load_model : string;
  pc_chunksize : string;
  pc_flags : string
}.

(** What a raster map holds, by the way it was made. *)
#[warnings="-register-all"]
Inductive raster : Type :=
| Layer (id : string)
| Predicted (call : predict_call) (bands : list string) (reg : region)
| Patched (tiles : list raster)
| Vrt (tiles : list string).

Record mapset_data : Type := {
  ms_region : region;
  ms_saved_regions : list string;
  ms_rasters : gmap string raster;
  ms_groups : gmap string (list string);
  ms_vectors : gmap string (list string)     (* categories, in feature order *)
}.

Definition set_region (r : region) (m : mapset_data) : mapset_data :=
  {| ms_region := r; ms_saved_regions := ms_saved_regions m;
     ms_rasters := ms_rasters m; ms_groups := ms_groups m;
     ms_vectors := ms_vectors m |}.
Definition set_saved_regions (f : list string -> list string) (m : mapset_data) : mapset_data :=
  {| ms_region := ms_region m; ms_saved_regions := f (ms_saved_regions m);
     ms_rasters := ms_rasters m; ms_groups := ms_groups m;
     ms_vectors := ms_vectors m |}.
Definition set_rasters (f : gmap string raster -> gmap string raster)
    (m : mapset_data) : mapset_data :=
  {| ms_region := ms_region m; ms_saved_regions := ms_saved_regions m;
     ms_rasters := f (ms_rasters m); ms_groups := ms_groups m;
     ms_vectors := ms_vectors m |}.
Definition set_groups (f : gmap string (list string) -> gmap string (list string))
    (m : mapset_data) : mapset_data :=
  {| ms_region := ms_region m; ms_saved_regions := ms_saved_regions m;
     ms_rasters := ms_rasters m; ms_groups := f (ms_groups m);
     ms_vectors := ms_vectors m |}.
Definition set_vectors (f : gmap string (list string) -> gmap string (list string))
    (m : mapset_data) : mapset_data :=
  {| ms_region := ms_region m; ms_saved_regions := ms_saved_regions m;
     ms_rasters := ms_rasters m; ms_groups := ms_groups m;
     ms_vectors := f (ms_vectors m) |}.

(** A mapset as [g.mapset -c] creates it: the location's default region
    and no maps. *)
Definition new_mapset (default_wind : region) : mapset_data :=
  {| ms_region := default_wind; ms_saved_regions := [];
     ms_rasters := ∅; ms_groups := ∅; ms_vectors := ∅ |}.

(** A module prepared through [pygrass.modules.Module(name, flags=...,
    key=value, ...)]. *)
Record module_call : Type := {
  mc_name : string;
  mc_flags : string;
  mc_kwargs : gmap string string
}.

(** The modules run through [grass.run_command], [grass.parse_command]
    and the module queue, with the arguments the scripts give them. *)
Inductive command : Type :=
| v_mkgrid (map grid : string)
| v_category (input option_ : string)
| v_db_select (flags map where_ : string)
| g_list (type : string)
| g_copy (element arg : string)
| g_remove (flags type name : string)
| g_mapset (flags mapset : string)
| g_region (flags nsres ewres grow : string) (box : bbox)
| r_patch (input : list string) (output : string)
| r_buildvrt (input : list string) (output : string)
| r_learn_predict (call : predict_call)
| queued (job : module_call).

Record grassdb : Type := {
  mapsets : gmap mapset_dir mapset_data;
  files : gmap string gisenv;            (* session files, by path *)
  default_wind : region;                 (* PERMANENT/DEFAULT_WIND *)
  log : list command                     (* modules run so far, oldest first *)
}.

Definition set_mapsets (f : gmap mapset_dir mapset_data -> gmap mapset_dir mapset_data)
    (d : grassdb) : grassdb :=
  {| mapsets := f (mapsets d); files := files d;
     default_wind := default_wind d; log := log d |}.
Definition set_files (f : gmap string gisenv -> gmap string gisenv)
    (d : grassdb) : grassdb :=
  {| mapsets := mapsets d; files := f (files d);
     default_wind := default_wind d; log := log d |}.
Definition logged (c : command) (d : grassdb) : grassdb :=
  {| mapsets := mapsets d; files := files d;
     default_wind := default_wind d; log := log d ++ [c] |}.
Definition logged_all (cs : list command) (d : grassdb) : grassdb :=
  fold_left (fun d c => logged c d) cs d.

Local Open Scope script_scope.

(** The jobs put into a module queue, and the runs of the model, in the
    order of the log. *)
Definition dispatched (l : list command) : list module_call :=
  omap (fun c => match c with queued job => Some job | _ => None end) l.

Definition inferences (l : list command) : list predict_call :=
  omap (fun c => match c with r_learn_predict call => Some call | _ => None end) l.

Definition jobs_of (d : grassdb) : list module_call := dispatched (log d).

(** The modules that combine tiles. *)
Definition combines (l : list command) : list command :=
  omap (fun c => match c with r_patch _ _ | r_buildvrt _ _ => Some c | _ => None end) l.

(** [grass.run_command] starts by running the module: it enters the log. *)
Definition run (c : command) : M grassdb unit := modify (logged c).

(** [grass.gisenv()] for the session file [gisrc]; [who] is the module
    that fails when there is no readable session. *)
Definition session (gisrc who : string) : M grassdb gisenv :=
  fun d => match files d !! gisrc with
           | Some e => (inr e, d)
           | None => (inl (CalledModuleError who), d)
           end.

Definition gisenv_of (gisrc : string) : M grassdb gisenv := session gisrc "g.gisenv".

(** The current mapset of the session, which has to exist. *)
Definition current (gisrc who : string) : M grassdb (mapset_dir * mapset_data) :=
  let! e := session gisrc who in
  fun d => match mapsets d !! mapset_of e with
           | Some m => (inr (mapset_of e, m), d)
           | None => (inl (CalledModuleError who), d)
           end.

Definition update_mapset (dir : mapset_dir) (f : mapset_data -> mapset_data)
    : M grassdb unit :=
  modify (set_mapsets (alter f dir)).

(** [name] or [name@mapset], seen from the mapset [here]. *)
Definition locate (here : mapset_dir) (name : string) : mapset_dir * string :=
  match Py.split "@" name with
  | n :: m :: _ => ((here.1.1, here.1.2, m), n)
  | _ => (here, name)
  end.

Definition find_raster (d : grassdb) (here : mapset_dir) (name : string) : option raster :=
  match mapsets d !! (locate here name).1 with
  | Some m => ms_rasters m !! (locate here name).2
  | None => None
  end.

Definition find_group (d : grassdb) (here : mapset_dir) (name : string)
    : option (list string) :=
  match mapsets d !! (locate here name).1 with
  | Some m => ms_groups m !! (locate here name).2
  | None => None
  end.

Definition find_vector (d : grassdb) (here : mapset_dir) (name : string)
    : option (list string) :=
  match mapsets d !! (locate here name).1 with
  | Some m => ms_vectors m !! (locate here name).2
  | None => None
  end.

(** [grass.region()]: the region of the current mapset. *)
Definition region_of (gisrc : string) : M grassdb region :=
  let! cur := current gisrc "g.region" in
  ret (ms_region cur.2).

(** [grass.find_file(name, element)["file"]], as a truth value. *)
Definition find_file (gisrc name element : string) : M grassdb bool :=
  fun d => match files d !! gisrc with
           | None => (inr false, d)
           | Some e =>
               (inr (if String.eqb element "raster"
                     then bool_decide (is_Some (find_raster d (mapset_of e) name))
                     else if String.eqb element "vector"
                     then bool_decide (is_Some (find_vector d (mapset_of e) name))
                     else false), d)
           end.

(** *** v.mkgrid map=... grid=rows,cols

    The grid has [rows * cols] cells over the current region; cell
    number [k], counted from 1, gets category [k]. *)
Definition parse_grid (grid : string) : option (Z * Z) :=
  match Py.split "," grid with
  | [r; c] => match Py.int r, Py.int c with
              | Some rows, Some cols => Some (rows, cols)
              | _, _ => None
              end
  | _ => None
  end.

Definition grid_cats (rows cols : Z) : list string :=
  map (fun k => Py.fmt_d (Z.of_nat k)) (seq 1 (Z.to_nat (rows * cols))).

(** Modelled from the spec: which grids [v.mkgrid] refuses.  [v.mkgrid]
    is a module of GRASS, its code is not part of the scripts, and the
    scripts do not check the grid themselves.  The spec has "Fails with
    InvalidGridError if rows or cols <= 0": a grid is accepted when it
    has at least one row and one column. *)
Definition v_mkgrid_accepts (rows cols : Z) : bool := (1 <=? rows) && (1 <=? cols).

Definition run_v_mkgrid (gisrc map grid : string) : M grassdb unit :=
  do! run (v_mkgrid map grid) in
  let! cur := current gisrc "v.mkgrid" in
  match parse_grid grid with
  | Some (rows, cols) =>
      if v_mkgrid_accepts rows cols
      then update_mapset cur.1 (set_vectors <[map := grid_cats rows cols]>)
      else raise (CalledModuleError "v.mkgrid")
  | None => raise (CalledModuleError "v.mkgrid")
  end.

(** *** v.category input=... option=print: one category per line. *)
Definition parse_v_category (gisrc input option_ : string) : M grassdb (list string) :=
  do! run (v_category input option_) in
  let! cur := current gisrc "v.category" in
  let! d := get in
  match find_vector d cur.1 input with
  | Some cats => ret cats
  | None => raise (CalledModuleError "v.category")
  end.

(** *** v.db.select -r map=... where=...: the bounds of the selection. *)
Definition parse_v_db_select (gisrc flags map where_ : string) : M grassdb bbox :=
  do! run (v_db_select flags map where_) in
  let! cur := current gisrc "v.db.select" in
  let! d := get in
  match find_vector d cur.1 map with
  | Some _ => ret {| of_map := map; of_where := where_ |}
  | None => raise (CalledModuleError "v.db.select")
  end.

(** *** g.list type=region *)
Definition parse_g_list (gisrc type : string) : M grassdb (list string) :=
  do! run (g_list type) in
  let! cur := current gisrc "g.list" in
  ret (ms_saved_regions cur.2).

(** *** g.copy raster=from,to and g.copy group=from,to: into the
    current mapset, replacing a map of that name. *)
Definition parse_pair (arg : string) : option (string * string) :=
  match Py.split "," arg with
  | [a; b] => Some (a, b)
  | _ => None
  end.

Definition run_g_copy_raster (gisrc arg : string) : M grassdb unit :=
  do! run (g_copy "raster" arg) in
  let! cur := current gisrc "g.copy" in
  let! d := get in
  match parse_pair arg with
  | Some (src, dst) =>
      match find_raster d cur.1 src with
      | Some r => update_mapset cur.1 (set_rasters <[dst := r]>)
      | None => raise (CalledModuleError "g.copy")
      end
  | None => raise (CalledModuleError "g.copy")
  end.

Definition run_g_copy_group (gisrc arg : string) : M grassdb unit :=
  do! run (g_copy "group" arg) in
  let! cur := current gisrc "g.copy" in
  let! d := get in
  match parse_pair arg with
  | Some (src, dst) =>
      match find_group d cur.1 src with
      | Some g => update_mapset cur.1 (set_groups <[dst := g]>)
      | None => raise (CalledModuleError "g.copy")
      end
  | None => raise (CalledModuleError "g.copy")
  end.

(** *** g.remove -f type=... name=...: from the current mapset. *)
Definition run_g_remove (gisrc flags type name : string) : M grassdb unit :=
  do! run (g_remove flags type name) in
  let! cur := current gisrc "g.remove" in
  if String.eqb type "raster" then update_mapset cur.1 (set_rasters (delete name))
  else if String.eqb type "vector" then update_mapset cur.1 (set_vectors (delete name))
  else if String.eqb type "region"
  then update_mapset cur.1 (set_saved_regions (filter (fun r => r <> name)))
  else raise (CalledModuleError "g.remove").

(** *** g.mapset -c mapset=...: make the mapset current in the session
    file; with [-c] it is created when it does not exist. *)
Definition run_g_mapset (gisrc flags mapset : string) : M grassdb unit :=
  do! run (g_mapset flags mapset) in
  let! e := session gisrc "g.mapset" in
  let dir := (GISDBASE e, LOCATION_NAME e, mapset) in
  let e' := {| GISDBASE := GISDBASE e; LOCATION_NAME := LOCATION_NAME e;
               MAPSET := mapset |} in
  let! d := get in
  match mapsets d !! dir with
  | Some _ => modify (set_files <[gisrc := e']>)
  | None =>
      if Py.mem "c" flags
      then do! modify (set_mapsets <[dir := new_mapset (default_wind d)]>) in
           modify (set_files <[gisrc := e']>)
      else raise (CalledModuleError "g.mapset")
  end.

(** *** g.region -a nsres=... ewres=... grow=... n= s= e= w= *)
Definition run_g_region (gisrc flags nsres ewres grow : string) (box : bbox)
    : M grassdb unit :=
  do! run (g_region flags nsres ewres grow box) in
  let! cur := current gisrc "g.region" in
  update_mapset cur.1 (set_region (Aligned nsres ewres grow box)).

(** *** r.patch and r.buildvrt: every input has to exist. *)
Definition run_r_patch (gisrc : string) (input : list string) (output : string)
    : M grassdb unit :=
  do! run (r_patch input output) in
  let! cur := current gisrc "r.patch" in
  let! d := get in
  match mapM (find_raster d cur.1) input with
  | Some tiles => update_mapset cur.1 (set_rasters <[output := Patched tiles]>)
  | None => raise (CalledModuleError "r.patch")
  end.

Definition run_r_buildvrt (gisrc : string) (input : list string) (output : string)
    : M grassdb unit :=
  do! run (r_buildvrt input output) in
  let! cur := current gisrc "r.buildvrt" in
  let! d := get in
  match mapM (find_raster d cur.1) input with
  | Some _ => update_mapset cur.1 (set_rasters <[output := Vrt input]>)
  | None => raise (CalledModuleError "r.buildvrt")
  end.

(** *** r.learn.predict: the model is applied to the bands of the group
    over the current region.  With [-z] only class probabilities are
    written, which are not part of this model. *)
Definition run_r_learn_predict (gisrc : string) (call : predict_call) : M grassdb unit :=
  do! run (r_learn_predict call) in
  let! cur := current gisrc "r.learn.predict" in
  let! d := get in
  match find_group d cur.1 (pc_group call) with
  | Some bands =>
      if Py.mem "z" (pc_flags call) then ret tt
      else update_mapset cur.1
             (set_rasters <[pc_output call := Predicted call bands (ms_region cur.2)]>)
  | None => raise (CalledModuleError "r.learn.predict")
  end.

(** *** Files and directories *)

(** [grass.utils.try_rmdir(os.path.join(gisdbase, location, mapset))] *)
Definition try_rmdir (dir : mapset_dir) : M grassdb unit :=
  modify (set_mapsets (delete dir)).

(** [grass.try_remove(path)] *)
Definition try_remove (path : string) : M grassdb unit :=
  modify (set_files (delete path)).

(** [shutil.copyfile(src, dst)] *)
Definition copyfile (src dst : string) : M grassdb unit :=
  fun d => match files d !! src with
           | Some e => (inr tt, set_files <[dst := e]> d)
           | None => (inl (FileNotFoundError src), d)
           end.

End Grass.

(** ** r.learn.predict.worker *)

Module Worker.
Import Grass.
Local Open Scope script_scope.

(** [options] as [grass.parser()] returns them for the interface declared
    in the script header. *)
Record options : Type := {
  group : string;
  load_model : string;
  output : string;
  chunksize : string;
  mapset : string;
  area : string;
  where_ : string;
  nsres : string;
  ewres : string
}.

Definition answer (c : module_call) (key dflt : string) : string :=
  default dflt (mc_kwargs c !! key).

(** [grass.parser()] on the command line a caller built: every declared
    option is a key (with its [answer] when it is not given), every
    declared flag is a key of [flags]. *)
Definition parser (c : module_call) : options * list (string * bool) :=
  ({| group := answer c "group" "";
      load_model := answer c "load_model" "";
      output := answer c "output" "";
      chunksize := answer c "chunksize" "100000";
      mapset := answer c "mapset" "";
      area := answer c "area" "";
      where_ := answer c "where" "";
      nsres := answer c "nsres" "";
      ewres := answer c "ewres" "" |},
   [("p", Py.mem "p" (mc_flags c)); ("z", Py.mem "z" (mc_flags c))]).

(** The process running the script: the database it works on and its
    own [os.environ["GISRC"]]. *)
Record process : Type := {
  db : grassdb;
  GISRC : string
}.

Definition grass {A} (f : string -> M grassdb A) : M process A :=
  fun s => let (r, d) := f (GISRC s) (db s) in (r, {| db := d; GISRC := GISRC s |}).

Definition setenv_GISRC (path : string) : M process unit :=
  modify (fun s => {| db := db s; GISRC := path |}).

(** [flags_str]: the keys of the flags that are set, in the order of
    the dict. *)
Definition flags_str (flags : list (string * bool)) : string :=
  fold_left (fun acc (flag : string * bool) => if flag.2 then acc +:+ flag.1 else acc)
    flags "".

(** The new mapset with a session file of its own (the statements from
    [env = grass.gisenv()] to the check that the switch worked); the
    result is [(old_mapset, newgisrc)]. *)
Definition switch_mapset (pid : Z) (new_mapset : string) : M process (string * string) :=
  (* actual mapset, location, ... *)
  let! env := grass gisenv_of in
  let gisdbase := GISDBASE env in
  let location := LOCATION_NAME env in
  let old_mapset := MAPSET env in
  do! grass (fun _ => try_rmdir (gisdbase, location, new_mapset)) in
  let! s := get in
  let gisrc := GISRC s in
  let newgisrc := gisrc +:+ "_" +:+ Py.fmt_d pid in
  do! grass (fun _ => try_remove newgisrc) in
  do! grass (fun _ => copyfile gisrc newgisrc) in
  do! setenv_GISRC newgisrc in
  do! grass (fun rc => run_g_mapset rc "c" new_mapset) in
  (* verify that switching the mapset worked *)
  let! env' := grass gisenv_of in
  let cur_mapset := MAPSET env' in
  if negb (String.eqb cur_mapset new_mapset)
  then raise (Fatal ("new mapset is " +:+ cur_mapset +:+ ", but should be " +:+ new_mapset))
  else ret (old_mapset, newgisrc).

Definition main (pid : Z) (options : options) (flags : list (string * bool))
    : M process Z :=
  (* parallelization parameter *)
  let new_mapset := mapset options in
  let area := area options in
  let where_ := where_ options in
  let nsres := nsres options in
  let ewres := ewres options in
  (* parameter of r.learn.predict *)
  let group := group options in
  let output := output options in
  let load_model := load_model options in
  let chunksize := chunksize options in
  let flags_str := flags_str flags in
  let! reg := grass (fun rc => parse_v_db_select rc "r" area where_) in
  let! switched := switch_mapset pid new_mapset in
  let old_mapset := switched.1 in
  let newgisrc := switched.2 in
  do! grass (fun rc => run_g_region rc "a" nsres ewres "1" reg) in
  let! _ := grass region_of in
  (* copy group to current mapset *)
  do! grass (fun rc => run_g_copy_group rc (group +:+ "@" +:+ old_mapset +:+ "," +:+ group)) in
  (* classification *)
  do! grass (fun rc => run_r_learn_predict rc
        {| pc_group := group; pc_output := output; pc_load_model := load_model;
           pc_chunksize := chunksize; pc_flags := flags_str |}) in
  do! grass (fun _ => try_remove newgisrc) in
  ret 0.

(** The script started as a child process with process id [pid]: it
    inherits [GISRC] from its parent and works on the same database. *)
Definition exec (pid : Z) (gisrc : string) (c : module_call) : M grassdb Z :=
  fun d =>
    let (r, s) := main pid (parser c).1 (parser c).2 {| db := d; GISRC := gisrc |} in
    (r, db s).

End Worker.

(** ** r.learn.parallel.predict *)

Module Parallel.
Import Grass.
Local Open Scope script_scope.

(** What the operating system answers the script. *)
Record host : Type := {
  cpu_count : Z;                     (* mp.cpu_count() *)
  getpid : Z;                        (* os.getpid() *)
  environ_GISRC : string;            (* os.environ["GISRC"] *)
  find_program : string -> bool      (* grass.find_program(name, "--help") *)
}.

(** [options] and [flags] as [grass.parser()] hands them to the script;
    [n_jobs] is the integer [int(options["n_jobs"])]. *)
Record options : Type := {
  n_jobs : Z;
  group : string;
  load_model : string;
  output : string;
  chunksize : string;
  grid : string
}.

(** [flags[key]] *)
Definition flag (flags : list (string * bool)) (key : string) : bool :=
  match list_find (fun f : string * bool => f.1 = key) flags with
  | Some (_, f) => f.2
  | None => false
  end.

(** The [flags] dict of the header: keys [p], [z] and [v]. *)
Definition parsed_flags (p z v : bool) : list (string * bool) :=
  [("p", p); ("z", z); ("v", v)].

Inductive message : Type :=
| Info (text : string)
| Warning (text : string).

(** The script's process: the database and the three global lists. *)
Record process : Type := {
  db : grassdb;
  rm_regions : list string;
  rm_vectors : list string;
  rm_rasters : list string
}.

Definition start (d : grassdb) : process :=
  {| db := d; rm_regions := []; rm_vectors := []; rm_rasters := [] |}.

Definition set_db (d : grassdb) (s : process) : process :=
  {| db := d; rm_regions := rm_regions s;
     rm_vectors := rm_vectors s; rm_rasters := rm_rasters s |}.

Definition grass {A} (f : M grassdb A) : M process A :=
  fun s => let (r, d) := f (db s) in (r, set_db d s).

Definition rm_vectors_append (name : string) : M process unit :=
  modify (fun s => {| db := db s; rm_regions := rm_regions s;
                      rm_vectors := rm_vectors s ++ [name];
                      rm_rasters := rm_rasters s |}).

Definition rm_rasters_extend (names : list string) : M process unit :=
  modify (fun s => {| db := db s; rm_regions := rm_regions s;
                      rm_vectors := rm_vectors s;
                      rm_rasters := rm_rasters s ++ names |}).

Definition cleanup (h : host) : M process unit :=
  let gisrc := environ_GISRC h in
  let! s := get in
  do! for_each (rm_regions s) (fun rmr =>
        let! regions := grass (parse_g_list gisrc "region") in
        if bool_decide (rmr ∈ regions)
        then grass (run_g_remove gisrc "f" "region" rmr)
        else ret tt) in
  do! for_each (rm_vectors s) (fun rmv =>
        let! found := grass (find_file gisrc rmv "vector") in
        if found then grass (run_g_remove gisrc "f" "vector" rmv) else ret tt) in
  for_each (rm_rasters s) (fun rmrast =>
        let! found := grass (find_file gisrc rmrast "raster") in
        if found then grass (run_g_remove gisrc "f" "raster" rmrast) else ret tt).

(** The value returned, and what [grass.info] / [grass.warning] print. *)
Definition set_test_nprocs (h : host) (nprocs : Z) : Z * list message :=
  (* Test nprocs settings *)
  let nprocs_real := cpu_count h in
  if nprocs =? -2 then
    let procs := nprocs_real - 1 in
    (procs, [Info ("Using " +:+ Py.fmt_d procs +:+ " parallel processes")])
  else
    (nprocs,
     if nprocs_real <? nprocs
     then [Warning ("Using " +:+ Py.fmt_d nprocs +:+ " parallel processes but only "
                    +:+ Py.fmt_d nprocs_real +:+ " CPUs available.")]
     else []).

(** [ParallelModuleQueue(nprocs)] between the first [put] and the return
    of [wait()]: what the child processes did to the database. *)
Definition queue_model : Type := Z -> list module_call -> grassdb -> grassdb.

(** [flags_str]: the flags that are set, [v] left out. *)
Definition flags_str (flags : list (string * bool)) : string :=
  fold_left (fun acc (f : string * bool) =>
               if f.2 && negb (String.eqb f.1 "v") then acc +:+ f.1 else acc)
    flags "".

Definition grid_rows_cols (options : options) (n_jobs : Z) : string :=
  if Py.truthy (grid options) then grid options
  else Py.fmt_d n_jobs +:+ "," +:+ Py.fmt_d n_jobs.

Definition new_mapset (cat : string) : string := "tmp_mapset_rlearnpredict_" +:+ cat.
Definition tmp_output (output cat : string) : string := output +:+ "_" +:+ cat.

(** The module put into the queue for the cell [cat]. *)
Definition r_grid_predict (options : options) (grid : string) (reg : region)
    (cat : string) : module_call :=
  {| mc_name := "r.learn.predict.worker";
     mc_flags := "";
     mc_kwargs :=
       <["area" := grid]> (
       <["where" := "cat=" +:+ cat]> (
       <["mapset" := new_mapset cat]> (
       <["nsres" := reg_nsres reg]> (
       <["ewres" := reg_ewres reg]> (
       <["group" := group options]> (
       <["output" := tmp_output (output options) cat]> (
       <["load_model" := load_model options]> (
       <["chunksize" := chunksize options]> ∅)))))))) |}.

(** The entry of [classifications] for the cell [cat]. *)
Definition classification (output cat : string) : string :=
  tmp_output output cat +:+ "@" +:+ new_mapset cat.

(** Generating the grid, up to saving the current mapset; the result is
    [(grid, reg, cats, start_cur_mapset)]. *)
Definition generate_grid (h : host) (grid_rows_cols : string)
    : M process (string * region * list string * string) :=
  let gisrc := environ_GISRC h in
  let grid := "tmp_grid_" +:+ Py.fmt_d (getpid h) in
  do! grass (run_v_mkgrid gisrc grid grid_rows_cols) in
  do! rm_vectors_append grid in
  let! reg := grass (region_of gisrc) in
  let! lines := grass (parse_v_category gisrc grid "print") in
  let cats := Py.dict_keys lines in
  (* save current mapset *)
  let! env := grass (gisenv_of gisrc) in
  let start_cur_mapset := MAPSET env in
  ret (grid, reg, cats, start_cur_mapset).

(** The state after [generate_grid] on a valid grid. *)
Definition grid_made (h : host) (g : string) (e : gisenv) (rows cols : Z)
    (s : process) : process :=
  let grid := "tmp_grid_" +:+ Py.fmt_d (getpid h) in
  {| db := logged (v_category grid "print")
             (set_mapsets (alter (set_vectors <[grid := grid_cats rows cols]>)
                             (mapset_of e))
                (logged (v_mkgrid grid g) (db s)));
     rm_regions := rm_regions s;
     rm_vectors := rm_vectors s ++ [grid];
     rm_rasters := rm_rasters s |}.

(** The loop over [cats] and [queue.wait()]; the result is
    [classifications]. *)
Definition predict_on_cells (queue : queue_model) (options : options) (n_jobs : Z)
    (grid : string) (reg : region) (cats : list string) : M process (list string) :=
  do! for_each cats (fun cat =>
        grass (run (queued (r_grid_predict options grid reg cat)))) in
  do! grass (modify (queue n_jobs (map (r_grid_predict options grid reg) cats))) in
  ret (map (classification (output options)) cats).

(** Verify that switching the mapset worked; the result is
    [(gisdbase, location)]. *)
Definition verify_mapset (h : host) (start_cur_mapset : string)
    : M process (string * string) :=
  let! env := grass (gisenv_of (environ_GISRC h)) in
  let gisdbase := GISDBASE env in
  let location := LOCATION_NAME env in
  let cur_mapset := MAPSET env in
  if negb (String.eqb cur_mapset start_cur_mapset)
  then raise (Fatal ("new mapset is " +:+ cur_mapset +:+ ", but should be "
                     +:+ start_cur_mapset))
  else ret (gisdbase, location).

(** Copying the tiles into the current mapset and removing the mapsets
    of the cells. *)
Definition copy_tiles (h : host) (gisdbase location : string)
    (classifications : list string) : M process unit :=
  for_each classifications (fun classification =>
    let name_mapset := Py.split "@" classification in
    match name_mapset with
    | name :: mapset :: _ =>
        do! grass (run_g_copy_raster (environ_GISRC h) (classification +:+ "," +:+ name)) in
        grass (try_rmdir (gisdbase, location, mapset))
    | _ => raise IndexError
    end).

(** Patching the tiles. *)
Definition patching (h : host) (options : options) (flags : list (string * bool))
    (classifications : list string) : M process unit :=
  let gisrc := environ_GISRC h in
  let output := output options in
  let! _ := grass (region_of gisrc) in
  if 1 <? Z.of_nat (length classifications) then
    let module := if flag flags "v" then run_r_buildvrt else run_r_patch in
    let all_classified := map (fun x => hd "" (Py.split "@" x)) classifications in
    do! grass (module gisrc all_classified output) in
    if negb (flag flags "v") then rm_rasters_extend all_classified else ret tt
  else
    match map (fun x => hd "" (Py.split "@" x)) classifications with
    | all_classified :: _ =>
        grass (run_g_copy_raster gisrc (all_classified +:+ "," +:+ output))
    | [] => raise IndexError
    end.

Definition main (h : host) (queue : queue_model) (options : options)
    (flags : list (string * bool)) : M process Z :=
  let gisrc := environ_GISRC h in
  (* parallelization parameter *)
  let n_jobs := (set_test_nprocs h (n_jobs options)).1 in
  (* parameter of r.learn.predict *)
  let group := group options in
  let output := output options in
  let load_model := load_model options in
  let chunksize := chunksize options in
  let flags_str := flags_str flags in
  let grid_rows_cols := grid_rows_cols options n_jobs in
  (* test if r.learn.predict is installed *)
  if negb (find_program h "r.learn.predict")
  then raise (Fatal "The 'r.learn.predict' module was not found, install it first:
g.extension r.learn.ml2")
  else
  if 1 <? n_jobs then
    let! generated := generate_grid h grid_rows_cols in
    let '(grid, reg, cats, start_cur_mapset) := generated in
    let! classifications := predict_on_cells queue options n_jobs grid reg cats in
    let! env := verify_mapset h start_cur_mapset in
    do! copy_tiles h env.1 env.2 classifications in
    do! patching h options flags classifications in
    ret 0
  else
    do! grass (run_r_learn_predict gisrc
          {| pc_group := group; pc_output := output; pc_load_model := load_model;
             pc_chunksize := chunksize; pc_flags := flags_str |}) in
    ret 0.

(** The child processes of the queue, run one after the other in the
    order they were put; [child_pid k] is the process id of the k-th. *)
Definition ParallelModuleQueue (child_pid : nat -> Z) (gisrc : string) : queue_model :=
  fun _ jobs d =>
    fold_left (fun d (job : nat * module_call) =>
                 (Worker.exec (child_pid job.1) gisrc job.2 d).2)
      (imap (fun k c => (k, c)) jobs) d.

(** [atexit.register(cleanup); sys.exit(main())]: the exit status and the
    state the process leaves behind.  [cleanup] runs however [main]
    ended, and what it raises does not change the status. *)
Definition script (h : host) (queue : queue_model) (options : options)
    (flags : list (string * bool)) (d : grassdb) : Z * process :=
  let (r, s) := main h queue options flags (start d) in
  (exit_code r, (cleanup h s).2).

(** *** From the command line to [main]

    The command line of the script, as far as the header lets it be
    given: the three required options, and the optional ones when they
    are given. *)
Record command_line : Type := {
  cl_group : string;
  cl_load_model : string;
  cl_output : string;
  cl_chunksize : option string;
  cl_nprocs : option string;
  cl_grid : option string
}.

(** The dict [options] of [options, flags = grass.parser()]: one key for
    each option the header declares, with its [answer] when the option
    is not given.  The number of processes is declared as
    [G_OPT_M_NPROCS] with a label, a description and an answer but
    without a [key] line, so that its key is the one of the standard
    option, [nprocs]. *)
Definition parser (c : command_line) : gmap string string :=
  <["group" := cl_group c]> (
  <["load_model" := cl_load_model c]> (
  <["output" := cl_output c]> (
  <["chunksize" := default "100000" (cl_chunksize c)]> (
  <["nprocs" := default "-2" (cl_nprocs c)]> (
  <["grid" := default "" (cl_grid c)]> ∅))))).

(** [options[key]] *)
Definition getitem (options : gmap string string) (key : string) : error + string :=
  match options !! key with
  | Some value => inr value
  | None => inl (KeyError key)
  end.

(** What [main] reads from the dict before it runs a module, in the
    order of the source: [int(options["n_jobs"])], then [group],
    [output], [load_model], [chunksize] and [grid]. *)
Definition read_options (dict : gmap string string) : error + options :=
  match getitem dict "n_jobs" with
  | inl e => inl e
  | inr literal =>
  match Py.int literal with
  | None => inl (ValueError literal)
  | Some n_jobs =>
  match getitem dict "group" with
  | inl e => inl e
  | inr group =>
  match getitem dict "output" with
  | inl e => inl e
  | inr output =>
  match getitem dict "load_model" with
  | inl e => inl e
  | inr load_model =>
  match getitem dict "chunksize" with
  | inl e => inl e
  | inr chunksize =>
  match getitem dict "grid" with
  | inl e => inl e
  | inr grid =>
      inr {| n_jobs := n_jobs; group := group; load_model := load_model;
             output := output; chunksize := chunksize; grid := grid |}
  end end end end end end end.

(** [main()] on the dict [options]. *)
Definition main_on (h : host) (queue : queue_model) (dict : gmap string string)
    (flags : list (string * bool)) : M process Z :=
  match read_options dict with
  | inl e => raise e
  | inr options => main h queue options flags
  end.

(** The script started with a command line:
    [options, flags = grass.parser(); atexit.register(cleanup);
    sys.exit(main())]. *)
Definition script_on (h : host) (queue : queue_model) (c : command_line)
    (flags : list (string * bool)) (d : grassdb) : Z * process :=
  let (r, s) := main_on h queue (parser c) flags (start d) in
  (exit_code r, (cleanup h s).2).

End Parallel.

(** ** Observations kept by a computation *)

(** [keeps obs m]: running [m] leaves what [obs] sees of the state as it
    was, whether [m] returns or raises. *)
Definition keeps {S X A : Type} (obs : S -> X) (m : M S A) : Prop :=
  forall s, obs (m s).2 = obs s.

(** [without names m]: the map [m] when every key in [names] has been
    deleted, one after the other. *)
Definition without {A} (names : list string) (m : gmap string A) : gmap string A :=
  fold_left (fun m name => delete name m) names m.

(** The mapset a worker leaves for its cell when it returns: the region
    of the cell, the copy of the group and the tile (no tile with
    [-z]). *)
Definition cell_mapset (o : Worker.options) (flags_str : string) (bands : list string)
    : Grass.mapset_data :=
  let reg := Grass.Aligned (Worker.nsres o) (Worker.ewres o) "1"
               {| Grass.of_map := Worker.area o; Grass.of_where := Worker.where_ o |} in
  let call := {| Grass.pc_group := Worker.group o; Grass.pc_output := Worker.output o;
                 Grass.pc_load_model := Worker.load_model o;
                 Grass.pc_chunksize := Worker.chunksize o;
                 Grass.pc_flags := flags_str |} in
  {| Grass.ms_region := reg;
     Grass.ms_saved_regions := [];
     Grass.ms_rasters :=
       if Py.mem "z" flags_str then ∅
       else {[ Worker.output o := Grass.Predicted call bands reg ]};
     Grass.ms_groups := {[ Worker.group o := bands ]};
     Grass.ms_vectors := ∅ |}.

(** The tile of the cell [cat] as its worker predicts it for [main]:
    the model on the bands of the group, without flags, over the box of
    the cell at the resolution of the region [reg]. *)
Definition tile_of (o : Parallel.options) (grid : string) (reg : Grass.region)
    (bands : list string) (cat : string) : Grass.raster :=
  Grass.Predicted
    {| Grass.pc_group := Parallel.group o;
       Grass.pc_output := Parallel.tmp_output (Parallel.output o) cat;
       Grass.pc_load_model := Parallel.load_model o;
       Grass.pc_chunksize := Parallel.chunksize o;
       Grass.pc_flags := "" |}
    bands
    (Grass.Aligned (Grass.reg_nsres reg) (Grass.reg_ewres reg) "1"
       {| Grass.of_map := grid; Grass.of_where := "cat=" +:+ cat |}).

(** The cell a tile is named after: the number behind the last [_]. *)
Definition cell_id (tile : string) : option Z :=
  Py.int (List.last (Py.split "_" tile) "").

(** Numbers in ascending order. *)
Fixpoint ascending (ids : list Z) : bool :=
  match ids with
  | a :: (b :: _) as rest => (a <=? b) && ascending rest
  | _ => true
  end.

(** The vector map of the grid that [main] makes. *)
Definition grid_of (h : Parallel.host) : string :=
  "tmp_grid_" +:+ Py.fmt_d (Parallel.getpid h).

(** The directory of the mapset of the cell [cat]. *)
Definition cell_dir (e : Grass.gisenv) (cat : string) : Grass.mapset_dir :=
  (Grass.GISDBASE e, Grass.LOCATION_NAME e, Parallel.new_mapset cat).

(** The mapset that the worker of the cell [cat] leaves for [main]. *)
Definition cell_of (o : Parallel.options) (grid : string) (reg : Grass.region)
    (bands : list string) (cat : string) : Grass.mapset_data :=
  cell_mapset (Worker.parser (Parallel.r_grid_predict o grid reg cat)).1 "" bands.

(** A database the workers of [main] can work on: the session [e] of
    the parent is readable, and its mapset has the grid and the group. *)
Definition ready (h : Parallel.host) (o : Parallel.options) (e : Grass.gisenv)
    (bands : list string) (D : Grass.grassdb) : Prop :=
  Grass.files D !! Parallel.environ_GISRC h = Some e /\
  exists mD cs, Grass.mapsets D !! Grass.mapset_of e = Some mD /\
                Grass.ms_vectors mD !! grid_of h = Some cs /\
                Grass.ms_groups mD !! Parallel.group o = Some bands.

(** ** A small location to run the scripts on *)

Module Demo.
Import Grass Parallel.

Definition user1 : mapset_data :=
  {| ms_region := Wind "ext" "10" "10"; ms_saved_regions := [];
     ms_rasters := ∅; ms_groups := {[ "grp" := ["b1"; "b2"] ]}; ms_vectors := ∅ |}.

Definition rc : gisenv :=
  {| GISDBASE := "/grassdata"; LOCATION_NAME := "utm32n"; MAPSET := "user1" |}.

Definition location : grassdb :=
  {| mapsets := {[ mapset_of rc := user1 ]};
     files := {[ "/tmp/rc" := rc ]};
     default_wind := Wind "default" "1" "1";
     log := [] |}.

Definition laptop : host :=
  {| cpu_count := 4; getpid := 77; environ_GISRC := "/tmp/rc";
     find_program := fun _ => true |}.

Definition opts (n : Z) (grid : string) : options :=
  {| n_jobs := n; group := "grp"; load_model := "model.gz"; output := "out";
     chunksize := "100000"; grid := grid |}.

Definition queue : queue_model :=
  ParallelModuleQueue (fun k => 100 + Z.of_nat k) "/tmp/rc".

(** The location when the tile of a grid of one cell has been copied
    into the current mapset. *)
Definition with_tile : grassdb :=
  set_mapsets (alter (set_rasters <["out_1" := Layer "tile of cell 1"]>) (mapset_of rc))
    location.

(** The location when the tiles of a grid of two cells have been
    copied into the current mapset. *)
Definition with_tiles : grassdb :=
  set_mapsets
    (alter (set_rasters (fun R => <["out_2" := Layer "tile of cell 2"]>
                                    (<["out_1" := Layer "tile of cell 1"]> R)))
       (mapset_of rc))
    location.

(** [group=grp load_model=model.gz output=out], with or without
    [nprocs=...]. *)
Definition command_line (nprocs : option string) : Parallel.command_line :=
  {| cl_group := "grp"; cl_load_model := "model.gz"; cl_output := "out";
     cl_chunksize := None; cl_nprocs := nprocs; cl_grid := None |}.

(** A queue whose children switch the mapset of the parent's session. *)
Definition leaky_queue : queue_model :=
  fun _ _ d =>
    set_files <["/tmp/rc" := {| GISDBASE := "/grassdata"; LOCATION_NAME := "utm32n";
                               MAPSET := "tmp_mapset_rlearnpredict_1" |}]> d.

End Demo.

(** The location of [Demo] when [main] has made a grid of one row and
    two columns, and the options of the worker of its first cell. *)
Module Cells.
Import Grass.

Definition user1 : mapset_data :=
  set_vectors <["tmp_grid_77" := grid_cats 1 2]> Demo.user1.

Definition with_grid : grassdb :=
  set_mapsets <[mapset_of Demo.rc := user1]> Demo.location.

(** The same, but the group is not in the mapset. *)
Definition user1_no_group : mapset_data := set_groups (delete "grp") user1.

Definition without_group : grassdb :=
  set_mapsets <[mapset_of Demo.rc := user1_no_group]> Demo.location.

Definition cell1 : Worker.options :=
  (Worker.parser (Parallel.r_grid_predict (Demo.opts 2 "1,2") "tmp_grid_77"
                    (Wind "ext" "10" "10") "1")).1.

End Cells.

(** * Properties *)

(** ** Strings and numerals *)

Section Strings.

Lemma split_no_sep (sep : ascii) (s : string) :
  Py.mem sep s = false -> Py.split sep s = [s].
Proof.
  induction s as [|c s IH]; simpl; [done|].
  rewrite Ascii.eqb_sym. destruct (Ascii.eqb sep c); simpl; [done|].
  intros H. by rewrite IH.
Qed.

Lemma split_app (sep : ascii) (a b : string) :
  Py.mem sep a = false ->
  Py.split sep (a +:+ String sep b) = a :: Py.split sep b.
Proof.
  induction a as [|c a IH]; simpl.
  - intros _. by rewrite Ascii.eqb_refl.
  - rewrite Ascii.eqb_sym. destruct (Ascii.eqb sep c); simpl; [done|].
    intros H. by rewrite IH.
Qed.

Lemma split_nonempty (sep : ascii) (s : string) : Py.split sep s <> [].
Proof.
  destruct s as [|c s]; simpl; [done|].
  destruct (Ascii.eqb c sep); [done|]. by destruct (Py.split sep s).
Qed.

Lemma mem_app (c : ascii) (a b : string) :
  Py.mem c (a +:+ b) = Py.mem c a || Py.mem c b.
Proof.
  induction a as [|x a IH]; simpl; [done|]. by rewrite IH, orb_assoc.
Qed.

(** The first field of a split holds no separator. *)
Lemma mem_hd_split (sep : ascii) (s : string) :
  Py.mem sep (hd "" (Py.split sep s)) = false.
Proof.
  induction s as [|c s IH]; simpl; [done|].
  destruct (Ascii.eqb c sep) eqn:E; simpl; [done|].
  destruct (Py.split sep s) as [|w ws]; simpl in *; rewrite E; [done|].
  by rewrite IH.
Qed.

Lemma mem_uint (c : ascii) (d : uint) :
  (c =? "0")%char = false -> (c =? "1")%char = false -> (c =? "2")%char = false ->
  (c =? "3")%char = false -> (c =? "4")%char = false -> (c =? "5")%char = false ->
  (c =? "6")%char = false -> (c =? "7")%char = false -> (c =? "8")%char = false ->
  (c =? "9")%char = false ->
  Py.mem c (NilEmpty.string_of_uint d) = false.
Proof.
  rewrite !(Ascii.eqb_sym c). intros H0 H1 H2 H3 H4 H5 H6 H7 H8 H9.
  induction d; cbn [NilEmpty.string_of_uint Py.mem]; rewrite ?IHd, ?orb_false_r; done.
Qed.

(** A numeral holds neither [","] nor ["@"]. *)
Lemma mem_fmt_d (c : ascii) (n : Z) :
  c = ","%char \/ c = "@"%char -> Py.mem c (Py.fmt_d n) = false.
Proof.
  intros Hc.
  assert (Hu : forall d, Py.mem c (NilZero.string_of_uint d) = false).
  { intros d. destruct d; try (apply mem_uint; by destruct Hc as [-> | ->]).
    by destruct Hc as [-> | ->]. }
  unfold Py.fmt_d. destruct (Z.to_int n); simpl; rewrite ?Hu; [done|].
  by destruct Hc as [-> | ->].
Qed.

Lemma int_fmt_d (n : Z) : Py.int (Py.fmt_d n) = Some n.
Proof.
  unfold Py.int, Py.fmt_d. rewrite NilZero.isi.
  - simpl. by rewrite DecimalZ.of_to.
  - destruct n; simpl; try done. intros [= H]. by apply Unsigned.to_uint_nonnil in H.
  - destruct n; simpl; try done. intros [= H]. by apply Unsigned.to_uint_nonnil in H.
Qed.

Lemma fmt_d_inj (a b : Z) : Py.fmt_d a = Py.fmt_d b -> a = b.
Proof.
  intros H. assert (E : Py.int (Py.fmt_d a) = Py.int (Py.fmt_d b)) by (by rewrite H).
  rewrite !int_fmt_d in E. by injection E.
Qed.

Lemma dict_keys_NoDup (l : list string) : NoDup l -> Py.dict_keys l = l.
Proof.
  induction 1 as [|k l Hk Hl IH]; simpl; [done|].
  rewrite IH. f_equal. clear IH Hl.
  induction l as [|x l IH]; [done|].
  rewrite not_elem_of_cons in Hk. destruct Hk as [Hx Hk].
  rewrite filter_cons_True by congruence. f_equal. by apply IH.
Qed.

End Strings.

(** ** Computations *)

Section Keeps.
Context {S X : Type} (obs : S -> X).

Lemma keeps_ret {A} (a : A) : keeps obs (ret a).
Proof. done. Qed.

Lemma keeps_raise {A} (e : error) : keeps obs (@raise S A e).
Proof. done. Qed.

Lemma keeps_get : keeps obs get.
Proof. done. Qed.

Lemma keeps_bind {A B} (m : M S A) (k : A -> M S B) :
  keeps obs m -> (forall a, keeps obs (k a)) -> keeps obs (bind m k).
Proof.
  intros Hm Hk s. unfold bind. specialize (Hm s).
  destruct (m s) as [[e|a] s']; simpl in *; [done|]. by rewrite Hk.
Qed.

Lemma keeps_modify (f : S -> S) : (forall s, obs (f s) = obs s) -> keeps obs (modify f).
Proof. intros Hf s. apply Hf. Qed.

Lemma keeps_for_each {A} (l : list A) (body : A -> M S unit) :
  (forall a, keeps obs (body a)) -> keeps obs (for_each l body).
Proof.
  intros Hb. induction l as [|a l IH]; simpl.
  - apply keeps_ret.
  - apply keeps_bind; [apply Hb | intros _; apply IH].
Qed.

End Keeps.

Lemma bind_inr {S A B} (m : M S A) (k : A -> M S B) (s s' : S) (a : A) :
  m s = (inr a, s') -> bind m k s = k a s'.
Proof. intros H. unfold bind. by rewrite H. Qed.

Lemma bind_inl {S A B} (m : M S A) (k : A -> M S B) (s s' : S) (e : error) :
  m s = (inl e, s') -> bind m k s = (inl e, s').
Proof. intros H. unfold bind. by rewrite H. Qed.

(** ** The GRASS modules *)

Section GrassFacts.
Import Grass.

Lemma session_Some (gisrc who : string) (d : grassdb) (e : gisenv) :
  files d !! gisrc = Some e -> session gisrc who d = (inr e, d).
Proof. intros H. unfold session. by rewrite H. Qed.

Lemma current_Some (gisrc who : string) (d : grassdb) (e : gisenv) (m : mapset_data) :
  files d !! gisrc = Some e -> mapsets d !! mapset_of e = Some m ->
  current gisrc who d = (inr (mapset_of e, m), d).
Proof.
  intros He Hm. unfold current. rewrite (bind_inr _ _ _ _ _ (session_Some _ _ _ _ He)).
  by rewrite Hm.
Qed.

(** A module that finds no session or no current mapset fails, and
    changes nothing. *)
Lemma current_inv (gisrc who : string) (d : grassdb) :
  (exists e m, files d !! gisrc = Some e /\ mapsets d !! mapset_of e = Some m /\
               current gisrc who d = (inr (mapset_of e, m), d)) \/
  current gisrc who d = (inl (CalledModuleError who), d).
Proof.
  unfold current, bind, session.
  destruct (files d !! gisrc) as [e|] eqn:He; [|by right].
  destruct (mapsets d !! mapset_of e) as [m|] eqn:Hm; [|by right].
  left. by exists e, m.
Qed.

Lemma region_of_Some (gisrc : string) (d : grassdb) (e : gisenv) (m : mapset_data) :
  files d !! gisrc = Some e -> mapsets d !! mapset_of e = Some m ->
  region_of gisrc d = (inr (ms_region m), d).
Proof.
  intros He Hm. unfold region_of.
  by rewrite (bind_inr _ _ _ _ _ (current_Some _ _ _ _ _ He Hm)).
Qed.

End GrassFacts.

(** ** r.learn.parallel.predict: the direct path and the grid *)

Section ParallelFacts.
Import Grass Parallel.
Local Open Scope script_scope.

(** The single run of the model of the direct path. *)
Lemma main_direct (h : host) (queue : queue_model) (options : options)
    (flags : list (string * bool)) (s : process) :
  find_program h "r.learn.predict" = true ->
  (set_test_nprocs h (n_jobs options)).1 <= 1 ->
  main h queue options flags s =
  (do! grass (run_r_learn_predict (environ_GISRC h)
         {| pc_group := group options; pc_output := output options;
            pc_load_model := load_model options; pc_chunksize := chunksize options;
            pc_flags := flags_str flags |}) in
   ret 0) s.
Proof.
  intros Hfound Hn. unfold main. rewrite Hfound. simpl.
  destruct (Z.ltb_spec 1 (set_test_nprocs h (n_jobs options)).1); [lia|done].
Qed.

Lemma main_parallel (h : host) (queue : queue_model) (options : options)
    (flags : list (string * bool)) (s : process) :
  find_program h "r.learn.predict" = true ->
  1 < (set_test_nprocs h (n_jobs options)).1 ->
  main h queue options flags s =
  (let n_jobs := (set_test_nprocs h (n_jobs options)).1 in
   let! generated := generate_grid h (grid_rows_cols options n_jobs) in
   let '(grid, reg, cats, start_cur_mapset) := generated in
   let! classifications := predict_on_cells queue options n_jobs grid reg cats in
   let! env := verify_mapset h start_cur_mapset in
   do! copy_tiles h env.1 env.2 classifications in
   do! patching h options flags classifications in
   ret 0) s.
Proof.
  intros Hfound Hn. unfold main. rewrite Hfound. simpl.
  destruct (Z.ltb_spec 1 (set_test_nprocs h (n_jobs options)).1); [done|lia].
Qed.

(** Handed a value other than -2, [set_test_nprocs] returns the value
    as it is and prints nothing, or one warning when the value is above
    the number of CPUs; it never raises.  With 0, 1 or a negative value
    other than -2 as [n_jobs], [main] is the direct path: one run of
    [r.learn.predict] and [return 0]. *)
Lemma set_test_nprocs_unchanged (h : host) (nprocs : Z) :
  nprocs <> -2 ->
  (set_test_nprocs h nprocs).1 = nprocs /\
  ((set_test_nprocs h nprocs).2 = [] \/
   cpu_count h < nprocs /\ exists text, (set_test_nprocs h nprocs).2 = [Warning text]) /\
  (nprocs <= 1 ->
   forall (queue : queue_model) (options : options) (flags : list (string * bool))
          (s : process),
     n_jobs options = nprocs ->
     find_program h "r.learn.predict" = true ->
     main h queue options flags s =
     (do! grass (run_r_learn_predict (environ_GISRC h)
            {| pc_group := group options; pc_output := output options;
               pc_load_model := load_model options; pc_chunksize := chunksize options;
               pc_flags := flags_str flags |}) in
      ret 0) s).
Proof.
  intros Hne.
  assert (E : (set_test_nprocs h nprocs).1 = nprocs).
  { unfold set_test_nprocs. destruct (Z.eqb_spec nprocs (-2)); [lia|done]. }
  split; [done|]. split.
  - unfold set_test_nprocs. destruct (Z.eqb_spec nprocs (-2)); [lia|]. simpl.
    destruct (Z.ltb_spec (cpu_count h) nprocs); [right|by left].
    split; [done|]. by eexists.
  - intros Hle queue options flags s Hn Hfound.
    apply main_direct; [done|]. rewrite Hn, E. done.
Qed.

(** C10: the number of processes never reaches [set_test_nprocs].  The
    header declares the option as [G_OPT_M_NPROCS] without a key of its
    own, so for every command line the dict of the parser holds the
    value under [nprocs] (the answer -2 when it is not given) and has no
    key [n_jobs]; [main] asks for [options["n_jobs"]] and ends with
    [KeyError] before it has run a module or touched the database, and
    the script ends with status 1.  No value of [nprocs] is accepted,
    and none selects the direct path. *)
Theorem n_jobs_not_an_option (h : host) (queue : queue_model) (c : command_line)
    (flags : list (string * bool)) :
  parser c !! "nprocs" = Some (default "-2" (cl_nprocs c)) /\
  parser c !! "n_jobs" = None /\
  (forall s, main_on h queue (parser c) flags s = (inl (KeyError "n_jobs"), s)) /\
  (forall d, script_on h queue c flags d = (1, start d)).
Proof.
  assert (E : forall s, main_on h queue (parser c) flags s = (inl (KeyError "n_jobs"), s))
    by reflexivity.
  split; [reflexivity|]. split; [reflexivity|]. split; [exact E|].
  intros d. unfold script_on. by rewrite E.
Qed.

(** [nprocs=1] on the command line: no run of [r.learn.predict], status 1. *)
Lemma nprocs_1_not_accepted :
  script_on Demo.laptop Demo.queue (Demo.command_line (Some "1"))
    (parsed_flags false false false) Demo.location
  = (1, start Demo.location).
Proof. vm_compute. reflexivity. Qed.

(** C4: with no tile in [classifications] the patching step raises
    [IndexError] before it runs any module; the state stays as it is and
    the exit status of the script is not 0. *)
Theorem patching_nothing (h : host) (options : options) (flags : list (string * bool))
    (s : process) (e : gisenv) (m : mapset_data) :
  files (db s) !! environ_GISRC h = Some e ->
  mapsets (db s) !! mapset_of e = Some m ->
  patching h options flags [] s = (inl IndexError, s) /\
  forall k : unit -> M process Z,
    exit_code ((let! u := patching h options flags [] in k u) s).1 = 1.
Proof.
  intros He Hm.
  assert (E : patching h options flags [] s = (inl IndexError, s)).
  { unfold patching. unfold bind at 1. unfold grass at 1.
    rewrite (region_of_Some _ _ _ _ He Hm). simpl. by destruct s. }
  split; [done|]. intros k. by rewrite (bind_inl _ _ _ _ _ E).
Qed.

Lemma patching_nothing_witness :
  patching Demo.laptop (Demo.opts 2 "") (parsed_flags false false false) []
    (start Demo.location) = (inl IndexError, start Demo.location).
Proof.
  apply (patching_nothing Demo.laptop (Demo.opts 2 "") (parsed_flags false false false)
           (start Demo.location) Demo.rc Demo.user1); reflexivity.
Defined.

End ParallelFacts.

(** ** The check of the mapset after the queue *)

Section MapsetCheck.
Import Grass Parallel.
Local Open Scope script_scope.

Lemma bind_inr_inv {S A B} (m : M S A) (k : A -> M S B) (s s' : S) (b : B) :
  bind m k s = (inr b, s') ->
  exists a s1, m s = (inr a, s1) /\ k a s1 = (inr b, s').
Proof.
  unfold bind. destruct (m s) as [[e|a] s1]; [done|]. intros H. by exists a, s1.
Qed.

Lemma grass_gisenv_inv (gisrc : string) (s s' : process) (e : gisenv) :
  grass (gisenv_of gisrc) s = (inr e, s') ->
  s' = s /\ files (db s) !! gisrc = Some e.
Proof.
  unfold grass, gisenv_of, session.
  destruct (files (db s) !! gisrc) as [e'|]; [|done].
  intros [= -> <-]. by destruct s.
Qed.

Lemma grass_gisenv_Some (gisrc : string) (s : process) (e : gisenv) :
  files (db s) !! gisrc = Some e -> grass (gisenv_of gisrc) s = (inr e, s).
Proof.
  intros H. unfold grass, gisenv_of. rewrite (session_Some _ _ _ _ H). by destruct s.
Qed.

(** What [generate_grid] saves as [start_cur_mapset] is the mapset of
    the session at that moment. *)
Lemma generate_grid_start (h : host) (g grid : string) (reg : region)
    (cats : list string) (start_cur_mapset : string) (s s1 : process) :
  generate_grid h g s = (inr (grid, reg, cats, start_cur_mapset), s1) ->
  exists e1, files (db s1) !! environ_GISRC h = Some e1 /\ MAPSET e1 = start_cur_mapset.
Proof.
  unfold generate_grid. intros H.
  apply bind_inr_inv in H as (? & ? & _ & H).
  apply bind_inr_inv in H as (? & ? & _ & H).
  apply bind_inr_inv in H as (? & ? & _ & H).
  apply bind_inr_inv in H as (? & ? & _ & H).
  apply bind_inr_inv in H as (e1 & s1' & Henv & H).
  apply grass_gisenv_inv in Henv as [-> Hfile].
  injection H as <- <- <- <- <-. by exists e1.
Qed.

(** C3: when [queue.wait()] has returned, whatever the jobs did, [main]
    reads the mapset of its session again and compares it with the one
    saved before the jobs were queued.  The check raises [grass.fatal]
    exactly when the two differ, which ends [main]; when they are equal
    [main] goes on with copying and patching the tiles. *)
Theorem mapset_check (h : host) (queue : queue_model) (options : options)
    (flags : list (string * bool)) (d : grassdb)
    (grid : string) (reg : region) (cats : list string) (start_cur_mapset : string)
    (s1 : process) (classifications : list string) (s2 : process) (e2 : gisenv) :
  let n_jobs := (set_test_nprocs h (n_jobs options)).1 in
  find_program h "r.learn.predict" = true ->
  1 < n_jobs ->
  generate_grid h (grid_rows_cols options n_jobs) (start d)
    = (inr (grid, reg, cats, start_cur_mapset), s1) ->
  predict_on_cells queue options n_jobs grid reg cats s1 = (inr classifications, s2) ->
  files (db s2) !! environ_GISRC h = Some e2 ->
  (exists e1, files (db s1) !! environ_GISRC h = Some e1 /\ MAPSET e1 = start_cur_mapset) /\
  ((exists msg, (verify_mapset h start_cur_mapset s2).1 = inl (Fatal msg))
   <-> MAPSET e2 <> start_cur_mapset) /\
  (MAPSET e2 <> start_cur_mapset ->
   main h queue options flags (start d) =
   (inl (Fatal ("new mapset is " +:+ MAPSET e2 +:+ ", but should be "
                +:+ start_cur_mapset)), s2)) /\
  (MAPSET e2 = start_cur_mapset ->
   main h queue options flags (start d) =
   (do! copy_tiles h (GISDBASE e2) (LOCATION_NAME e2) classifications in
    do! patching h options flags classifications in
    ret 0) s2).
Proof.
  intros n Hfound Hn Hgrid Hjobs He2.
  assert (Hv : verify_mapset h start_cur_mapset s2 =
    if negb (String.eqb (MAPSET e2) start_cur_mapset)
    then (inl (Fatal ("new mapset is " +:+ MAPSET e2 +:+ ", but should be "
                      +:+ start_cur_mapset)), s2)
    else (inr (GISDBASE e2, LOCATION_NAME e2), s2)).
  { unfold verify_mapset. rewrite (bind_inr _ _ _ _ _ (grass_gisenv_Some _ _ _ He2)).
    by destruct (String.eqb (MAPSET e2) start_cur_mapset). }
  assert (Hmain : main h queue options flags (start d) =
    (let! env := verify_mapset h start_cur_mapset in
     do! copy_tiles h env.1 env.2 classifications in
     do! patching h options flags classifications in
     ret 0) s2).
  { rewrite main_parallel by done. cbv zeta. fold n.
    rewrite (bind_inr _ _ _ _ _ Hgrid). by rewrite (bind_inr _ _ _ _ _ Hjobs). }
  split; [by eapply generate_grid_start|].
  destruct (String.eqb_spec (MAPSET e2) start_cur_mapset) as [Heq|Hneq];
    simpl in Hv.
  - split; [|split].
    + rewrite Hv. simpl. split; [by intros [msg ?]|done].
    + done.
    + intros _. rewrite Hmain. by rewrite (bind_inr _ _ _ _ _ Hv).
  - split; [|split].
    + rewrite Hv. simpl. split; [done|]. intros _. by eexists.
    + intros _. rewrite Hmain. by rewrite (bind_inl _ _ _ _ _ Hv).
    + done.
Qed.

Lemma mapset_check_witness :
  (main Demo.laptop Demo.leaky_queue (Demo.opts 2 "") (parsed_flags false false false)
     (start Demo.location)).1
  = inl (Fatal "new mapset is tmp_mapset_rlearnpredict_1, but should be user1") /\
  (main Demo.laptop Demo.queue (Demo.opts 2 "") (parsed_flags false false false)
     (start Demo.location)).1
  = inr 0.
Proof.
  pose (cats := ["1"; "2"; "3"; "4"]).
  pose (reg := Wind "ext" "10" "10").
  pose (s1 := (generate_grid Demo.laptop "2,2" (start Demo.location)).2).
  assert (Hgrid : generate_grid Demo.laptop
            (grid_rows_cols (Demo.opts 2 "") (set_test_nprocs Demo.laptop 2).1)
            (start Demo.location)
          = (inr ("tmp_grid_77", reg, cats, "user1"), s1)) by (vm_compute; reflexivity).
  split.
  - pose (s2 := (predict_on_cells Demo.leaky_queue (Demo.opts 2 "") 2 "tmp_grid_77"
                   reg cats s1).2).
    destruct (mapset_check Demo.laptop Demo.leaky_queue (Demo.opts 2 "")
                (parsed_flags false false false) Demo.location
                "tmp_grid_77" reg cats "user1" s1
                (map (classification "out") cats) s2
                {| GISDBASE := "/grassdata"; LOCATION_NAME := "utm32n";
                   MAPSET := "tmp_mapset_rlearnpredict_1" |})
      as (_ & _ & Hfatal & _);
      [reflexivity | reflexivity | exact Hgrid
      | vm_compute; reflexivity | vm_compute; reflexivity |].
    rewrite Hfatal; [reflexivity | discriminate].
  - pose (s2 := (predict_on_cells Demo.queue (Demo.opts 2 "") 2 "tmp_grid_77"
                   reg cats s1).2).
    destruct (mapset_check Demo.laptop Demo.queue (Demo.opts 2 "")
                (parsed_flags false false false) Demo.location
                "tmp_grid_77" reg cats "user1" s1
                (map (classification "out") cats) s2 Demo.rc)
      as (_ & _ & _ & Hgoes_on);
      [reflexivity | reflexivity | exact Hgrid
      | vm_compute; reflexivity | vm_compute; reflexivity |].
    rewrite Hgoes_on; [vm_compute; reflexivity | reflexivity].
Defined.

End MapsetCheck.

(** ** What the modules leave in the log *)

Section GrassLog.
Import Grass.
Local Open Scope script_scope.

Lemma keeps_session {X} (obs : grassdb -> X) (gisrc who : string) :
  keeps obs (session gisrc who).
Proof. intros d. unfold session. by destruct (files d !! gisrc). Qed.

Lemma keeps_current {X} (obs : grassdb -> X) (gisrc who : string) :
  keeps obs (current gisrc who).
Proof.
  unfold current. apply keeps_bind; [apply keeps_session|].
  intros e d. by destruct (mapsets d !! mapset_of e).
Qed.

Lemma keeps_find_file {X} (obs : grassdb -> X) (gisrc name element : string) :
  keeps obs (find_file gisrc name element).
Proof. intros d. unfold find_file. by destruct (files d !! gisrc). Qed.

Lemma keeps_copyfile {X} (obs : grassdb -> X) (src dst : string) :
  (forall f d, obs (set_files f d) = obs d) -> keeps obs (copyfile src dst).
Proof. intros H d. unfold copyfile. destruct (files d !! src); simpl; [apply H|done]. Qed.

End GrassLog.

(** Steps of a proof that a computation keeps an observation: the
    structure of the computation is followed, and a state update is
    checked by computation. *)
Ltac keeps_step :=
  first
    [ apply keeps_ret | apply keeps_raise | apply keeps_get
    | apply keeps_session | apply keeps_current | apply keeps_find_file
    | apply keeps_bind; [|intros]
    | apply keeps_for_each; intros
    | apply keeps_copyfile; intros; reflexivity
    | apply keeps_modify; intros; reflexivity
    | match goal with
      | |- keeps _ (match ?x with _ => _ end) => destruct x
      | |- keeps _ (if ?b then _ else _) => destruct b
      end ].

Ltac keeps_auto :=
  unfold Grass.update_mapset, Grass.region_of, Grass.gisenv_of,
         Grass.try_rmdir, Grass.try_remove;
  repeat keeps_step.

Section GrassLogged.
Import Grass.
Local Open Scope script_scope.

(** A module that is run enters the log, once, whether it fails or not. *)
Lemma run_then_log {A} (c : command) (rest : M grassdb A) (d : grassdb) :
  keeps log rest ->
  log ((do! run c in rest) d).2 = log d ++ [c].
Proof. intros H. unfold bind, run, modify. simpl. by rewrite H. Qed.

Lemma log_v_mkgrid gisrc map grid d :
  log (run_v_mkgrid gisrc map grid d).2 = log d ++ [v_mkgrid map grid].
Proof. apply run_then_log. keeps_auto. Qed.

Lemma log_v_category gisrc input option_ d :
  log (parse_v_category gisrc input option_ d).2 = log d ++ [v_category input option_].
Proof. apply run_then_log. keeps_auto. Qed.

Lemma log_v_db_select gisrc flags map where_ d :
  log (parse_v_db_select gisrc flags map where_ d).2
  = log d ++ [v_db_select flags map where_].
Proof. apply run_then_log. keeps_auto. Qed.

Lemma log_g_list gisrc type d :
  log (parse_g_list gisrc type d).2 = log d ++ [g_list type].
Proof. apply run_then_log. keeps_auto. Qed.

Lemma log_g_copy_raster gisrc arg d :
  log (run_g_copy_raster gisrc arg d).2 = log d ++ [g_copy "raster" arg].
Proof. apply run_then_log. keeps_auto. Qed.

Lemma log_g_copy_group gisrc arg d :
  log (run_g_copy_group gisrc arg d).2 = log d ++ [g_copy "group" arg].
Proof. apply run_then_log. keeps_auto. Qed.

Lemma log_g_remove gisrc flags type name d :
  log (run_g_remove gisrc flags type name d).2 = log d ++ [g_remove flags type name].
Proof. apply run_then_log. keeps_auto. Qed.

Lemma log_g_mapset gisrc flags mapset d :
  log (run_g_mapset gisrc flags mapset d).2 = log d ++ [g_mapset flags mapset].
Proof. apply run_then_log. keeps_auto. Qed.

Lemma log_g_region gisrc flags nsres ewres grow box d :
  log (run_g_region gisrc flags nsres ewres grow box d).2
  = log d ++ [g_region flags nsres ewres grow box].
Proof. apply run_then_log. keeps_auto. Qed.

Lemma log_r_patch gisrc input output d :
  log (run_r_patch gisrc input output d).2 = log d ++ [r_patch input output].
Proof. apply run_then_log. keeps_auto. Qed.

Lemma log_r_buildvrt gisrc input output d :
  log (run_r_buildvrt gisrc input output d).2 = log d ++ [r_buildvrt input output].
Proof. apply run_then_log. keeps_auto. Qed.

Lemma log_r_learn_predict gisrc call d :
  log (run_r_learn_predict gisrc call d).2 = log d ++ [r_learn_predict call].
Proof. apply run_then_log. keeps_auto. Qed.

End GrassLogged.

(** ** Patching the tiles *)

Section Patching.
Import Grass Parallel.
Local Open Scope script_scope.

Lemma grass_eq {A} (f : M grassdb A) (s : process) (r : error + A) (d : grassdb) :
  f (db s) = (r, d) -> grass f s = (r, set_db d s).
Proof. intros H. unfold grass. by rewrite H. Qed.

Lemma set_db_same (s : process) : set_db (db s) s = s.
Proof. by destruct s. Qed.

Lemma grass_region_of (gisrc : string) (s : process) (e : gisenv) (m : mapset_data) :
  files (db s) !! gisrc = Some e -> mapsets (db s) !! mapset_of e = Some m ->
  grass (region_of gisrc) s = (inr (ms_region m), s).
Proof.
  intros He Hm. rewrite (grass_eq _ _ _ _ (region_of_Some _ _ _ _ He Hm)).
  by rewrite set_db_same.
Qed.

Lemma parse_pair_no_comma (a b : string) :
  Py.mem "," a = false -> Py.mem "," b = false ->
  parse_pair (a +:+ "," +:+ b) = Some (a, b).
Proof.
  intros Ha Hb. unfold parse_pair.
  change (a +:+ "," +:+ b) with (a +:+ String "," b).
  by rewrite split_app, (split_no_sep _ b).
Qed.

Lemma locate_here (here : mapset_dir) (name : string) :
  Py.mem "@" name = false -> locate here name = (here, name).
Proof. intros H. unfold locate. by rewrite split_no_sep. Qed.

(** [g.copy raster=src,dst] of a raster of the current mapset. *)
Lemma g_copy_raster_here (gisrc src dst : string) (d : grassdb) (e : gisenv)
    (m : mapset_data) (r : raster) :
  files d !! gisrc = Some e -> mapsets d !! mapset_of e = Some m ->
  Py.mem "@" src = false -> Py.mem "," src = false -> Py.mem "," dst = false ->
  ms_rasters m !! src = Some r ->
  run_g_copy_raster gisrc (src +:+ "," +:+ dst) d =
  (inr tt, set_mapsets (alter (set_rasters <[dst := r]>) (mapset_of e))
             (logged (g_copy "raster" (src +:+ "," +:+ dst)) d)).
Proof.
  intros He Hm Hat Hsrc Hdst Hr. unfold run_g_copy_raster.
  unfold bind at 1. unfold run, modify. cbv beta iota.
  erewrite bind_inr; [|by apply (current_Some _ _ _ e m)].
  unfold bind at 1. unfold get. cbv beta iota.
  rewrite parse_pair_no_comma by done.
  unfold find_raster. rewrite locate_here by done. simpl. rewrite Hm, Hr. done.
Qed.

(** C5: with exactly one entry in [classifications] the patching step
    runs one module, [g.copy raster=tile,output]; neither [r.patch] nor
    [r.buildvrt] is run, and afterwards [output] holds what the tile
    holds.  Nothing else changes. *)
Theorem patching_single_tile (h : host) (options : options)
    (flags : list (string * bool)) (classification : string) (s : process)
    (e : gisenv) (m : mapset_data) (r : raster) :
  let tile := hd "" (Py.split "@" classification) in
  files (db s) !! environ_GISRC h = Some e ->
  mapsets (db s) !! mapset_of e = Some m ->
  ms_rasters m !! tile = Some r ->
  Py.mem "," tile = false ->
  Py.mem "," (output options) = false ->
  patching h options flags [classification] s =
  (inr tt,
   set_db (set_mapsets (alter (set_rasters <[output options := r]>) (mapset_of e))
             (logged (g_copy "raster" (tile +:+ "," +:+ output options)) (db s))) s)
  /\ combines (log (db (patching h options flags [classification] s).2))
     = combines (log (db s))
  /\ (exists m', mapsets (db (patching h options flags [classification] s).2)
                  !! mapset_of e = Some m' /\
                ms_rasters m' !! output options = Some r /\
                ms_rasters m' !! output options = ms_rasters m !! tile).
Proof.
  intros tile He Hm Hr Htile Hout.
  assert (E : patching h options flags [classification] s =
    (inr tt,
     set_db (set_mapsets (alter (set_rasters <[output options := r]>) (mapset_of e))
               (logged (g_copy "raster" (tile +:+ "," +:+ output options)) (db s))) s)).
  { unfold patching. rewrite (bind_inr _ _ _ _ _ (grass_region_of _ _ _ _ He Hm)).
    simpl. fold tile. apply grass_eq.
    apply (g_copy_raster_here _ _ _ _ e m r); try done. apply mem_hd_split. }
  split; [done|]. rewrite E. simpl. split.
  - unfold combines. rewrite omap_app. simpl. by rewrite app_nil_r.
  - exists (set_rasters <[output options := r]> m). split.
    + by rewrite lookup_alter_eq, Hm.
    + simpl. by rewrite lookup_insert_eq, Hr.
Qed.

Lemma patching_single_tile_witness :
  (patching Demo.laptop (Demo.opts 2 "1,1") (parsed_flags false false false)
     ["out_1@tmp_mapset_rlearnpredict_1"] (start Demo.with_tile)).1 = inr tt /\
  combines (log (db (patching Demo.laptop (Demo.opts 2 "1,1")
                       (parsed_flags false false false)
                       ["out_1@tmp_mapset_rlearnpredict_1"] (start Demo.with_tile)).2))
  = [].
Proof.
  destruct (patching_single_tile Demo.laptop (Demo.opts 2 "1,1")
              (parsed_flags false false false) "out_1@tmp_mapset_rlearnpredict_1"
              (start Demo.with_tile) Demo.rc
              (set_rasters <["out_1" := Layer "tile of cell 1"]> Demo.user1)
              (Layer "tile of cell 1"))
    as (E & Hcombines & _); [reflexivity | reflexivity | reflexivity
                             | reflexivity | reflexivity |].
  split; [by rewrite E | exact Hcombines].
Defined.

End Patching.

(** ** The grid and the order of the tiles *)

Section Grid.
Import Grass Parallel.
Local Open Scope script_scope.

Lemma mem_at_tmp_grid (pid : Z) : Py.mem "@" ("tmp_grid_" +:+ Py.fmt_d pid) = false.
Proof. rewrite mem_app, mem_fmt_d by auto. done. Qed.

Lemma run_v_mkgrid_ok (gisrc map grid : string) (d : grassdb) (e : gisenv)
    (m : mapset_data) (rows cols : Z) :
  files d !! gisrc = Some e -> mapsets d !! mapset_of e = Some m ->
  parse_grid grid = Some (rows, cols) -> 1 <= rows -> 1 <= cols ->
  run_v_mkgrid gisrc map grid d =
  (inr tt, set_mapsets (alter (set_vectors <[map := grid_cats rows cols]>) (mapset_of e))
             (logged (v_mkgrid map grid) d)).
Proof.
  intros He Hm Hgrid Hrows Hcols. unfold run_v_mkgrid.
  unfold bind at 1. unfold run, modify. cbv beta iota.
  erewrite bind_inr; [|by apply (current_Some _ _ _ e m)].
  rewrite Hgrid.
  unfold v_mkgrid_accepts.
  destruct (Z.leb_spec 1 rows), (Z.leb_spec 1 cols); try lia. done.
Qed.

Lemma parse_v_category_ok (gisrc input option_ : string) (d : grassdb) (e : gisenv)
    (m : mapset_data) (cats : list string) :
  files d !! gisrc = Some e -> mapsets d !! mapset_of e = Some m ->
  Py.mem "@" input = false -> ms_vectors m !! input = Some cats ->
  parse_v_category gisrc input option_ d
  = (inr cats, logged (v_category input option_) d).
Proof.
  intros He Hm Hat Hcats. unfold parse_v_category.
  unfold bind at 1. unfold run, modify. cbv beta iota.
  erewrite bind_inr; [|by apply (current_Some _ _ _ e m)].
  unfold bind at 1. unfold get. cbv beta iota.
  unfold find_vector. rewrite locate_here by done. simpl. by rewrite Hm, Hcats.
Qed.

Lemma NoDup_grid_cats (rows cols : Z) : NoDup (grid_cats rows cols).
Proof.
  unfold grid_cats.
  change (NoDup ((fun k => Py.fmt_d (Z.of_nat k)) <$> seq 1 (Z.to_nat (rows * cols)))).
  apply NoDup_fmap_2_strong; [|apply NoDup_seq].
  intros a b _ _ H. apply fmt_d_inj in H. lia.
Qed.

Lemma generate_grid_ok (h : host) (g : string) (s : process) (e : gisenv)
    (m : mapset_data) (rows cols : Z) :
  files (db s) !! environ_GISRC h = Some e ->
  mapsets (db s) !! mapset_of e = Some m ->
  parse_grid g = Some (rows, cols) -> 1 <= rows -> 1 <= cols ->
  generate_grid h g s =
  (inr ("tmp_grid_" +:+ Py.fmt_d (getpid h), ms_region m, grid_cats rows cols, MAPSET e),
   grid_made h g e rows cols s).
Proof.
  intros He Hm Hgrid Hrows Hcols. unfold generate_grid.
  erewrite bind_inr;
    [|apply grass_eq; by apply (run_v_mkgrid_ok _ _ _ _ e m rows cols)].
  unfold bind at 1. unfold rm_vectors_append, modify. cbv beta iota.
  erewrite bind_inr; cycle 1.
  { apply grass_eq. simpl.
    eapply (region_of_Some _ _ e); [done|]. simpl. by rewrite lookup_alter_eq, Hm. }
  erewrite bind_inr; cycle 1.
  { apply grass_eq. simpl.
    eapply (parse_v_category_ok _ _ _ _ e); [done| |apply mem_at_tmp_grid|].
    - simpl. by rewrite lookup_alter_eq, Hm.
    - simpl. by rewrite lookup_insert_eq. }
  erewrite bind_inr; cycle 1.
  { apply grass_eq. simpl. unfold gisenv_of. by apply session_Some. }
  rewrite dict_keys_NoDup by apply NoDup_grid_cats. done.
Qed.

End Grid.

(** ** Jobs are queued by the parent only *)

Section Quiet.
Import Grass.
Local Open Scope script_scope.

Lemma dispatched_app (l1 l2 : list command) :
  dispatched (l1 ++ l2) = dispatched l1 ++ dispatched l2.
Proof. apply omap_app. Qed.

Lemma quiet_module {A} (m : M grassdb A) (c : command) :
  (forall d, log (m d).2 = log d ++ [c]) -> dispatched [c] = [] -> keeps jobs_of m.
Proof.
  intros Hlog Hc d. unfold jobs_of. by rewrite Hlog, dispatched_app, Hc, app_nil_r.
Qed.

Lemma quiet_v_mkgrid gisrc map grid : keeps jobs_of (run_v_mkgrid gisrc map grid).
Proof. eapply quiet_module; [apply log_v_mkgrid|done]. Qed.
Lemma quiet_v_category gisrc input o : keeps jobs_of (parse_v_category gisrc input o).
Proof. eapply quiet_module; [apply log_v_category|done]. Qed.
Lemma quiet_v_db_select gisrc f map w : keeps jobs_of (parse_v_db_select gisrc f map w).
Proof. eapply quiet_module; [apply log_v_db_select|done]. Qed.
Lemma quiet_g_list gisrc type : keeps jobs_of (parse_g_list gisrc type).
Proof. eapply quiet_module; [apply log_g_list|done]. Qed.
Lemma quiet_g_copy_raster gisrc arg : keeps jobs_of (run_g_copy_raster gisrc arg).
Proof. eapply quiet_module; [apply log_g_copy_raster|done]. Qed.
Lemma quiet_g_copy_group gisrc arg : keeps jobs_of (run_g_copy_group gisrc arg).
Proof. eapply quiet_module; [apply log_g_copy_group|done]. Qed.
Lemma quiet_g_remove gisrc f type name : keeps jobs_of (run_g_remove gisrc f type name).
Proof. eapply quiet_module; [apply log_g_remove|done]. Qed.
Lemma quiet_g_mapset gisrc f mapset : keeps jobs_of (run_g_mapset gisrc f mapset).
Proof. eapply quiet_module; [apply log_g_mapset|done]. Qed.
Lemma quiet_g_region gisrc f n e g box : keeps jobs_of (run_g_region gisrc f n e g box).
Proof. eapply quiet_module; [apply log_g_region|done]. Qed.
Lemma quiet_r_patch gisrc input output : keeps jobs_of (run_r_patch gisrc input output).
Proof. eapply quiet_module; [apply log_r_patch|done]. Qed.
Lemma quiet_r_buildvrt gisrc input output :
  keeps jobs_of (run_r_buildvrt gisrc input output).
Proof. eapply quiet_module; [apply log_r_buildvrt|done]. Qed.
Lemma quiet_r_learn_predict gisrc call : keeps jobs_of (run_r_learn_predict gisrc call).
Proof. eapply quiet_module; [apply log_r_learn_predict|done]. Qed.
Lemma quiet_region_of gisrc : keeps jobs_of (region_of gisrc).
Proof. keeps_auto. Qed.
Lemma quiet_gisenv_of gisrc : keeps jobs_of (gisenv_of gisrc).
Proof. keeps_auto. Qed.
Lemma quiet_try_rmdir dir : keeps jobs_of (try_rmdir dir).
Proof. keeps_auto. Qed.
Lemma quiet_try_remove path : keeps jobs_of (try_remove path).
Proof. keeps_auto. Qed.
Lemma quiet_copyfile src dst : keeps jobs_of (copyfile src dst).
Proof. keeps_auto. Qed.

Lemma keeps_worker_grass {X A} (obs : grassdb -> X) (f : string -> M grassdb A) :
  (forall rc, keeps obs (f rc)) -> keeps (fun s => obs (Worker.db s)) (Worker.grass f).
Proof.
  intros H s. unfold Worker.grass. specialize (H (Worker.GISRC s) (Worker.db s)).
  by destruct (f (Worker.GISRC s) (Worker.db s)).
Qed.

Lemma keeps_parallel_grass {X A} (obs : grassdb -> X) (f : M grassdb A) :
  keeps obs f -> keeps (fun s => obs (Parallel.db s)) (Parallel.grass f).
Proof.
  intros H s. unfold Parallel.grass. specialize (H (Parallel.db s)).
  by destruct (f (Parallel.db s)).
Qed.

End Quiet.

Create HintDb quiet discriminated.
#[export] Hint Resolve quiet_v_mkgrid quiet_v_category quiet_v_db_select quiet_g_list
  quiet_g_copy_raster quiet_g_copy_group quiet_g_remove quiet_g_mapset quiet_g_region
  quiet_r_patch quiet_r_buildvrt quiet_r_learn_predict quiet_region_of quiet_gisenv_of
  quiet_try_rmdir quiet_try_remove quiet_copyfile : quiet.

(** The scripts are followed statement by statement; every module they
    run is quiet. *)
Ltac quiet_script :=
  repeat first
    [ apply keeps_ret | apply keeps_raise | apply keeps_get
    | apply keeps_bind; [|intros]
    | apply keeps_for_each; intros
    | apply (keeps_worker_grass Grass.jobs_of); intros; solve [auto with quiet]
    | apply (keeps_parallel_grass Grass.jobs_of); solve [auto with quiet]
    | apply keeps_modify; intros; reflexivity
    | match goal with
      | |- keeps _ (match ?x with _ => _ end) => destruct x
      | |- keeps _ (if ?b then _ else _) => destruct b
      end ].

Section QuietScripts.
Import Grass.
Local Open Scope script_scope.

Lemma quiet_worker_main pid options flags :
  keeps (fun s => jobs_of (Worker.db s)) (Worker.main pid options flags).
Proof. unfold Worker.main, Worker.switch_mapset, Worker.setenv_GISRC. quiet_script. Qed.

Lemma quiet_worker_exec pid gisrc c : keeps jobs_of (Worker.exec pid gisrc c).
Proof.
  intros d. unfold Worker.exec.
  pose proof (quiet_worker_main pid (Worker.parser c).1 (Worker.parser c).2
                {| Worker.db := d; Worker.GISRC := gisrc |}) as H.
  by destruct (Worker.main _ _ _ _).
Qed.

Lemma quiet_queue child_pid gisrc nprocs jobs d :
  jobs_of (Parallel.ParallelModuleQueue child_pid gisrc nprocs jobs d) = jobs_of d.
Proof.
  unfold Parallel.ParallelModuleQueue.
  generalize (imap (fun (k : nat) (c : module_call) => (k, c)) jobs). intros l.
  revert d. induction l as [|job l IH]; intros d; simpl; [done|].
  rewrite IH. apply quiet_worker_exec.
Qed.

Lemma quiet_verify_mapset h start_cur_mapset :
  keeps (fun s => jobs_of (Parallel.db s)) (Parallel.verify_mapset h start_cur_mapset).
Proof. unfold Parallel.verify_mapset. quiet_script. Qed.

Lemma quiet_copy_tiles h gisdbase location classifications :
  keeps (fun s => jobs_of (Parallel.db s))
    (Parallel.copy_tiles h gisdbase location classifications).
Proof. unfold Parallel.copy_tiles. quiet_script. Qed.

Lemma quiet_patching h options flags classifications :
  keeps (fun s => jobs_of (Parallel.db s))
    (Parallel.patching h options flags classifications).
Proof.
  unfold Parallel.patching, Parallel.rm_rasters_extend. cbv zeta.
  destruct (Parallel.flag flags "v"); quiet_script.
Qed.

End QuietScripts.

(** ** The direct path and the jobs of the grid *)

Section Jobs.
Import Grass Parallel.
Local Open Scope script_scope.

Lemma log_logged_all (cs : list command) (d : grassdb) :
  log (logged_all cs d) = log d ++ cs.
Proof.
  unfold logged_all. revert d. induction cs as [|c cs IH]; intros d; simpl.
  - by rewrite app_nil_r.
  - rewrite IH. simpl. by rewrite <- app_assoc.
Qed.

Lemma queue_puts (f : string -> module_call) (cats : list string) (s : process) :
  for_each cats (fun cat => grass (run (queued (f cat)))) s =
  (inr tt, set_db (logged_all (map (fun cat => queued (f cat)) cats) (db s)) s).
Proof.
  revert s. induction cats as [|cat cats IH]; intros s; simpl.
  - unfold ret. by rewrite set_db_same.
  - unfold bind at 1. unfold grass at 1, run, modify. cbv beta iota.
    rewrite IH. done.
Qed.

(** The loop over the cells always returns: one job per cell was put
    into the queue, in the order of [cats], and the queue ran. *)
Lemma predict_on_cells_eq (queue : queue_model) (options : options) (n_jobs : Z)
    (grid : string) (reg : region) (cats : list string) (s : process) :
  predict_on_cells queue options n_jobs grid reg cats s =
  (inr (map (classification (output options)) cats),
   set_db (queue n_jobs (map (r_grid_predict options grid reg) cats)
             (logged_all (map (fun cat => queued (r_grid_predict options grid reg cat)) cats)
                (db s))) s).
Proof.
  unfold predict_on_cells. rewrite (bind_inr _ _ _ _ _ (queue_puts _ _ _)).
  unfold bind, grass, modify, ret. done.
Qed.

Lemma dispatched_queued (f : string -> module_call) (cats : list string) :
  dispatched (map (fun cat => queued (f cat)) cats) = map f cats.
Proof. induction cats as [|c cats IH]; simpl; [done|]. unfold dispatched in *. simpl. by rewrite IH. Qed.

Lemma parse_grid_fmt (rows cols : Z) :
  parse_grid (Py.fmt_d rows +:+ "," +:+ Py.fmt_d cols) = Some (rows, cols).
Proof.
  unfold parse_grid.
  change (Py.fmt_d rows +:+ "," +:+ Py.fmt_d cols)
    with (Py.fmt_d rows +:+ String "," (Py.fmt_d cols)).
  rewrite split_app by (apply mem_fmt_d; auto).
  rewrite split_no_sep by (apply mem_fmt_d; auto).
  by rewrite !int_fmt_d.
Qed.

Lemma length_grid_cats (rows cols : Z) :
  0 <= rows * cols -> Z.of_nat (length (grid_cats rows cols)) = rows * cols.
Proof. intros H. unfold grid_cats. rewrite length_map, length_seq. lia. Qed.

(** The regions of the mapsets are not touched by a run of the model. *)
Lemma region_r_learn_predict (gisrc : string) (call : predict_call) (dir : mapset_dir) :
  keeps (fun d => ms_region <$> mapsets d !! dir) (run_r_learn_predict gisrc call).
Proof.
  unfold run_r_learn_predict, run. keeps_auto.
  apply keeps_modify. intros d. simpl.
  match goal with
  | |- context [alter _ ?k _] => destruct (decide (k = dir)) as [->|Hne]
  end.
  - rewrite lookup_alter_eq. by destruct (mapsets d !! dir).
  - by rewrite lookup_alter_ne.
Qed.

(** C2: when the number of processes is 1 or less, [main] is one run of
    [r.learn.predict] with the options as they were given: for every
    queue the result is the same, the log grows by this one module, and
    no mapset has its region changed.  When it is [n > 1] and no grid
    is given, [v.mkgrid] gets the grid [n,n] and one job for each of its
    [n * n] cells is put into the queue. *)
Theorem direct_or_grid (h : host) (options : options) (flags : list (string * bool))
    (d : grassdb) (e : gisenv) (m : mapset_data) (child_pid : nat -> Z) :
  let n := (set_test_nprocs h (n_jobs options)).1 in
  let gisrc := environ_GISRC h in
  find_program h "r.learn.predict" = true ->
  files d !! gisrc = Some e ->
  mapsets d !! mapset_of e = Some m ->
  (n <= 1 ->
   forall queue : queue_model,
     let call := {| pc_group := group options; pc_output := output options;
                    pc_load_model := load_model options;
                    pc_chunksize := chunksize options;
                    pc_flags := flags_str flags |} in
     let final := (main h queue options flags (start d)).2 in
     main h queue options flags (start d)
       = (do! grass (run_r_learn_predict gisrc call) in ret 0) (start d) /\
     log (db final) = log d ++ [r_learn_predict call] /\
     inferences (log (db final)) = inferences (log d) ++ [call] /\
     jobs_of (db final) = jobs_of d /\
     forall dir, ms_region <$> mapsets (db final) !! dir = ms_region <$> mapsets d !! dir)
  /\
  (1 < n -> grid options = "" ->
   let final := (main h (ParallelModuleQueue child_pid gisrc) options flags (start d)).2 in
   let grid := "tmp_grid_" +:+ Py.fmt_d (getpid h) in
   jobs_of (db final)
     = jobs_of d ++ map (r_grid_predict options grid (ms_region m)) (grid_cats n n) /\
   Z.of_nat (length (map (r_grid_predict options grid (ms_region m)) (grid_cats n n)))
     = n * n).
Proof.
  intros n gisrc Hfound He Hm. split.
  - intros Hn queue call final.
    assert (E : main h queue options flags (start d)
                = (do! grass (run_r_learn_predict gisrc call) in ret 0) (start d))
      by (by apply main_direct).
    assert (Hdb : db final = (run_r_learn_predict gisrc call d).2).
    { unfold final. rewrite E. unfold bind, grass, ret. simpl.
      by destruct (run_r_learn_predict gisrc call d) as [[?|?] ?]. }
    assert (Hlog : log (db final) = log d ++ [r_learn_predict call])
      by (rewrite Hdb; apply log_r_learn_predict).
    split; [done|]. split; [done|]. split; [|split].
    + rewrite Hlog. unfold inferences. by rewrite omap_app.
    + unfold jobs_of. rewrite Hlog, dispatched_app. simpl. by rewrite app_nil_r.
    + intros dir. rewrite Hdb. apply (region_r_learn_predict gisrc call dir).
  - intros Hn Hgrid final grid. split.
    + unfold final. rewrite main_parallel by done. cbv zeta. fold n.
      assert (Hg : grid_rows_cols options n = Py.fmt_d n +:+ "," +:+ Py.fmt_d n)
        by (unfold grid_rows_cols; by rewrite Hgrid).
      erewrite bind_inr; cycle 1.
      { apply (generate_grid_ok h _ (start d) e m n n); try done; try lia.
        rewrite Hg. apply parse_grid_fmt. }
      cbv beta iota.
      rewrite (bind_inr _ _ _ _ _ (predict_on_cells_eq _ _ _ _ _ _ _)).
      pose proof (keeps_bind (fun s => jobs_of (db s)) _ _
        (quiet_verify_mapset h (MAPSET e))
        (fun env => keeps_bind (fun s => jobs_of (db s)) _ _
           (quiet_copy_tiles h env.1 env.2
              (map (classification (output options)) (grid_cats n n)))
           (fun _ => keeps_bind (fun s => jobs_of (db s)) _ _
              (quiet_patching h options flags
                 (map (classification (output options)) (grid_cats n n)))
              (fun _ => keeps_ret _ 0)))) as Hrest.
      rewrite Hrest. simpl. rewrite quiet_queue.
      unfold jobs_of. rewrite log_logged_all, dispatched_app, dispatched_queued.
      simpl. rewrite !dispatched_app. simpl. by rewrite !app_nil_r.
    + rewrite length_map. apply length_grid_cats. nia.
Qed.

End Jobs.

(** ** The grid option *)

Section GridOption.
Import Grass Parallel.
Local Open Scope script_scope.




End GridOption.

(** ** The order of the tiles in the patch *)

Section TileOrder.
Import Grass Parallel.
Local Open Scope script_scope.

Lemma direct_or_grid_witness :
  log (db (main Demo.laptop Demo.queue (Demo.opts 1 "") (parsed_flags true true false)
             (start Demo.location)).2)
  = [r_learn_predict {| pc_group := "grp"; pc_output := "out";
                        pc_load_model := "model.gz"; pc_chunksize := "100000";
                        pc_flags := "pz" |}] /\
  jobs_of (db (main Demo.laptop Demo.queue (Demo.opts 2 "") (parsed_flags false false false)
                 (start Demo.location)).2)
  = map (r_grid_predict (Demo.opts 2 "") "tmp_grid_77" (Wind "ext" "10" "10"))
      ["1"; "2"; "3"; "4"].
Proof.
  split.
  - destruct (direct_or_grid Demo.laptop (Demo.opts 1 "") (parsed_flags true true false)
                Demo.location Demo.rc Demo.user1 (fun k => 100 + Z.of_nat k))
      as [Hdirect _]; [reflexivity | reflexivity | reflexivity |].
    apply (Hdirect ltac:(simpl; lia) Demo.queue).
  - destruct (direct_or_grid Demo.laptop (Demo.opts 2 "") (parsed_flags false false false)
                Demo.location Demo.rc Demo.user1 (fun k => 100 + Z.of_nat k))
      as [_ Hgrid]; [reflexivity | reflexivity | reflexivity |].
    apply (Hgrid ltac:(simpl; lia) eq_refl).
Defined.

Lemma tile_of_classification (output cat : string) :
  Py.mem "@" output = false -> Py.mem "@" cat = false ->
  hd "" (Py.split "@" (classification output cat)) = tmp_output output cat.
Proof.
  intros Hout Hcat. unfold classification.
  change (tmp_output output cat +:+ "@" +:+ new_mapset cat)
    with (tmp_output output cat +:+ String "@" (new_mapset cat)).
  rewrite split_app; [done|].
  unfold tmp_output. by rewrite !mem_app, Hout, Hcat.
Qed.

Lemma region_of_state (gisrc : string) (d : grassdb) : (region_of gisrc d).2 = d.
Proof. apply (keeps_bind (fun d => d)); [apply keeps_current | intros; apply keeps_ret]. Qed.

Lemma grass_region_of_inv (gisrc : string) (s s' : process) (r : region) :
  grass (region_of gisrc) s = (inr r, s') -> s' = s.
Proof.
  unfold grass. pose proof (region_of_state gisrc (db s)) as H.
  destruct (region_of gisrc (db s)) as [x d']. simpl in H. subst d'.
  intros [= _ <-]. apply set_db_same.
Qed.

(** With two tiles or more, a patching step that returns has run one
    module last: [r.patch], or [r.buildvrt] with [-v], on the tiles in
    the order of [classifications]. *)
Lemma patching_many_log (h : host) (options : options) (flags : list (string * bool))
    (classifications : list string) (s s' : process) (u : unit) :
  1 < Z.of_nat (length classifications) ->
  patching h options flags classifications s = (inr u, s') ->
  log (db s') = log (db s) ++
    [(if flag flags "v" then r_buildvrt else r_patch)
       (map (fun x => hd "" (Py.split "@" x)) classifications) (output options)].
Proof.
  intros Hlen H. unfold patching in H.
  apply bind_inr_inv in H as (r & sa & Hreg & H).
  apply grass_region_of_inv in Hreg as ->.
  rewrite (proj2 (Z.ltb_lt _ _) Hlen) in H. cbv zeta in H.
  apply bind_inr_inv in H as ([] & sb & Hmod & H).
  assert (Hdb : db s' = db sb).
  { destruct (negb (flag flags "v"));
      unfold rm_rasters_extend, modify, ret in H; by inversion H. }
  rewrite Hdb. unfold grass in Hmod.
  destruct (flag flags "v").
  - pose proof (log_r_buildvrt (environ_GISRC h)
                  (map (fun x => hd "" (Py.split "@" x)) classifications)
                  (output options) (db s)) as Hlog.
    destruct (run_r_buildvrt _ _ _ _) as [x d']. injection Hmod as _ <-. done.
  - pose proof (log_r_patch (environ_GISRC h)
                  (map (fun x => hd "" (Py.split "@" x)) classifications)
                  (output options) (db s)) as Hlog.
    destruct (run_r_patch _ _ _ _) as [x d']. injection Hmod as _ <-. done.
Qed.

(** On a grid of two cells or more, [main] that returns 0 has run as
    its last module [r.patch] (or [r.buildvrt] with [-v]) on the tiles
    of the cells in the order in which [v.category] listed them, for
    every queue. *)
Lemma main_tiles_in_listing_order (h : host) (queue : queue_model) (options : options)
    (flags : list (string * bool)) (d : grassdb) (e : gisenv) (m : mapset_data)
    (rows cols : Z) :
  let n := (set_test_nprocs h (n_jobs options)).1 in
  find_program h "r.learn.predict" = true ->
  1 < n ->
  files d !! environ_GISRC h = Some e ->
  mapsets d !! mapset_of e = Some m ->
  parse_grid (grid_rows_cols options n) = Some (rows, cols) ->
  1 <= rows -> 1 <= cols -> 2 <= rows * cols ->
  Py.mem "@" (output options) = false ->
  (main h queue options flags (start d)).1 = inr 0 ->
  exists before,
    log (db (main h queue options flags (start d)).2) =
    before ++
    [(if flag flags "v" then r_buildvrt else r_patch)
       (map (fun k => tmp_output (output options) (Py.fmt_d (Z.of_nat k)))
            (seq 1 (Z.to_nat (rows * cols))))
       (output options)].
Proof.
  intros n Hfound Hn He Hm Hgrid Hrows Hcols Htwo Hout Hok.
  destruct (main h queue options flags (start d)) as [r sf] eqn:E.
  simpl in Hok. subst r. simpl.
  rewrite main_parallel in E by done. cbv zeta in E. fold n in E.
  erewrite bind_inr in E;
    [|by apply (generate_grid_ok h _ (start d) e m rows cols)].
  cbv beta iota in E.
  rewrite (bind_inr _ _ _ _ _ (predict_on_cells_eq _ _ _ _ _ _ _)) in E.
  apply bind_inr_inv in E as (env & s2 & _ & E).
  apply bind_inr_inv in E as (? & s3 & _ & E).
  apply bind_inr_inv in E as (u & s4 & Hpatch & E).
  injection E as <-.
  apply patching_many_log in Hpatch.
  - exists (log (db s3)). rewrite Hpatch. do 3 f_equal.
    unfold grid_cats. rewrite !map_map. apply map_ext. intros k.
    apply tile_of_classification; [done|]. apply mem_fmt_d. auto.
  - rewrite length_map, length_grid_cats; lia.
Qed.

(** The patching step does not sort: handed the tile of cell 2 before
    the tile of cell 1, it returns, and [r.patch] got the tiles in this
    order. *)
Lemma tiles_not_sorted :
  (patching Demo.laptop (Demo.opts 2 "1,2") (parsed_flags false false false)
     ["out_2@tmp_mapset_rlearnpredict_2"; "out_1@tmp_mapset_rlearnpredict_1"]
     (start Demo.with_tiles)).1 = inr tt /\
  combines
    (log (db (patching Demo.laptop (Demo.opts 2 "1,2") (parsed_flags false false false)
                ["out_2@tmp_mapset_rlearnpredict_2"; "out_1@tmp_mapset_rlearnpredict_1"]
                (start Demo.with_tiles)).2))
  = [r_patch ["out_2"; "out_1"] "out"] /\
  omap cell_id ["out_2"; "out_1"] = [2; 1] /\
  ascending (omap cell_id ["out_2"; "out_1"]) = false.
Proof.
  split; [vm_compute; reflexivity|]. split; [vm_compute; reflexivity|].
  split; vm_compute; reflexivity.
Qed.

(** C6, as amended: the tiles are combined in the order of the list the
    patching step is handed; the script sorts nowhere.  A patching step
    on two tiles or more that returns has run as its last module
    [r.patch] (or [r.buildvrt] with [-v]) on the names of the tiles in
    the order of [classifications].  In a run of [main] that returns 0
    this list was built when the jobs were put into the queue, one tile
    for each cell in the order in which [v.category] listed the cells
    of the grid; this holds for every queue, so the order in which the
    jobs end has no part in it. *)
Theorem tiles_in_dispatch_order (h : host) (options : options)
    (flags : list (string * bool)) :
  (forall (classifications : list string) (s s' : process) (u : unit),
     1 < Z.of_nat (length classifications) ->
     patching h options flags classifications s = (inr u, s') ->
     log (db s') = log (db s) ++
       [(if flag flags "v" then r_buildvrt else r_patch)
          (map (fun x => hd "" (Py.split "@" x)) classifications) (output options)]) /\
  (forall (queue : queue_model) (d : grassdb) (e : gisenv) (m : mapset_data)
          (rows cols : Z),
     let n := (set_test_nprocs h (n_jobs options)).1 in
     find_program h "r.learn.predict" = true ->
     1 < n ->
     files d !! environ_GISRC h = Some e ->
     mapsets d !! mapset_of e = Some m ->
     parse_grid (grid_rows_cols options n) = Some (rows, cols) ->
     1 <= rows -> 1 <= cols -> 2 <= rows * cols ->
     Py.mem "@" (output options) = false ->
     (main h queue options flags (start d)).1 = inr 0 ->
     exists before,
       log (db (main h queue options flags (start d)).2) =
       before ++
       [(if flag flags "v" then r_buildvrt else r_patch)
          (map (tmp_output (output options)) (grid_cats rows cols))
          (output options)]).
Proof.
  split.
  - intros classifications s s' u. apply patching_many_log.
  - intros queue d e m rows cols n Hfound Hn He Hm Hgrid Hrows Hcols Htwo Hout Hok.
    destruct (main_tiles_in_listing_order h queue options flags d e m rows cols
                Hfound Hn He Hm Hgrid Hrows Hcols Htwo Hout Hok) as [before Hlog].
    exists before. rewrite Hlog. unfold grid_cats. by rewrite map_map.
Qed.

Lemma tiles_in_dispatch_order_witness :
  log (db (patching Demo.laptop (Demo.opts 2 "1,2") (parsed_flags false false false)
             ["out_2@tmp_mapset_rlearnpredict_2"; "out_1@tmp_mapset_rlearnpredict_1"]
             (start Demo.with_tiles)).2)
  = [] ++ [r_patch ["out_2"; "out_1"] "out"] /\
  exists before,
    log (db (main Demo.laptop Demo.queue (Demo.opts 2 "") (parsed_flags false false false)
               (start Demo.location)).2)
    = before ++ [r_patch ["out_1"; "out_2"; "out_3"; "out_4"] "out"].
Proof.
  destruct (tiles_in_dispatch_order Demo.laptop (Demo.opts 2 "")
              (parsed_flags false false false)) as [Hpatching Hmain].
  split.
  - apply (Hpatching
             ["out_2@tmp_mapset_rlearnpredict_2"; "out_1@tmp_mapset_rlearnpredict_1"]
             (start Demo.with_tiles) _ tt); [vm_compute; reflexivity|].
    vm_compute. reflexivity.
  - apply (Hmain Demo.queue Demo.location Demo.rc Demo.user1 2 2);
      [reflexivity | reflexivity | reflexivity | reflexivity | reflexivity
      | lia | lia | lia | reflexivity | vm_compute; reflexivity].
Defined.

End TileOrder.

(** ** r.learn.predict.worker: the mapset of a cell *)

Section WorkerMapset.
Import Grass Worker.
Local Open Scope script_scope.

Lemma append_neq (s t : string) (c : ascii) : s <> s +:+ String c t.
Proof. induction s as [|a s IH]; simpl; [done|]. intros [= H]. by apply IH. Qed.

(** With a readable session, [switch_mapset] returns, and this is the
    state it leaves. *)
Lemma switch_mapset_eq (pid : Z) (new_mapset gisrc : string) (d : grassdb) (e : gisenv) :
  files d !! gisrc = Some e ->
  let dir := (GISDBASE e, LOCATION_NAME e, new_mapset) in
  let newgisrc := gisrc +:+ "_" +:+ Py.fmt_d pid in
  let e' := {| GISDBASE := GISDBASE e; LOCATION_NAME := LOCATION_NAME e;
               MAPSET := new_mapset |} in
  switch_mapset pid new_mapset {| db := d; GISRC := gisrc |} =
  (inr (MAPSET e, newgisrc),
   {| db := {| mapsets := <[dir := Grass.new_mapset (default_wind d)]>
                            (delete dir (mapsets d));
               files := <[newgisrc := e']> (<[newgisrc := e]> (delete newgisrc (files d)));
               default_wind := default_wind d;
               log := log d ++ [g_mapset "c" new_mapset] |};
      GISRC := newgisrc |}).
Proof.
  intros He dir newgisrc e'.
  unfold switch_mapset.
  unfold bind at 1. unfold Worker.grass at 1. simpl.
  unfold gisenv_of. rewrite (session_Some _ _ _ _ He).
  unfold bind at 1. unfold Worker.grass at 1. simpl.
  unfold bind at 1. unfold get at 1.
  unfold bind at 1. unfold Worker.grass at 1. simpl.
  unfold bind at 1. unfold Worker.grass at 1. simpl.
  unfold copyfile. simpl.
  rewrite lookup_delete_ne by (symmetry; apply append_neq). rewrite He.
  unfold bind at 1. unfold setenv_GISRC, modify. simpl.
  unfold bind at 1. unfold Worker.grass at 1. simpl.
  unfold run_g_mapset.
  unfold bind at 1. unfold run, modify. simpl.
  unfold bind at 1. unfold session at 1. simpl. rewrite lookup_insert_eq.
  unfold bind at 1. unfold get. simpl.
  rewrite lookup_delete_eq. simpl.
  unfold bind, Worker.grass, session. simpl.
  rewrite lookup_insert_eq. simpl. rewrite String.eqb_refl. simpl.
  done.
Qed.

(** C7: the worker removes the directory of its mapset before
    [g.mapset -c] creates the mapset.  Whatever a run that crashed left
    there ([stale]), the switch returns, the mapset is the empty mapset
    [g.mapset -c] creates, the other mapsets are as they were, and the
    whole outcome is the one in a location without the leftover.  The
    session file of the caller still names the old mapset. *)
Theorem switch_mapset_clean (pid : Z) (new_mapset gisrc : string) (d : grassdb)
    (e : gisenv) (stale : mapset_data) :
  files d !! gisrc = Some e ->
  let dir := (GISDBASE e, LOCATION_NAME e, new_mapset) in
  let newgisrc := gisrc +:+ "_" +:+ Py.fmt_d pid in
  let leftover := set_mapsets <[dir := stale]> d in
  let r := switch_mapset pid new_mapset {| db := leftover; GISRC := gisrc |} in
  r.1 = inr (MAPSET e, newgisrc) /\
  mapsets (db r.2) !! dir = Some (Grass.new_mapset (default_wind d)) /\
  (forall dir', dir' <> dir -> mapsets (db r.2) !! dir' = mapsets d !! dir') /\
  r = switch_mapset pid new_mapset
        {| db := set_mapsets (delete dir) d; GISRC := gisrc |} /\
  files (db r.2) !! gisrc = Some e /\
  files (db r.2) !! GISRC r.2
  = Some {| GISDBASE := GISDBASE e; LOCATION_NAME := LOCATION_NAME e;
            MAPSET := new_mapset |}.
Proof.
  intros He dir newgisrc leftover r.
  assert (Hr : r = switch_mapset pid new_mapset {| db := leftover; GISRC := gisrc |})
    by done.
  rewrite (switch_mapset_eq pid new_mapset gisrc leftover e He) in Hr.
  fold dir newgisrc in Hr. simpl in Hr.
  rewrite (switch_mapset_eq pid new_mapset gisrc (set_mapsets (delete dir) d) e He).
  fold dir newgisrc. simpl. rewrite Hr. simpl.
  split; [done|]. split; [by rewrite lookup_insert_eq|]. split; [|split; [|split]].
  - intros dir' Hne.
    rewrite lookup_insert_ne, lookup_delete_ne, lookup_insert_ne by done. done.
  - by rewrite delete_insert_eq, delete_delete_eq.
  - rewrite !lookup_insert_ne, lookup_delete_ne by (apply not_eq_sym, append_neq).
    done.
  - by rewrite lookup_insert_eq.
Qed.

Lemma switch_mapset_clean_witness :
  (switch_mapset 100 "tmp_mapset_rlearnpredict_1"
     {| db := set_mapsets
                <[("/grassdata", "utm32n", "tmp_mapset_rlearnpredict_1") := Demo.user1]>
                Demo.location;
        GISRC := "/tmp/rc" |}).1
  = inr ("user1", "/tmp/rc_100").
Proof.
  apply (switch_mapset_clean 100 "tmp_mapset_rlearnpredict_1" "/tmp/rc" Demo.location
           Demo.rc Demo.user1).
  reflexivity.
Defined.

End WorkerMapset.

(** ** The flags of the model, and the tiles left after the run *)

Section FlagsAndTiles.
Import Grass Parallel.
Local Open Scope script_scope.

(** The module built for a cell carries no flag, whatever the user set. *)
Lemma worker_flags_empty (options : options) (grid : string) (reg : region)
    (cat : string) :
  Worker.flags_str (Worker.parser (r_grid_predict options grid reg cat)).2 = "".
Proof. reflexivity. Qed.

(** C1: with [-p] set and two processes on a grid of two cells, the
    direct path would run the model with the flag [p], but the two runs
    of the model in the cells have no flag: the module [main] builds
    for the worker has no [flags] argument, for any options. *)
Theorem flags_lost_for_cells :
  flags_str (parsed_flags true false false) = "p" /\
  inferences (log (db (script Demo.laptop Demo.queue (Demo.opts 1 "")
                         (parsed_flags true false false) Demo.location).2))
  = [{| pc_group := "grp"; pc_output := "out"; pc_load_model := "model.gz";
        pc_chunksize := "100000"; pc_flags := "p" |}] /\
  inferences (log (db (script Demo.laptop Demo.queue (Demo.opts 2 "1,2")
                         (parsed_flags true false false) Demo.location).2))
  = [{| pc_group := "grp"; pc_output := "out_1"; pc_load_model := "model.gz";
        pc_chunksize := "100000"; pc_flags := "" |};
     {| pc_group := "grp"; pc_output := "out_2"; pc_load_model := "model.gz";
        pc_chunksize := "100000"; pc_flags := "" |}] /\
  (forall (options : options) (grid : string) (reg : region) (cat : string),
     mc_flags (r_grid_predict options grid reg cat) = "" /\
     Worker.flags_str (Worker.parser (r_grid_predict options grid reg cat)).2 = "").
Proof.
  split; [reflexivity|]. split; [vm_compute; reflexivity|].
  split; [vm_compute; reflexivity|]. intros. split; reflexivity.
Qed.

(** With two tiles or more, a patching step that returns has put the
    tiles on [rm_rasters], unless [-v] is set. *)
Lemma patching_many_registry (h : host) (options : options)
    (flags : list (string * bool)) (classifications : list string)
    (s s' : process) (u : unit) :
  1 < Z.of_nat (length classifications) ->
  patching h options flags classifications s = (inr u, s') ->
  rm_rasters s' = rm_rasters s ++
    (if flag flags "v" then []
     else map (fun x => hd "" (Py.split "@" x)) classifications).
Proof.
  intros Hlen H. unfold patching in H.
  apply bind_inr_inv in H as (r & sa & Hreg & H).
  apply grass_region_of_inv in Hreg as ->.
  rewrite (proj2 (Z.ltb_lt _ _) Hlen) in H. cbv zeta in H.
  apply bind_inr_inv in H as ([] & sb & Hmod & H).
  assert (Hsb : rm_rasters sb = rm_rasters s).
  { unfold grass in Hmod.
    match type of Hmod with (let (_, _) := ?x in _) = _ => destruct x end.
    by injection Hmod as _ <-. }
  destruct (flag flags "v"); simpl in H; unfold rm_rasters_extend, modify, ret in H;
    inversion H; subst; simpl; rewrite ?Hsb, ?app_nil_r; done.
Qed.

(** C8: two processes on a grid of one cell, without [-v].  The script
    ends with status 0, the tile [out_1] was never put on [rm_rasters]
    and is still in the mapset when [cleanup] has run.  On a grid of two
    cells the tiles are on [rm_rasters] and gone after [cleanup]; with
    [-v] they are not on the list and stay. *)
Theorem single_tile_stays :
  let one := script Demo.laptop Demo.queue (Demo.opts 2 "1,1")
               (parsed_flags false false false) Demo.location in
  let two := script Demo.laptop Demo.queue (Demo.opts 2 "1,2")
               (parsed_flags false false false) Demo.location in
  let vrt := script Demo.laptop Demo.queue (Demo.opts 2 "1,2")
               (parsed_flags false false true) Demo.location in
  (one.1 = 0 /\ rm_rasters one.2 = [] /\
   combines (log (db one.2)) = [] /\
   find_raster (db one.2) (mapset_of Demo.rc) "out_1"
   = find_raster (db one.2) (mapset_of Demo.rc) "out" /\
   find_raster (db one.2) (mapset_of Demo.rc) "out_1" <> None) /\
  (two.1 = 0 /\ rm_rasters two.2 = ["out_1"; "out_2"] /\
   combines (log (db two.2)) = [r_patch ["out_1"; "out_2"] "out"] /\
   find_raster (db two.2) (mapset_of Demo.rc) "out_1" = None /\
   find_raster (db two.2) (mapset_of Demo.rc) "out_2" = None) /\
  (vrt.1 = 0 /\ rm_rasters vrt.2 = [] /\
   combines (log (db vrt.2)) = [r_buildvrt ["out_1"; "out_2"] "out"] /\
   find_raster (db vrt.2) (mapset_of Demo.rc) "out_1" <> None /\
   find_raster (db vrt.2) (mapset_of Demo.rc) "out_2" <> None).
Proof.
  cbv zeta. split; [|split]; (split; [|split; [|split; [|split]]]);
    first [vm_compute; reflexivity | vm_compute; discriminate].
Qed.

End FlagsAndTiles.

(** * Further properties of the scripts *)

(** ** Starting [main]: the dependency, the number of processes, the flags *)

Section Startup.
Import Grass Parallel.
Local Open Scope script_scope.

(** Without [r.learn.predict], [main] stops at [grass.fatal] before it
    runs any module; [cleanup] has nothing to remove, and the script
    ends with status 1 in the state it started in. *)
Theorem r_learn_predict_missing (h : host) (queue : queue_model) (options : options)
    (flags : list (string * bool)) (d : grassdb) :
  find_program h "r.learn.predict" = false ->
  (exists msg, main h queue options flags (start d) = (inl (Fatal msg), start d)) /\
  script h queue options flags d = (1, start d).
Proof.
  intros Hmissing.
  assert (E : main h queue options flags (start d) =
              (inl (Fatal "The 'r.learn.predict' module was not found, install it first:
g.extension r.learn.ml2"), start d)).
  { unfold main. by rewrite Hmissing. }
  split; [by eexists|]. unfold script. rewrite E. done.
Qed.

Lemma r_learn_predict_missing_witness :
  script {| cpu_count := 4; getpid := 77; environ_GISRC := "/tmp/rc";
            find_program := fun _ => false |}
    Demo.queue (Demo.opts 2 "") (parsed_flags false false false) Demo.location
  = (1, start Demo.location).
Proof.
  apply (r_learn_predict_missing
           {| cpu_count := 4; getpid := 77; environ_GISRC := "/tmp/rc";
              find_program := fun _ => false |}).
  reflexivity.
Defined.

Lemma flags_str_acc (flags : list (string * bool)) (acc : string) :
  Forall (fun f : string * bool => f.1 = "v" \/ Py.mem "v" f.1 = false) flags ->
  Py.mem "v" acc = false ->
  Py.mem "v"
    (fold_left (fun acc (f : string * bool) =>
                  if f.2 && negb (String.eqb f.1 "v") then acc +:+ f.1 else acc)
       flags acc) = false.
Proof.
  intros Hflags. revert acc. induction Hflags as [|[key on] flags Hf _ IH];
    intros acc Hacc; simpl; [done|].
  apply IH. destruct on; simpl; [|done].
  destruct (String.eqb_spec key "v") as [->|Hne]; simpl; [done|].
  rewrite mem_app, Hacc. simpl. by destruct Hf.
Qed.

(** The flag [v] never reaches [r.learn.predict]: [flags_str] holds no
    ["v"], whatever the order of the flags in the dict, as long as the
    other flags are not written with a [v]. *)
Theorem flags_str_without_v (flags : list (string * bool)) :
  Forall (fun f : string * bool => f.1 = "v" \/ Py.mem "v" f.1 = false) flags ->
  Py.mem "v" (flags_str flags) = false.
Proof. intros H. by apply flags_str_acc. Qed.

Lemma flags_str_without_v_witness :
  Py.mem "v" (flags_str (parsed_flags true true true)) = false.
Proof.
  apply flags_str_without_v.
  constructor; [by right|]. constructor; [by right|]. constructor; [by left|].
  constructor.
Defined.

(** The flags [p] and [z] that are set are handed on in the order of the
    header, with or without [v]. *)
Theorem flags_str_parsed (p z v : bool) :
  flags_str (parsed_flags p z v)
  = (if p then "p" else "") +:+ (if z then "z" else "").
Proof. by destruct p, z, v. Qed.

(** The options the worker reads are the ones [main] wrote into the
    module of the cell: the grid as [area], the cell as [where], the
    resolution of the region of the parent, the tile as [output], and no
    flag. *)
Theorem worker_options_of_job (options : options) (grid : string) (reg : region)
    (cat : string) :
  Worker.parser (r_grid_predict options grid reg cat) =
  ({| Worker.group := group options;
      Worker.load_model := load_model options;
      Worker.output := output options +:+ "_" +:+ cat;
      Worker.chunksize := chunksize options;
      Worker.mapset := "tmp_mapset_rlearnpredict_" +:+ cat;
      Worker.area := grid;
      Worker.where_ := "cat=" +:+ cat;
      Worker.nsres := reg_nsres reg;
      Worker.ewres := reg_ewres reg |},
   [("p", false); ("z", false)]).
Proof. reflexivity. Qed.

End Startup.

(** ** The jobs of a grid *)

Section JobsOfGrid.
Import Grass Parallel.
Local Open Scope script_scope.

(** The jobs of a run on a valid grid, with the queue of the model. *)
Lemma jobs_of_main (h : host) (options : options) (flags : list (string * bool))
    (d : grassdb) (e : gisenv) (m : mapset_data) (child_pid : nat -> Z)
    (rows cols : Z) :
  let n := (set_test_nprocs h (n_jobs options)).1 in
  find_program h "r.learn.predict" = true ->
  1 < n ->
  files d !! environ_GISRC h = Some e ->
  mapsets d !! mapset_of e = Some m ->
  parse_grid (grid_rows_cols options n) = Some (rows, cols) ->
  1 <= rows -> 1 <= cols ->
  jobs_of (db (main h (ParallelModuleQueue child_pid (environ_GISRC h)) options flags
                 (start d)).2)
  = jobs_of d ++ map (r_grid_predict options ("tmp_grid_" +:+ Py.fmt_d (getpid h))
                        (ms_region m)) (grid_cats rows cols).
Proof.
  intros n Hfound Hn He Hm Hgrid Hrows Hcols.
  rewrite main_parallel by done. cbv zeta. fold n.
  erewrite bind_inr; [|by apply (generate_grid_ok h _ (start d) e m rows cols)].
  cbv beta iota.
  rewrite (bind_inr _ _ _ _ _ (predict_on_cells_eq _ _ _ _ _ _ _)).
  pose proof (keeps_bind (fun s => jobs_of (db s)) _ _
    (quiet_verify_mapset h (MAPSET e))
    (fun env => keeps_bind (fun s => jobs_of (db s)) _ _
       (quiet_copy_tiles h env.1 env.2
          (map (classification (output options)) (grid_cats rows cols)))
       (fun _ => keeps_bind (fun s => jobs_of (db s)) _ _
          (quiet_patching h options flags
             (map (classification (output options)) (grid_cats rows cols)))
          (fun _ => keeps_ret _ 0)))) as Hrest.
  rewrite Hrest. simpl. rewrite quiet_queue.
  unfold jobs_of. rewrite log_logged_all, dispatched_app, dispatched_queued.
  simpl. rewrite !dispatched_app. simpl. by rewrite !app_nil_r.
Qed.

(** A grid given as an option is the grid of the run, whatever the
    number of processes above 1: one job for each of its [rows * cols]
    cells is queued. *)
Theorem explicit_grid_jobs (h : host) (options : options) (flags : list (string * bool))
    (d : grassdb) (e : gisenv) (m : mapset_data) (child_pid : nat -> Z)
    (rows cols : Z) :
  find_program h "r.learn.predict" = true ->
  1 < (set_test_nprocs h (n_jobs options)).1 ->
  files d !! environ_GISRC h = Some e ->
  mapsets d !! mapset_of e = Some m ->
  grid options <> "" ->
  parse_grid (grid options) = Some (rows, cols) ->
  1 <= rows -> 1 <= cols ->
  let final := (main h (ParallelModuleQueue child_pid (environ_GISRC h)) options flags
                  (start d)).2 in
  Z.of_nat (length (jobs_of (db final))) = Z.of_nat (length (jobs_of d)) + rows * cols /\
  jobs_of (db final)
  = jobs_of d ++ map (r_grid_predict options ("tmp_grid_" +:+ Py.fmt_d (getpid h))
                        (ms_region m)) (grid_cats rows cols).
Proof.
  intros Hfound Hn He Hm Hgiven Hgrid Hrows Hcols final.
  assert (Hg : grid_rows_cols options (set_test_nprocs h (n_jobs options)).1
               = grid options).
  { unfold grid_rows_cols. by destruct (grid options). }
  assert (E : jobs_of (db final)
    = jobs_of d ++ map (r_grid_predict options ("tmp_grid_" +:+ Py.fmt_d (getpid h))
                          (ms_region m)) (grid_cats rows cols)).
  { apply (jobs_of_main h options flags d e m child_pid rows cols); try done.
    by rewrite Hg. }
  split; [|done]. rewrite E, length_app, length_map, Nat2Z.inj_add.
  rewrite length_grid_cats; nia.
Qed.

Lemma explicit_grid_jobs_witness :
  Z.of_nat (length (jobs_of (db (main Demo.laptop Demo.queue (Demo.opts 2 "3,2")
                                   (parsed_flags false false false)
                                   (start Demo.location)).2))) = 6.
Proof.
  apply (explicit_grid_jobs Demo.laptop (Demo.opts 2 "3,2") (parsed_flags false false false)
           Demo.location Demo.rc Demo.user1 (fun k => 100 + Z.of_nat k) 3 2);
    [reflexivity | reflexivity | reflexivity | reflexivity | discriminate
    | reflexivity | lia | lia].
Defined.

End JobsOfGrid.

(** ** The session of the parent and the workers *)

Section Isolation.
Import Grass Worker.
Local Open Scope script_scope.

Lemma switch_mapset_no_session (pid : Z) (new_mapset : string) (s : process) :
  files (db s) !! GISRC s = None ->
  switch_mapset pid new_mapset s = (inl (CalledModuleError "g.gisenv"), s).
Proof.
  intros H. unfold switch_mapset, bind, Worker.grass, gisenv_of, session.
  rewrite H. by destruct s.
Qed.

(** [v.db.select] changes neither the session files nor [GISRC]. *)
Lemma v_db_select_files (flags map where_ : string) (s : process) :
  let r := Worker.grass (fun rc => parse_v_db_select rc flags map where_) s in
  files (db r.2) = files (db s) /\ GISRC r.2 = GISRC s.
Proof.
  unfold Worker.grass.
  assert (Hk : keeps files (parse_v_db_select (GISRC s) flags map where_)).
  { unfold parse_v_db_select, run. keeps_auto. }
  specialize (Hk (db s)).
  by destruct (parse_v_db_select (GISRC s) flags map where_ (db s)).
Qed.

(** What the worker does after the switch leaves every session file
    but its own as it is. *)
Lemma after_switch_files (path newgisrc nsres ewres group old_mapset : string)
    (reg : bbox) (call : predict_call) :
  newgisrc <> path ->
  keeps (fun s => files (db s) !! path)
    (do! Worker.grass (fun rc => run_g_region rc "a" nsres ewres "1" reg) in
     let! _ := Worker.grass region_of in
     do! Worker.grass (fun rc => run_g_copy_group rc
                                   (group +:+ "@" +:+ old_mapset +:+ "," +:+ group)) in
     do! Worker.grass (fun rc => run_r_learn_predict rc call) in
     do! Worker.grass (fun _ => try_remove newgisrc) in
     ret 0).
Proof.
  intros Hne.
  repeat (apply keeps_bind; [|intros]); try apply keeps_ret;
    apply (keeps_worker_grass (fun d => files d !! path)); intros rc.
  - unfold run_g_region, run. keeps_auto.
  - keeps_auto.
  - unfold run_g_copy_group, run. keeps_auto.
  - unfold run_r_learn_predict, run. keeps_auto.
  - unfold try_remove. apply keeps_modify. intros d. simpl. by rewrite lookup_delete_ne.
Qed.

(** Of the session files, a worker writes none but its own. *)
Lemma exec_keeps_files (pid : Z) (gisrc : string) (c : module_call) (d : grassdb)
    (path : string) :
  path <> gisrc +:+ "_" +:+ Py.fmt_d pid ->
  files (exec pid gisrc c d).2 !! path = files d !! path.
Proof.
  intros Hpath.
  unfold exec. set (o := (parser c).1). set (fl := (parser c).2).
  assert (H : files (db (main pid o fl {| db := d; GISRC := gisrc |}).2) !! path
              = files d !! path); [|by destruct (main pid o fl _)].
  unfold main. cbv zeta.
  destruct (v_db_select_files "r" (area o) (where_ o) {| db := d; GISRC := gisrc |})
    as [Hf Hrc]. cbv zeta in Hf, Hrc.
  unfold bind at 1.
  destruct (Worker.grass _ _) as [[err|reg] [d1 rc1]]; cbn [snd db GISRC] in Hf, Hrc;
    subst rc1; [cbn [snd db]; by rewrite Hf|].
  unfold bind at 1.
  destruct (files d1 !! gisrc) as [e|] eqn:He.
  - rewrite (switch_mapset_eq pid _ gisrc d1 e He).
    etrans; [apply (after_switch_files path (gisrc +:+ "_" +:+ Py.fmt_d pid));
             by apply not_eq_sym|].
    cbn [db files].
    rewrite !lookup_insert_ne, lookup_delete_ne by (by apply not_eq_sym).
    by rewrite <- Hf.
  - rewrite (switch_mapset_no_session pid _ {| db := d1; GISRC := gisrc |} He).
    cbn [snd db]. by rewrite <- Hf.
Qed.

Lemma exec_keeps_session (pid : Z) (gisrc : string) (c : module_call) (d : grassdb) :
  files (exec pid gisrc c d).2 !! gisrc = files d !! gisrc.
Proof. apply exec_keeps_files, append_neq. Qed.

(** The worker writes no session file but its own copy, the file named
    by [GISRC], [_] and its process id: whatever its options are and
    however it ends, every other session file is as before, and so is
    the file named by the [GISRC] it inherited from its parent. *)
Theorem worker_keeps_parent_session (pid : Z) (gisrc : string) (c : module_call)
    (d : grassdb) :
  files (exec pid gisrc c d).2 !! gisrc = files d !! gisrc /\
  forall path : string,
    path <> gisrc +:+ "_" +:+ Py.fmt_d pid ->
    files (exec pid gisrc c d).2 !! path = files d !! path.
Proof.
  split; [apply exec_keeps_session|]. intros path. apply exec_keeps_files.
Qed.

Lemma worker_keeps_parent_session_witness :
  files (exec 100 "/tmp/rc"
           (Parallel.r_grid_predict (Demo.opts 2 "1,2") "tmp_grid_77"
              (Wind "ext" "10" "10") "1")
           Cells.with_grid).2 !! "/tmp/rc" = Some Demo.rc /\
  files (exec 100 "/tmp/rc"
           (Parallel.r_grid_predict (Demo.opts 2 "1,2") "tmp_grid_77"
              (Wind "ext" "10" "10") "1")
           Cells.with_grid).2 !! "/tmp/rc_101" = None.
Proof.
  destruct (worker_keeps_parent_session 100 "/tmp/rc"
              (Parallel.r_grid_predict (Demo.opts 2 "1,2") "tmp_grid_77"
                 (Wind "ext" "10" "10") "1")
              Cells.with_grid) as [Hparent Hother].
  split.
  - rewrite Hparent. reflexivity.
  - rewrite (Hother "/tmp/rc_101"); [reflexivity|discriminate].
Defined.

Lemma queue_keeps_parent_session (child_pid : nat -> Z) (gisrc : string) (nprocs : Z)
    (jobs : list module_call) (d : grassdb) :
  files (Parallel.ParallelModuleQueue child_pid gisrc nprocs jobs d) !! gisrc
  = files d !! gisrc.
Proof.
  unfold Parallel.ParallelModuleQueue.
  generalize (imap (fun (k : nat) (c : module_call) => (k, c)) jobs). intros l.
  revert d. induction l as [|job l IH]; intros d; simpl; [done|].
  rewrite IH. apply exec_keeps_session.
Qed.

End Isolation.

Section NoLeak.
Import Grass Parallel.
Local Open Scope script_scope.

(** With the workers of the model as children, the session of the
    parent names the same mapset when the queue returns: the check of
    [main] passes and [main] goes on with copying and patching. *)
Theorem check_passes_with_workers (h : host) (options : options)
    (flags : list (string * bool)) (d : grassdb) (e : gisenv) (m : mapset_data)
    (child_pid : nat -> Z) (rows cols : Z) :
  let n := (set_test_nprocs h (n_jobs options)).1 in
  let g := grid_rows_cols options n in
  let queue := ParallelModuleQueue child_pid (environ_GISRC h) in
  let cats := grid_cats rows cols in
  let classifications := map (classification (output options)) cats in
  let s2 := (predict_on_cells queue options n ("tmp_grid_" +:+ Py.fmt_d (getpid h))
               (ms_region m) cats (grid_made h g e rows cols (start d))).2 in
  find_program h "r.learn.predict" = true ->
  1 < n ->
  files d !! environ_GISRC h = Some e ->
  mapsets d !! mapset_of e = Some m ->
  parse_grid g = Some (rows, cols) -> 1 <= rows -> 1 <= cols ->
  files (db s2) !! environ_GISRC h = Some e /\
  verify_mapset h (MAPSET e) s2 = (inr (GISDBASE e, LOCATION_NAME e), s2) /\
  main h queue options flags (start d) =
  (do! copy_tiles h (GISDBASE e) (LOCATION_NAME e) classifications in
   do! patching h options flags classifications in
   ret 0) s2.
Proof.
  intros n g queue cats classifications s2 Hfound Hn He Hm Hgrid Hrows Hcols.
  assert (Hs2 : files (db s2) !! environ_GISRC h = Some e).
  { unfold s2. rewrite predict_on_cells_eq. cbn [snd db set_db].
    unfold queue. rewrite queue_keeps_parent_session.
    unfold logged_all.
    assert (Hl : forall cs d0, files (fold_left (fun d c => logged c d) cs d0) = files d0).
    { induction cs as [|c0 cs IH]; intros d0; simpl; [done|]. by rewrite IH. }
    rewrite Hl. done. }
  assert (Hv : verify_mapset h (MAPSET e) s2 = (inr (GISDBASE e, LOCATION_NAME e), s2)).
  { unfold verify_mapset. rewrite (bind_inr _ _ _ _ _ (grass_gisenv_Some _ _ _ Hs2)).
    by rewrite String.eqb_refl. }
  split; [done|]. split; [done|].
  rewrite main_parallel by done. cbv zeta. fold n g.
  erewrite bind_inr; [|by apply (generate_grid_ok h _ (start d) e m rows cols)].
  cbv beta iota.
  erewrite bind_inr; [|rewrite predict_on_cells_eq; reflexivity].
  fold queue cats. 
  assert (E : set_db (queue n (map (r_grid_predict options
                         ("tmp_grid_" +:+ Py.fmt_d (getpid h)) (ms_region m)) cats)
                  (logged_all (map (fun cat => queued (r_grid_predict options
                         ("tmp_grid_" +:+ Py.fmt_d (getpid h)) (ms_region m) cat)) cats)
                     (db (grid_made h g e rows cols (start d)))))
                (grid_made h g e rows cols (start d)) = s2).
  { unfold s2. by rewrite predict_on_cells_eq. }
  rewrite E. by rewrite (bind_inr _ _ _ _ _ Hv).
Qed.

Lemma check_passes_with_workers_witness :
  (verify_mapset Demo.laptop "user1"
     (predict_on_cells Demo.queue (Demo.opts 2 "") 2 "tmp_grid_77" (Wind "ext" "10" "10")
        (grid_cats 2 2) (grid_made Demo.laptop "2,2" Demo.rc 2 2 (start Demo.location))).2).1
  = inr ("/grassdata", "utm32n").
Proof.
  destruct (check_passes_with_workers Demo.laptop (Demo.opts 2 "")
              (parsed_flags false false false) Demo.location Demo.rc Demo.user1
              (fun k => 100 + Z.of_nat k) 2 2)
    as (_ & Hv & _); [reflexivity | reflexivity | reflexivity | reflexivity
                      | reflexivity | lia | lia |].
  exact (f_equal fst Hv).
Defined.

End NoLeak.

(** ** The [atexit] handler *)

Section Cleanup.
Import Grass Parallel.
Local Open Scope script_scope.

Lemma lookup_without {A} (names : list string) (m : gmap string A) (x : string) :
  without names m !! x = if decide (x ∈ names) then None else m !! x.
Proof.
  unfold without. revert m. induction names as [|n names IH]; intros m.
  - cbn [fold_left]. case_decide as Hin; [by apply elem_of_nil in Hin|done].
  - cbn [fold_left]. rewrite IH.
    destruct (decide (x ∈ names)) as [Hin|Hnin].
    + case_decide as H; [done|]. exfalso. apply H. by right.
    + destruct (decide (x = n)) as [->|Hne].
      * rewrite lookup_delete_eq. case_decide as H; [done|]. exfalso. apply H. by left.
      * rewrite lookup_delete_ne by done. case_decide as H; [|done].
        apply elem_of_cons in H as [?|?]; done.
Qed.

Lemma set_rasters_id (m : mapset_data) : set_rasters (fun r => r) m = m.
Proof. by destruct m. Qed.

Lemma set_vectors_id (m : mapset_data) : set_vectors (fun r => r) m = m.
Proof. by destruct m. Qed.

Lemma find_file_raster (gisrc name : string) (d : grassdb) (e : gisenv) :
  files d !! gisrc = Some e ->
  find_file gisrc name "raster" d
  = (inr (bool_decide (is_Some (find_raster d (mapset_of e) name))), d).
Proof. intros He. unfold find_file. by rewrite He. Qed.

Lemma find_file_vector (gisrc name : string) (d : grassdb) (e : gisenv) :
  files d !! gisrc = Some e ->
  find_file gisrc name "vector" d
  = (inr (bool_decide (is_Some (find_vector d (mapset_of e) name))), d).
Proof. intros He. unfold find_file. by rewrite He. Qed.

Lemma g_remove_raster (gisrc name : string) (d : grassdb) (e : gisenv) (m : mapset_data) :
  files d !! gisrc = Some e -> mapsets d !! mapset_of e = Some m ->
  run_g_remove gisrc "f" "raster" name d
  = (inr tt, set_mapsets (alter (set_rasters (delete name)) (mapset_of e))
               (logged (g_remove "f" "raster" name) d)).
Proof.
  intros He Hm. unfold run_g_remove.
  unfold bind at 1. unfold run, modify. cbv beta iota.
  erewrite bind_inr; [|by apply (current_Some _ _ _ e m)]. done.
Qed.

Lemma g_remove_vector (gisrc name : string) (d : grassdb) (e : gisenv) (m : mapset_data) :
  files d !! gisrc = Some e -> mapsets d !! mapset_of e = Some m ->
  run_g_remove gisrc "f" "vector" name d
  = (inr tt, set_mapsets (alter (set_vectors (delete name)) (mapset_of e))
               (logged (g_remove "f" "vector" name) d)).
Proof.
  intros He Hm. unfold run_g_remove.
  unfold bind at 1. unfold run, modify. cbv beta iota.
  erewrite bind_inr; [|by apply (current_Some _ _ _ e m)]. done.
Qed.

(** One turn of the loop over [rm_rasters]. *)
Lemma sweep_raster (h : host) (name : string) (s : process) (e : gisenv) :
  files (db s) !! environ_GISRC h = Some e ->
  Py.mem "@" name = false ->
  let r := (let! found := grass (find_file (environ_GISRC h) name "raster") in
            if found then grass (run_g_remove (environ_GISRC h) "f" "raster" name)
            else ret tt) s in
  r.1 = inr tt /\
  mapsets (db r.2) = alter (set_rasters (delete name)) (mapset_of e) (mapsets (db s)) /\
  files (db r.2) = files (db s) /\
  rm_regions r.2 = rm_regions s /\ rm_vectors r.2 = rm_vectors s /\
  rm_rasters r.2 = rm_rasters s.
Proof.
  intros He Hat. cbv zeta.
  erewrite bind_inr; [|apply grass_eq; by apply find_file_raster].
  rewrite set_db_same.
  unfold find_raster. rewrite locate_here by done. cbn [fst snd].
  destruct (mapsets (db s) !! mapset_of e) as [m|] eqn:Hm.
  - destruct (ms_rasters m !! name) as [x|] eqn:Hx.
    + rewrite bool_decide_true by eauto.
      erewrite grass_eq; [|by apply (g_remove_raster _ _ _ e m)]. done.
    + rewrite bool_decide_false by (by intros [? ?]).
      unfold ret. cbn. repeat split; try done.
      symmetry. apply alter_id. intros m' Hm'. rewrite Hm in Hm'. injection Hm' as <-.
      destruct m; unfold set_rasters; simpl in *. by rewrite delete_id.
  - rewrite bool_decide_false by (by intros [? ?]).
    unfold ret. cbn. repeat split; try done.
    symmetry. apply alter_id. intros m' Hm'. by rewrite Hm in Hm'.
Qed.

(** One turn of the loop over [rm_vectors]. *)
Lemma sweep_vector (h : host) (name : string) (s : process) (e : gisenv) :
  files (db s) !! environ_GISRC h = Some e ->
  Py.mem "@" name = false ->
  let r := (let! found := grass (find_file (environ_GISRC h) name "vector") in
            if found then grass (run_g_remove (environ_GISRC h) "f" "vector" name)
            else ret tt) s in
  r.1 = inr tt /\
  mapsets (db r.2) = alter (set_vectors (delete name)) (mapset_of e) (mapsets (db s)) /\
  files (db r.2) = files (db s) /\
  rm_regions r.2 = rm_regions s /\ rm_vectors r.2 = rm_vectors s /\
  rm_rasters r.2 = rm_rasters s.
Proof.
  intros He Hat. cbv zeta.
  erewrite bind_inr; [|apply grass_eq; by apply find_file_vector].
  rewrite set_db_same.
  unfold find_vector. rewrite locate_here by done. cbn [fst snd].
  destruct (mapsets (db s) !! mapset_of e) as [m|] eqn:Hm.
  - destruct (ms_vectors m !! name) as [x|] eqn:Hx.
    + rewrite bool_decide_true by eauto.
      erewrite grass_eq; [|by apply (g_remove_vector _ _ _ e m)]. done.
    + rewrite bool_decide_false by (by intros [? ?]).
      unfold ret. cbn. repeat split; try done.
      symmetry. apply alter_id. intros m' Hm'. rewrite Hm in Hm'. injection Hm' as <-.
      destruct m; unfold set_vectors; simpl in *. by rewrite delete_id.
  - rewrite bool_decide_false by (by intros [? ?]).
    unfold ret. cbn. repeat split; try done.
    symmetry. apply alter_id. intros m' Hm'. by rewrite Hm in Hm'.
Qed.

(** The loops: all of [names] are deleted from the current mapset. *)
Lemma sweep_rasters (h : host) (names : list string) (s : process) (e : gisenv) :
  files (db s) !! environ_GISRC h = Some e ->
  Forall (fun name => Py.mem "@" name = false) names ->
  let r := for_each names (fun rmrast =>
             let! found := grass (find_file (environ_GISRC h) rmrast "raster") in
             if found then grass (run_g_remove (environ_GISRC h) "f" "raster" rmrast)
             else ret tt) s in
  r.1 = inr tt /\
  mapsets (db r.2) = alter (set_rasters (without names)) (mapset_of e) (mapsets (db s)) /\
  files (db r.2) = files (db s) /\
  rm_regions r.2 = rm_regions s /\ rm_vectors r.2 = rm_vectors s /\
  rm_rasters r.2 = rm_rasters s.
Proof.
  intros He Hnames. revert s He. induction Hnames as [|name names Hat _ IH]; intros s He.
  - cbn. repeat split; try done. symmetry. apply alter_id. intros m _. by destruct m.
  - cbn [for_each]. cbv zeta.
    destruct (sweep_raster h name s e He Hat) as (H1 & H2 & H3 & H4 & H5 & H6).
    cbv zeta in H1, H2, H3, H4, H5, H6.
    destruct (bind (grass (find_file (environ_GISRC h) name "raster")) _ s)
      as [[err|[]] s1] eqn:Hstep; cbn [fst snd] in *; [done|].
    rewrite !(bind_inr _ _ _ _ _ Hstep).
    destruct (IH s1) as (I1 & I2 & I3 & I4 & I5 & I6); [by rewrite H3|].
    cbv zeta in I1, I2, I3, I4, I5, I6.
    split; [exact I1|]. split; [|split; [exact (eq_trans I3 H3)|];
      split; [exact (eq_trans I4 H4)|]; split; [exact (eq_trans I5 H5)|];
      exact (eq_trans I6 H6)].
    etrans; [exact I2|]. rewrite H2, alter_alter_eq. apply alter_ext. intros m _.
    by destruct m.
Qed.

Lemma sweep_vectors (h : host) (names : list string) (s : process) (e : gisenv) :
  files (db s) !! environ_GISRC h = Some e ->
  Forall (fun name => Py.mem "@" name = false) names ->
  let r := for_each names (fun rmv =>
             let! found := grass (find_file (environ_GISRC h) rmv "vector") in
             if found then grass (run_g_remove (environ_GISRC h) "f" "vector" rmv)
             else ret tt) s in
  r.1 = inr tt /\
  mapsets (db r.2) = alter (set_vectors (without names)) (mapset_of e) (mapsets (db s)) /\
  files (db r.2) = files (db s) /\
  rm_regions r.2 = rm_regions s /\ rm_vectors r.2 = rm_vectors s /\
  rm_rasters r.2 = rm_rasters s.
Proof.
  intros He Hnames. revert s He. induction Hnames as [|name names Hat _ IH]; intros s He.
  - cbn. repeat split; try done. symmetry. apply alter_id. intros m _. by destruct m.
  - cbn [for_each]. cbv zeta.
    destruct (sweep_vector h name s e He Hat) as (H1 & H2 & H3 & H4 & H5 & H6).
    cbv zeta in H1, H2, H3, H4, H5, H6.
    destruct (bind (grass (find_file (environ_GISRC h) name "vector")) _ s)
      as [[err|[]] s1] eqn:Hstep; cbn [fst snd] in *; [done|].
    rewrite !(bind_inr _ _ _ _ _ Hstep).
    destruct (IH s1) as (I1 & I2 & I3 & I4 & I5 & I6); [by rewrite H3|].
    cbv zeta in I1, I2, I3, I4, I5, I6.
    split; [exact I1|]. split; [|split; [exact (eq_trans I3 H3)|];
      split; [exact (eq_trans I4 H4)|]; split; [exact (eq_trans I5 H5)|];
      exact (eq_trans I6 H6)].
    etrans; [exact I2|]. rewrite H2, alter_alter_eq. apply alter_ext. intros m _.
    by destruct m.
Qed.

(** [cleanup] with no region on its list: it returns, and the current
    mapset loses the vectors and the rasters on the lists. *)
Lemma cleanup_eq (h : host) (s : process) (e : gisenv) :
  files (db s) !! environ_GISRC h = Some e ->
  rm_regions s = [] ->
  Forall (fun name => Py.mem "@" name = false) (rm_vectors s) ->
  Forall (fun name => Py.mem "@" name = false) (rm_rasters s) ->
  (cleanup h s).1 = inr tt /\
  mapsets (db (cleanup h s).2)
  = alter (fun m => set_rasters (without (rm_rasters s))
                      (set_vectors (without (rm_vectors s)) m))
      (mapset_of e) (mapsets (db s)) /\
  files (db (cleanup h s).2) = files (db s) /\
  rm_regions (cleanup h s).2 = rm_regions s /\
  rm_vectors (cleanup h s).2 = rm_vectors s /\
  rm_rasters (cleanup h s).2 = rm_rasters s.
Proof.
  intros He Hreg Hv Hr.
  assert (Ec : cleanup h s =
    (do! for_each (rm_vectors s) (fun rmv =>
           let! found := grass (find_file (environ_GISRC h) rmv "vector") in
           if found then grass (run_g_remove (environ_GISRC h) "f" "vector" rmv)
           else ret tt) in
     for_each (rm_rasters s) (fun rmrast =>
           let! found := grass (find_file (environ_GISRC h) rmrast "raster") in
           if found then grass (run_g_remove (environ_GISRC h) "f" "raster" rmrast)
           else ret tt)) s).
  { unfold cleanup. unfold bind at 1, get. cbv beta iota. by rewrite Hreg. }
  rewrite !Ec. clear Ec.
  destruct (sweep_vectors h (rm_vectors s) s e He Hv) as (V1 & V2 & V3 & V4 & V5 & V6).
  cbv zeta in V1, V2, V3, V4, V5, V6.
  destruct (for_each (rm_vectors s) _ s) as [[err|[]] s1] eqn:Hloop;
    cbn [fst snd] in *; [done|].
  rewrite !(bind_inr _ _ _ _ _ Hloop).
  destruct (sweep_rasters h (rm_rasters s) s1 e) as (R1 & R2 & R3 & R4 & R5 & R6);
    [by rewrite V3 | done |].
  cbv zeta in R1, R2, R3, R4, R5, R6.
  split; [exact R1|]. split; [|split; [exact (eq_trans R3 V3)|];
    split; [exact (eq_trans R4 V4)|];
    split; [exact (eq_trans R5 V5)|]; exact (eq_trans R6 V6)].
  etrans; [exact R2|]. rewrite V2, alter_alter_eq. done.
Qed.

(** [cleanup] returns; afterwards no vector on [rm_vectors] and no
    raster on [rm_rasters] is in the current mapset, every other raster
    and vector of it is as before, and so are the other mapsets and the
    session files. *)
Theorem cleanup_removes_registered (h : host) (s : process) (e : gisenv) :
  files (db s) !! environ_GISRC h = Some e ->
  rm_regions s = [] ->
  Forall (fun name => Py.mem "@" name = false) (rm_vectors s) ->
  Forall (fun name => Py.mem "@" name = false) (rm_rasters s) ->
  let s' := (cleanup h s).2 in
  (cleanup h s).1 = inr tt /\
  (forall name, name ∈ rm_rasters s -> find_raster (db s') (mapset_of e) name = None) /\
  (forall name, name ∈ rm_vectors s -> find_vector (db s') (mapset_of e) name = None) /\
  (forall name, name ∉ rm_rasters s -> Py.mem "@" name = false ->
     find_raster (db s') (mapset_of e) name = find_raster (db s) (mapset_of e) name) /\
  (forall name, name ∉ rm_vectors s -> Py.mem "@" name = false ->
     find_vector (db s') (mapset_of e) name = find_vector (db s) (mapset_of e) name) /\
  (forall dir, dir <> mapset_of e -> mapsets (db s') !! dir = mapsets (db s) !! dir) /\
  files (db s') = files (db s).
Proof.
  intros He Hreg Hv Hr s'.
  destruct (cleanup_eq h s e He Hreg Hv Hr) as (E1 & E2 & E3 & _).
  fold s' in E2, E3.
  assert (Hras : forall name, Py.mem "@" name = false ->
            find_raster (db s') (mapset_of e) name
            = if decide (name ∈ rm_rasters s) then None
              else find_raster (db s) (mapset_of e) name).
  { intros name Hat. unfold find_raster. rewrite locate_here by done. cbn [fst snd].
    rewrite E2, lookup_alter_eq.
    destruct (mapsets (db s) !! mapset_of e) as [m|]; cbn; [|by case_decide].
    apply lookup_without. }
  assert (Hvec : forall name, Py.mem "@" name = false ->
            find_vector (db s') (mapset_of e) name
            = if decide (name ∈ rm_vectors s) then None
              else find_vector (db s) (mapset_of e) name).
  { intros name Hat. unfold find_vector. rewrite locate_here by done. cbn [fst snd].
    rewrite E2, lookup_alter_eq.
    destruct (mapsets (db s) !! mapset_of e) as [m|]; cbn; [|by case_decide].
    apply lookup_without. }
  split; [done|]. split; [|split; [|split; [|split; [|split]]]].
  - intros name Hin. rewrite Hras, decide_True; [done..|].
    rewrite Forall_forall in Hr. by apply Hr.
  - intros name Hin. rewrite Hvec, decide_True; [done..|].
    rewrite Forall_forall in Hv. by apply Hv.
  - intros name Hnin Hat. by rewrite Hras, decide_False.
  - intros name Hnin Hat. by rewrite Hvec, decide_False.
  - intros dir Hne. by rewrite E2, lookup_alter_ne.
  - done.
Qed.

Lemma cleanup_removes_registered_witness :
  find_raster
    (db (cleanup Demo.laptop
           {| db := Demo.with_tile; rm_regions := []; rm_vectors := ["tmp_grid_77"];
              rm_rasters := ["out_1"; "out_2"] |}).2)
    (mapset_of Demo.rc) "out_1" = None.
Proof.
  apply (cleanup_removes_registered Demo.laptop
           {| db := Demo.with_tile; rm_regions := []; rm_vectors := ["tmp_grid_77"];
              rm_rasters := ["out_1"; "out_2"] |} Demo.rc);
    [reflexivity | reflexivity | | |].
  - by repeat constructor.
  - by repeat constructor.
  - by left.
Defined.

End Cleanup.

(** ** What a worker leaves behind *)

(** A state is brought to the form of a record of maps. *)
Ltac norm_state :=
  unfold Grass.set_mapsets, Grass.set_files, Grass.logged;
  cbn [Grass.mapsets Grass.files Grass.default_wind Grass.log Worker.db Worker.GISRC
       fst snd];
  rewrite ?alter_insert_eq.

Section WorkerRun.
Import Grass Worker.
Local Open Scope script_scope.

Lemma append_assoc (a b c : string) : (a +:+ b) +:+ c = a +:+ (b +:+ c).
Proof.
  induction a as [|x a IH]; [done|].
  change (String x ((a +:+ b) +:+ c) = String x (a +:+ (b +:+ c))). by rewrite IH.
Qed.

Lemma v_db_select_ok (gisrc flags map where_ : string) (d : grassdb) (e : gisenv)
    (m : mapset_data) (cats : list string) :
  files d !! gisrc = Some e -> mapsets d !! mapset_of e = Some m ->
  Py.mem "@" map = false -> ms_vectors m !! map = Some cats ->
  parse_v_db_select gisrc flags map where_ d
  = (inr {| of_map := map; of_where := where_ |}, logged (v_db_select flags map where_) d).
Proof.
  intros He Hm Hat Hcats. unfold parse_v_db_select.
  unfold bind at 1. unfold run, modify. cbv beta iota.
  erewrite bind_inr; [|by apply (current_Some _ _ _ e m)].
  unfold bind at 1. unfold get. cbv beta iota.
  unfold find_vector. rewrite locate_here by done. cbn [fst snd mapsets logged].
  by rewrite Hm, Hcats.
Qed.

Lemma g_region_ok (gisrc flags nsres ewres grow : string) (box : bbox) (d : grassdb)
    (e : gisenv) (m : mapset_data) :
  files d !! gisrc = Some e -> mapsets d !! mapset_of e = Some m ->
  run_g_region gisrc flags nsres ewres grow box d
  = (inr tt, set_mapsets (alter (set_region (Aligned nsres ewres grow box)) (mapset_of e))
               (logged (g_region flags nsres ewres grow box) d)).
Proof.
  intros He Hm. unfold run_g_region.
  unfold bind at 1. unfold run, modify. cbv beta iota.
  erewrite bind_inr; [|by apply (current_Some _ _ _ e m)]. done.
Qed.

Lemma locate_there (here : mapset_dir) (name mapset : string) :
  Py.mem "@" name = false -> Py.mem "@" mapset = false ->
  locate here (name +:+ "@" +:+ mapset) = ((here.1.1, here.1.2, mapset), name).
Proof.
  intros Hn Hm. unfold locate.
  change (name +:+ "@" +:+ mapset) with (name +:+ String "@" mapset).
  by rewrite split_app, (split_no_sep _ mapset).
Qed.

(** [g.copy group=group@mapset,group] from another mapset of the location. *)
Lemma g_copy_group_from (gisrc group from : string) (d : grassdb) (e : gisenv)
    (m mfrom : mapset_data) (bands : list string) :
  files d !! gisrc = Some e -> mapsets d !! mapset_of e = Some m ->
  Py.mem "@" group = false -> Py.mem "," group = false ->
  Py.mem "@" from = false -> Py.mem "," from = false ->
  mapsets d !! ((GISDBASE e, LOCATION_NAME e, from) : mapset_dir) = Some mfrom ->
  ms_groups mfrom !! group = Some bands ->
  run_g_copy_group gisrc (group +:+ "@" +:+ from +:+ "," +:+ group) d
  = (inr tt, set_mapsets (alter (set_groups <[group := bands]>) (mapset_of e))
               (logged (g_copy "group" (group +:+ "@" +:+ from +:+ "," +:+ group)) d)).
Proof.
  intros He Hm Hg1 Hg2 Hf1 Hf2 Hfrom Hbands. unfold run_g_copy_group.
  unfold bind at 1. unfold run, modify. cbv beta iota.
  erewrite bind_inr; [|by apply (current_Some _ _ _ e m)].
  unfold bind at 1. unfold get. cbv beta iota.
  assert (Hp : parse_pair (group +:+ "@" +:+ from +:+ "," +:+ group)
               = Some (group +:+ "@" +:+ from, group)).
  { rewrite <- (parse_pair_no_comma (group +:+ "@" +:+ from) group); [|
      by rewrite !mem_app, Hg2, Hf2 | done].
    f_equal. by rewrite !append_assoc. }
  rewrite Hp. unfold find_group. rewrite locate_there by done.
  simpl. by rewrite Hfrom, Hbands.
Qed.

Lemma r_learn_predict_ok (gisrc : string) (call : predict_call) (d : grassdb)
    (e : gisenv) (m : mapset_data) (bands : list string) :
  files d !! gisrc = Some e -> mapsets d !! mapset_of e = Some m ->
  Py.mem "@" (pc_group call) = false ->
  ms_groups m !! pc_group call = Some bands ->
  run_r_learn_predict gisrc call d
  = (inr tt,
     if Py.mem "z" (pc_flags call) then logged (r_learn_predict call) d
     else set_mapsets
            (alter (set_rasters <[pc_output call := Predicted call bands (ms_region m)]>)
               (mapset_of e))
            (logged (r_learn_predict call) d)).
Proof.
  intros He Hm Hat Hbands. unfold run_r_learn_predict.
  unfold bind at 1. unfold run, modify. cbv beta iota.
  erewrite bind_inr; [|by apply (current_Some _ _ _ e m)].
  unfold bind at 1. unfold get. cbv beta iota.
  unfold find_group. rewrite locate_here by done.
  cbn [fst snd mapsets logged]. rewrite Hm, Hbands.
  by destruct (Py.mem "z" (pc_flags call)).
Qed.

Lemma worker_grass_eq {A} (f : string -> M grassdb A) (s : process) (r : error + A)
    (d : grassdb) :
  f (GISRC s) (db s) = (r, d) -> Worker.grass f s = (r, {| db := d; GISRC := GISRC s |}).
Proof. intros H. unfold Worker.grass. by rewrite H. Qed.


(** Up to the copy of the group: the worker has its mapset, with the
    region of the cell, and a session file of its own. *)
Lemma worker_main_until_group (pid : Z) (o : options) (fl : list (string * bool))
    (gisrc : string) (d : grassdb) (e : gisenv) (m : mapset_data) (cats : list string) :
  files d !! gisrc = Some e ->
  mapsets d !! mapset_of e = Some m ->
  Py.mem "@" (area o) = false -> ms_vectors m !! area o = Some cats ->
  let dir : mapset_dir := (GISDBASE e, LOCATION_NAME e, mapset o) in
  let newgisrc := gisrc +:+ "_" +:+ Py.fmt_d pid in
  let e' := {| GISDBASE := GISDBASE e; LOCATION_NAME := LOCATION_NAME e;
               MAPSET := mapset o |} in
  let reg := Aligned (nsres o) (ewres o) "1"
               {| of_map := area o; of_where := where_ o |} in
  main pid o fl {| db := d; GISRC := gisrc |} =
  (do! Worker.grass (fun rc => run_g_copy_group rc
                                 (group o +:+ "@" +:+ MAPSET e +:+ "," +:+ group o)) in
   do! Worker.grass (fun rc => run_r_learn_predict rc
         {| pc_group := group o; pc_output := output o; pc_load_model := load_model o;
            pc_chunksize := chunksize o; pc_flags := flags_str fl |}) in
   do! Worker.grass (fun _ => try_remove newgisrc) in
   ret 0)
  {| db := {| mapsets := <[dir := set_region reg (Grass.new_mapset (default_wind d))]>
                           (delete dir (mapsets d));
              files := <[newgisrc := e']> (<[newgisrc := e]> (delete newgisrc (files d)));
              default_wind := default_wind d;
              log := log d ++ [v_db_select "r" (area o) (where_ o);
                               g_mapset "c" (mapset o);
                               g_region "a" (nsres o) (ewres o) "1"
                                 {| of_map := area o; of_where := where_ o |}] |};
     GISRC := newgisrc |}.
Proof.
  intros He Hm Harea Hcats dir newgisrc e' reg.
  unfold main. cbv zeta.
  erewrite bind_inr;
    [|apply worker_grass_eq; by apply (v_db_select_ok _ _ _ _ _ e m cats)].
  norm_state.
  erewrite bind_inr; [|by apply (switch_mapset_eq pid (mapset o) gisrc _ e)].
  fold dir newgisrc e'. norm_state.
  assert (Hcur : mapset_of e' = dir) by done.
  erewrite bind_inr; cycle 1.
  { apply worker_grass_eq. norm_state.
    apply (g_region_ok _ _ _ _ _ _ _ e' (Grass.new_mapset (default_wind d))); norm_state.
    - apply lookup_insert_eq.
    - rewrite ?Hcur. apply lookup_insert_eq. }
  norm_state. rewrite ?Hcur. norm_state. fold reg.
  erewrite bind_inr; cycle 1.
  { apply worker_grass_eq. norm_state.
    apply (region_of_Some _ _ e'); norm_state.
    - apply lookup_insert_eq.
    - rewrite ?Hcur. apply lookup_insert_eq. }
  norm_state. by rewrite <- !app_assoc.
Qed.

(** A worker that finds the grid, the group and a mapset name that is
    not the current one returns 0; this is the state it leaves. *)
Lemma worker_main_ok (pid : Z) (o : options) (fl : list (string * bool))
    (gisrc : string) (d : grassdb) (e : gisenv) (m : mapset_data)
    (cats bands : list string) :
  files d !! gisrc = Some e ->
  mapsets d !! mapset_of e = Some m ->
  MAPSET e <> mapset o ->
  Py.mem "@" (area o) = false -> ms_vectors m !! area o = Some cats ->
  Py.mem "@" (group o) = false -> Py.mem "," (group o) = false ->
  Py.mem "@" (MAPSET e) = false -> Py.mem "," (MAPSET e) = false ->
  ms_groups m !! group o = Some bands ->
  let dir : mapset_dir := (GISDBASE e, LOCATION_NAME e, mapset o) in
  let newgisrc := gisrc +:+ "_" +:+ Py.fmt_d pid in
  main pid o fl {| db := d; GISRC := gisrc |} =
  (inr 0,
   {| db := {| mapsets := <[dir := cell_mapset o (flags_str fl) bands]> (mapsets d);
               files := delete newgisrc (files d);
               default_wind := default_wind d;
               log := log d ++
                 [v_db_select "r" (area o) (where_ o);
                  g_mapset "c" (mapset o);
                  g_region "a" (nsres o) (ewres o) "1"
                    {| of_map := area o; of_where := where_ o |};
                  g_copy "group"
                    (group o +:+ "@" +:+ MAPSET e +:+ "," +:+ group o);
                  r_learn_predict
                    {| pc_group := group o; pc_output := output o;
                       pc_load_model := load_model o; pc_chunksize := chunksize o;
                       pc_flags := flags_str fl |}] |};
      GISRC := newgisrc |}).
Proof.
  intros He Hm Hne Harea Hcats Hg1 Hg2 Ho1 Ho2 Hbands dir newgisrc.
  assert (Hdir : dir <> mapset_of e).
  { unfold dir, mapset_of. intros [= H]. by apply Hne. }
  rewrite (worker_main_until_group pid o fl gisrc d e m cats) by done.
  fold dir newgisrc.
  set (e' := {| GISDBASE := GISDBASE e; LOCATION_NAME := LOCATION_NAME e;
                MAPSET := mapset o |}).
  set (reg := Aligned (nsres o) (ewres o) "1" {| of_map := area o; of_where := where_ o |}).
  assert (Hcur : mapset_of e' = dir) by done.
  erewrite bind_inr; cycle 1.
  { apply worker_grass_eq. norm_state.
    eapply (g_copy_group_from _ _ _ _ e' _ m bands); norm_state; try done.
    - apply lookup_insert_eq.
    - rewrite ?Hcur. apply lookup_insert_eq.
    - change ((GISDBASE e', LOCATION_NAME e', MAPSET e) : mapset_dir) with (mapset_of e).
      by rewrite lookup_insert_ne, lookup_delete_ne. }
  norm_state. rewrite ?Hcur. norm_state.
  erewrite bind_inr; cycle 1.
  { apply worker_grass_eq. norm_state.
    eapply (r_learn_predict_ok _ _ _ e'); norm_state.
    - apply lookup_insert_eq.
    - rewrite ?Hcur. apply lookup_insert_eq.
    - exact Hg1.
    - apply lookup_insert_eq. }
  norm_state. cbn [pc_flags pc_output].
  unfold bind, Worker.grass, try_remove, modify, ret. norm_state.
  assert (Hfiles : delete newgisrc (<[newgisrc:=e']> (<[newgisrc:=e]>
                     (delete newgisrc (files d)))) = delete newgisrc (files d)).
  { by rewrite !delete_insert_eq, delete_delete_eq. }
  unfold cell_mapset. fold reg.
  destruct (Py.mem "z" (flags_str fl)); norm_state;
    rewrite Hfiles, insert_delete_eq, <- !app_assoc;
    unfold set_rasters, set_groups, set_region, Grass.new_mapset;
    cbn [ms_region ms_saved_regions ms_rasters ms_groups ms_vectors];
    rewrite !insert_empty; reflexivity.
Qed.


Lemma g_copy_group_missing (gisrc group from : string) (d : grassdb) (e : gisenv)
    (m mfrom : mapset_data) :
  files d !! gisrc = Some e -> mapsets d !! mapset_of e = Some m ->
  Py.mem "@" group = false -> Py.mem "," group = false ->
  Py.mem "@" from = false -> Py.mem "," from = false ->
  mapsets d !! ((GISDBASE e, LOCATION_NAME e, from) : mapset_dir) = Some mfrom ->
  ms_groups mfrom !! group = None ->
  run_g_copy_group gisrc (group +:+ "@" +:+ from +:+ "," +:+ group) d
  = (inl (CalledModuleError "g.copy"),
     logged (g_copy "group" (group +:+ "@" +:+ from +:+ "," +:+ group)) d).
Proof.
  intros He Hm Hg1 Hg2 Hf1 Hf2 Hfrom Hbands. unfold run_g_copy_group.
  unfold bind at 1. unfold run, modify. cbv beta iota.
  erewrite bind_inr; [|by apply (current_Some _ _ _ e m)].
  unfold bind at 1. unfold get. cbv beta iota.
  assert (Hp : parse_pair (group +:+ "@" +:+ from +:+ "," +:+ group)
               = Some (group +:+ "@" +:+ from, group)).
  { rewrite <- (parse_pair_no_comma (group +:+ "@" +:+ from) group); [|
      by rewrite !mem_app, Hg2, Hf2 | done].
    f_equal. by rewrite !append_assoc. }
  rewrite Hp. unfold find_group. rewrite locate_there by done.
  simpl. by rewrite Hfrom, Hbands.
Qed.

(** When the group is not in the mapset of the caller, the worker ends
    with the error of [g.copy]: the model is not run, and the mapset of
    the cell and the session file of the worker are left behind, since
    the worker removes the file only on its way to [return 0]. *)
Theorem worker_without_group (pid : Z) (o : options) (fl : list (string * bool))
    (gisrc : string) (d : grassdb) (e : gisenv) (m : mapset_data) (cats : list string) :
  files d !! gisrc = Some e ->
  mapsets d !! mapset_of e = Some m ->
  MAPSET e <> mapset o ->
  Py.mem "@" (area o) = false -> ms_vectors m !! area o = Some cats ->
  Py.mem "@" (group o) = false -> Py.mem "," (group o) = false ->
  Py.mem "@" (MAPSET e) = false -> Py.mem "," (MAPSET e) = false ->
  ms_groups m !! group o = None ->
  let dir : mapset_dir := (GISDBASE e, LOCATION_NAME e, mapset o) in
  let newgisrc := gisrc +:+ "_" +:+ Py.fmt_d pid in
  let r := main pid o fl {| db := d; GISRC := gisrc |} in
  r.1 = inl (CalledModuleError "g.copy") /\
  inferences (log (db r.2)) = inferences (log d) /\
  files (db r.2) !! newgisrc
  = Some {| GISDBASE := GISDBASE e; LOCATION_NAME := LOCATION_NAME e;
            MAPSET := mapset o |} /\
  mapsets (db r.2) !! dir
  = Some (set_region (Aligned (nsres o) (ewres o) "1"
                        {| of_map := area o; of_where := where_ o |})
            (Grass.new_mapset (default_wind d))).
Proof.
  intros He Hm Hne Harea Hcats Hg1 Hg2 Ho1 Ho2 Hbands dir newgisrc r.
  assert (Hdir : dir <> mapset_of e).
  { unfold dir, mapset_of. intros [= H]. by apply Hne. }
  unfold r. rewrite (worker_main_until_group pid o fl gisrc d e m cats) by done.
  fold dir newgisrc.
  set (e' := {| GISDBASE := GISDBASE e; LOCATION_NAME := LOCATION_NAME e;
                MAPSET := mapset o |}).
  assert (Hcur : mapset_of e' = dir) by done.
  erewrite bind_inl; cycle 1.
  { apply worker_grass_eq. norm_state.
    eapply (g_copy_group_missing _ _ _ _ e' _ m); norm_state; try done.
    - apply lookup_insert_eq.
    - rewrite ?Hcur. apply lookup_insert_eq.
    - change ((GISDBASE e', LOCATION_NAME e', MAPSET e) : mapset_dir) with (mapset_of e).
      by rewrite lookup_insert_ne, lookup_delete_ne. }
  norm_state. split; [done|]. split; [|split].
  - unfold inferences. rewrite !omap_app. simpl. by rewrite !app_nil_r.
  - apply lookup_insert_eq.
  - apply lookup_insert_eq.
Qed.


Lemma worker_without_group_witness :
  (Worker.main 100 Cells.cell1 [("p", false); ("z", false)]
     {| db := Cells.without_group; GISRC := "/tmp/rc" |}).1
  = inl (CalledModuleError "g.copy").
Proof.
  apply (worker_without_group 100 Cells.cell1 [("p", false); ("z", false)] "/tmp/rc"
           Cells.without_group Demo.rc Cells.user1_no_group (grid_cats 1 2));
    first [reflexivity | discriminate].
Defined.

End WorkerRun.

(** ** Maps built by a loop *)

Section FoldInsert.
Context {A K V : Type} `{Countable K}.
Implicit Types (key : A -> K) (val : A -> V) (l : list A) (M : gmap K V).

Lemma lookup_fold_insert_notin key val l M k :
  (forall a, a ∈ l -> key a <> k) ->
  fold_left (fun M a => <[key a := val a]> M) l M !! k = M !! k.
Proof.
  revert M. induction l as [|x l IH]; intros M Hl; simpl; [done|].
  rewrite IH by (intros a Ha; apply Hl; by right).
  apply lookup_insert_ne. apply Hl. by left.
Qed.

Lemma lookup_fold_insert_in key val l M a :
  (forall a b, a ∈ l -> b ∈ l -> key a = key b -> a = b) ->
  NoDup l -> a ∈ l ->
  fold_left (fun M a => <[key a := val a]> M) l M !! key a = Some (val a).
Proof.
  revert M. induction l as [|x l IH]; intros M Hinj Hnd Ha; simpl.
  - by apply elem_of_nil in Ha.
  - apply NoDup_cons in Hnd as [Hx Hnd].
    apply elem_of_cons in Ha as [->|Ha].
    + rewrite lookup_fold_insert_notin; [apply lookup_insert_eq|].
      intros b Hb Heq. apply Hx.
      rewrite <- (Hinj b x); [done|by right|by left|done].
    + apply IH; [|done|done]. intros b c Hb Hc. apply Hinj; by right.
Qed.

End FoldInsert.

(** ** A run on a grid, from the grid to the patched output *)
Section Pipeline.
Import Grass Parallel.
Local Open Scope script_scope.

Context (h : host) (o : options) (e : gisenv) (m0 : mapset_data)
        (bands : list string) (child_pid : nat -> Z).

Hypothesis output_at : Py.mem "@" (output o) = false.
Hypothesis output_comma : Py.mem "," (output o) = false.
Hypothesis group_at : Py.mem "@" (group o) = false.
Hypothesis group_comma : Py.mem "," (group o) = false.
Hypothesis mapset_at : Py.mem "@" (MAPSET e) = false.
Hypothesis mapset_comma : Py.mem "," (MAPSET e) = false.
Hypothesis mapset_user : forall cat, MAPSET e <> new_mapset cat.

Lemma dir_not_current (cat : string) : cell_dir e cat <> mapset_of e.
Proof. unfold cell_dir, mapset_of. intros [= H]. by apply (mapset_user cat). Qed.

Lemma job_ok (pid : Z) (cat : string) (D : grassdb) :
  ready h o e bands D ->
  Worker.exec pid (environ_GISRC h) (r_grid_predict o (grid_of h) (ms_region m0) cat) D =
  (inr 0,
   {| mapsets := <[cell_dir e cat := cell_of o (grid_of h) (ms_region m0) bands cat]>
                   (mapsets D);
      files := delete ((environ_GISRC h) +:+ "_" +:+ Py.fmt_d pid) (files D);
      default_wind := default_wind D;
      log := log D ++
        [v_db_select "r" (grid_of h) ("cat=" +:+ cat);
         g_mapset "c" (new_mapset cat);
         g_region "a" (reg_nsres (ms_region m0)) (reg_ewres (ms_region m0)) "1"
           {| of_map := (grid_of h); of_where := "cat=" +:+ cat |};
         g_copy "group" (group o +:+ "@" +:+ MAPSET e +:+ "," +:+ group o);
         r_learn_predict
           {| pc_group := group o; pc_output := tmp_output (output o) cat;
              pc_load_model := load_model o; pc_chunksize := chunksize o;
              pc_flags := "" |}] |}).
Proof.
  intros [He (mD & cs & Hm & Hv & Hg)]. unfold Worker.exec.
  rewrite (worker_main_ok pid
             (Worker.parser (r_grid_predict o (grid_of h) (ms_region m0) cat)).1
             (Worker.parser (r_grid_predict o (grid_of h) (ms_region m0) cat)).2
             (environ_GISRC h) D e mD cs bands);
    try done.
  - apply mapset_user.
  - apply mem_at_tmp_grid.
Qed.

Lemma job_ready (pid : Z) (cat : string) (D : grassdb) :
  ready h o e bands D ->
  ready h o e bands
    (Worker.exec pid (environ_GISRC h) (r_grid_predict o (grid_of h) (ms_region m0) cat) D).2.
Proof.
  intros HD. rewrite (job_ok pid cat D HD). destruct HD as [He (mD & cs & Hm & Hv & Hg)].
  split; cbn [snd files mapsets].
  - rewrite lookup_delete_ne; [done|]. apply not_eq_sym, append_neq.
  - exists mD, cs. rewrite lookup_insert_ne; [done|]. apply dir_not_current.
Qed.

Lemma jobs_ok (l : list string) (g : nat -> nat) (D : grassdb) :
  ready h o e bands D ->
  let D' := fold_left (fun d (job : nat * module_call) =>
                         (Worker.exec (child_pid job.1) (environ_GISRC h) job.2 d).2)
              (imap (fun k c => (g k, c))
                 (map (r_grid_predict o (grid_of h) (ms_region m0)) l)) D in
  ready h o e bands D' /\
  mapsets D'
  = fold_left (fun M cat => <[cell_dir e cat := cell_of o (grid_of h) (ms_region m0) bands cat]> M)
      l (mapsets D).
Proof.
  revert g D. induction l as [|cat l IH]; intros g D HD; [done|].
  cbn [map]. rewrite imap_cons. cbn [fold_left fst snd].
  destruct (IH (g ∘ S) _ (job_ready (child_pid (g 0%nat)) cat D HD)) as [IH1 IH2].
  split; [exact IH1|]. etrans; [exact IH2|].
  by rewrite (job_ok (child_pid (g 0%nat)) cat D HD).
Qed.

Lemma queue_ok (nprocs : Z) (l : list string) (D : grassdb) :
  ready h o e bands D ->
  let D' := ParallelModuleQueue child_pid (environ_GISRC h) nprocs
              (map (r_grid_predict o (grid_of h) (ms_region m0)) l) D in
  ready h o e bands D' /\
  mapsets D'
  = fold_left (fun M cat => <[cell_dir e cat := cell_of o (grid_of h) (ms_region m0) bands cat]> M)
      l (mapsets D).
Proof. intros HD. apply (jobs_ok l (fun k => k) D HD). Qed.

Lemma new_mapset_inj (a b : string) : new_mapset a = new_mapset b -> a = b.
Proof. unfold new_mapset. intros H. by simplify_eq/=. Qed.

Lemma tmp_output_inj (out a b : string) : tmp_output out a = tmp_output out b -> a = b.
Proof.
  unfold tmp_output. induction out as [|c out IH]; intros H; simplify_eq/=; [done|].
  by apply IH.
Qed.

Lemma g_copy_raster_from (name from dst : string) (d : grassdb)
    (m mfrom : mapset_data) (r : raster) :
  files d !! (environ_GISRC h) = Some e -> mapsets d !! mapset_of e = Some m ->
  Py.mem "@" name = false -> Py.mem "," name = false ->
  Py.mem "@" from = false -> Py.mem "," from = false -> Py.mem "," dst = false ->
  mapsets d !! ((GISDBASE e, LOCATION_NAME e, from) : mapset_dir) = Some mfrom ->
  ms_rasters mfrom !! name = Some r ->
  run_g_copy_raster (environ_GISRC h) ((name +:+ "@" +:+ from) +:+ "," +:+ dst) d
  = (inr tt, set_mapsets (alter (set_rasters <[dst := r]>) (mapset_of e))
               (logged (g_copy "raster" ((name +:+ "@" +:+ from) +:+ "," +:+ dst)) d)).
Proof.
  intros He Hm Hn1 Hn2 Hf1 Hf2 Hd Hfrom Hr. unfold run_g_copy_raster.
  unfold bind at 1. unfold run, modify. cbv beta iota.
  erewrite bind_inr; [|by apply (current_Some _ _ _ e m)].
  unfold bind at 1. unfold get. cbv beta iota.
  rewrite parse_pair_no_comma; [| by rewrite !mem_app, Hn2, Hf2 | done].
  unfold find_raster. rewrite locate_there by done.
  simpl. by rewrite Hfrom, Hr.
Qed.

Lemma dir_inj (a b : string) : cell_dir e a = cell_dir e b -> a = b.
Proof. intros H. apply new_mapset_inj. exact (f_equal snd H). Qed.

Lemma split_classification (cat : string) :
  Py.mem "@" cat = false ->
  Py.split "@" (classification (output o) cat)
  = [tmp_output (output o) cat; new_mapset cat].
Proof.
  intros Hc. unfold classification.
  change (tmp_output (output o) cat +:+ "@" +:+ new_mapset cat)
    with (tmp_output (output o) cat +:+ String "@" (new_mapset cat)).
  rewrite split_app; [|unfold tmp_output; by rewrite !mem_app, output_at, Hc].
  rewrite split_no_sep; [done|]. unfold new_mapset. by rewrite mem_app, Hc.
Qed.

Lemma copy_tiles_ok (tile : string -> raster) (l : list string) :
  forall (s : process) (m : mapset_data),
  NoDup l ->
  Forall (fun cat => Py.mem "@" cat = false /\ Py.mem "," cat = false) l ->
  files (db s) !! (environ_GISRC h) = Some e ->
  mapsets (db s) !! mapset_of e = Some m ->
  (forall cat, cat ∈ l -> exists mc,
      mapsets (db s) !! cell_dir e cat = Some mc /\
      ms_rasters mc !! tmp_output (output o) cat = Some (tile cat)) ->
  exists s',
    copy_tiles h (GISDBASE e) (LOCATION_NAME e) (map (classification (output o)) l) s
    = (inr tt, s') /\
    files (db s') = files (db s) /\
    mapsets (db s') !! mapset_of e
    = Some (set_rasters
              (fun R => fold_left (fun R cat => <[tmp_output (output o) cat := tile cat]> R)
                          l R)
              m) /\
    (forall cat, cat ∈ l -> mapsets (db s') !! cell_dir e cat = None) /\
    (forall d', d' <> mapset_of e -> (forall cat, cat ∈ l -> d' <> cell_dir e cat) ->
       mapsets (db s') !! d' = mapsets (db s) !! d') /\
    rm_regions s' = rm_regions s /\ rm_vectors s' = rm_vectors s /\
    rm_rasters s' = rm_rasters s.
Proof.
  induction l as [|cat l IH]; intros s m Hnd Hcats He Hm Htiles.
  - exists s. split; [done|]. split; [done|]. split; [rewrite Hm; by destruct m|].
    split; [by intros c Hc%elem_of_nil|]. done.
  - apply NoDup_cons in Hnd as [Hcat Hnd].
    apply Forall_cons in Hcats as [[Hat Hcomma] Hcats].
    destruct (Htiles cat) as (mc & Hmc & Htile); [by left|].
    set (s1 := set_db
                 (set_mapsets (delete (cell_dir e cat))
                    (set_mapsets (alter (set_rasters <[tmp_output (output o) cat := tile cat]>)
                                    (mapset_of e))
                       (logged (g_copy "raster"
                                  (classification (output o) cat +:+ ","
                                   +:+ tmp_output (output o) cat)) (db s)))) s).
    destruct (IH s1 (set_rasters <[tmp_output (output o) cat := tile cat]> m))
      as (s' & Hrun & Hfiles & Hcur & Hgone & Hother & Hr1 & Hr2 & Hr3); try done.
    { cbn. rewrite lookup_delete_ne by apply dir_not_current.
      by rewrite lookup_alter_eq, Hm. }
    { intros c Hc. destruct (Htiles c) as (mc' & Hmc' & Htile'); [by right|].
      exists mc'. split; [|done]. cbn.
      rewrite lookup_delete_ne.
      - rewrite lookup_alter_ne by (apply not_eq_sym, dir_not_current). done.
      - intros E%dir_inj. by subst. }
    exists s'. split.
    { unfold copy_tiles. cbn [map for_each]. rewrite split_classification by done.
      erewrite bind_inr; cycle 1.
      { erewrite bind_inr; cycle 1.
        { apply grass_eq. unfold classification.
          apply (g_copy_raster_from _ _ _ _ m mc (tile cat)); try done.
          all: unfold tmp_output, new_mapset.
          all: by rewrite !mem_app, ?output_at, ?output_comma, ?Hat, ?Hcomma. }
        unfold grass, try_rmdir, modify. cbn. reflexivity. }
      exact Hrun. }
    split; [by rewrite Hfiles|]. split.
    { rewrite Hcur. by destruct m. }
    split.
    { intros c [->|Hc]%elem_of_cons; [|by apply Hgone].
      rewrite Hother.
      - cbn. by rewrite lookup_delete_eq.
      - apply dir_not_current.
      - intros c' Hc' E%dir_inj. by subst. }
    split.
    { intros d' Hd1 Hd2. rewrite Hother; [|done|intros c Hc; apply Hd2; by right].
      cbn. rewrite lookup_delete_ne by (apply not_eq_sym, Hd2; by left).
      by rewrite lookup_alter_ne by (by apply not_eq_sym). }
    by rewrite Hr1, Hr2, Hr3.
Qed.

Lemma names_of_classifications (l : list string) :
  Forall (fun cat => Py.mem "@" cat = false /\ Py.mem "," cat = false) l ->
  map (fun x => hd "" (Py.split "@" x)) (map (classification (output o)) l)
  = map (tmp_output (output o)) l.
Proof.
  induction 1 as [|cat l [Hat _] _ IH]; [done|].
  cbn [map]. by rewrite IH, split_classification.
Qed.

Lemma find_tiles (tile : string -> raster) (l : list string) (d : grassdb)
    (m : mapset_data) :
  Forall (fun cat => Py.mem "@" cat = false /\ Py.mem "," cat = false) l ->
  mapsets d !! mapset_of e = Some m ->
  (forall cat, cat ∈ l -> ms_rasters m !! tmp_output (output o) cat = Some (tile cat)) ->
  mapM (find_raster d (mapset_of e)) (map (tmp_output (output o)) l) = Some (map tile l).
Proof.
  intros Hcats Hm. induction Hcats as [|cat l [Hat _] _ IH]; intros Htiles; [done|].
  cbn [map mapM]. rewrite IH by (intros c Hc; apply Htiles; by right).
  unfold find_raster at 1. rewrite locate_here.
  - cbn [fst snd]. rewrite Hm, Htiles by (by left). done.
  - unfold tmp_output. by rewrite !mem_app, output_at, Hat.
Qed.

Lemma patching_many_ok (flags : list (string * bool)) (tile : string -> raster)
    (l : list string) (s : process) (m : mapset_data) :
  1 < Z.of_nat (length l) ->
  Forall (fun cat => Py.mem "@" cat = false /\ Py.mem "," cat = false) l ->
  files (db s) !! (environ_GISRC h) = Some e ->
  mapsets (db s) !! mapset_of e = Some m ->
  (forall cat, cat ∈ l -> ms_rasters m !! tmp_output (output o) cat = Some (tile cat)) ->
  patching h o flags (map (classification (output o)) l) s =
  (inr tt,
   {| db := set_mapsets
              (alter (set_rasters
                        <[output o := if flag flags "v"
                                      then Vrt (map (tmp_output (output o)) l)
                                      else Patched (map tile l)]>) (mapset_of e))
              (logged ((if flag flags "v" then r_buildvrt else r_patch)
                         (map (tmp_output (output o)) l) (output o)) (db s));
      rm_regions := rm_regions s;
      rm_vectors := rm_vectors s;
      rm_rasters := rm_rasters s ++
        (if flag flags "v" then [] else map (tmp_output (output o)) l) |}).
Proof.
  intros Hlen Hcats He Hm Htiles. unfold patching.
  rewrite (bind_inr _ _ _ _ _ (grass_region_of _ _ _ _ He Hm)).
  rewrite length_map, (proj2 (Z.ltb_lt _ _) Hlen). cbv zeta.
  rewrite names_of_classifications by done.
  destruct (flag flags "v").
  - erewrite bind_inr; cycle 1.
    { apply grass_eq. unfold run_r_buildvrt.
      unfold bind at 1. unfold run, modify. cbv beta iota.
      erewrite bind_inr; [|by apply (current_Some _ _ _ e m)].
      unfold bind at 1. unfold get. cbv beta iota. cbn [fst snd].
      rewrite (find_tiles tile l _ m) by done. reflexivity. }
    cbn. unfold ret, set_db. cbn. by rewrite app_nil_r; destruct s.
  - erewrite bind_inr; cycle 1.
    { apply grass_eq. unfold run_r_patch.
      unfold bind at 1. unfold run, modify. cbv beta iota.
      erewrite bind_inr; [|by apply (current_Some _ _ _ e m)].
      unfold bind at 1. unfold get. cbv beta iota. cbn [fst snd].
      rewrite (find_tiles tile l _ m) by done. reflexivity. }
    cbn. unfold rm_rasters_extend, modify, set_db. cbn. done.
Qed.

Lemma cats_plain (rows cols : Z) :
  Forall (fun cat => Py.mem "@" cat = false /\ Py.mem "," cat = false)
    (grid_cats rows cols).
Proof.
  unfold grid_cats. apply Forall_forall. intros cat Hc.
  apply list_elem_of_In, in_map_iff in Hc as (k & <- & _).
  split; apply mem_fmt_d; auto.
Qed.

Lemma tile_in_cell (cat : string) :
  ms_rasters (cell_of o (grid_of h) (ms_region m0) bands cat) !! tmp_output (output o) cat
  = Some (tile_of o (grid_of h) (ms_region m0) bands cat).
Proof.
  exact (lookup_singleton_eq (M := gmap string) (tmp_output (output o) cat)
           (tile_of o (grid_of h) (ms_region m0) bands cat)).
Qed.

Lemma logged_all_same (cs : list command) (d : grassdb) :
  files (logged_all cs d) = files d /\ mapsets (logged_all cs d) = mapsets d.
Proof.
  unfold logged_all. revert d. induction cs as [|c cs IH]; intros d; [done|].
  cbn [fold_left]. by destruct (IH (logged c d)) as [-> ->].
Qed.

Lemma main_grid_ok (flags : list (string * bool)) (D : grassdb) (rows cols : Z) :
  files D !! environ_GISRC h = Some e ->
  mapsets D !! mapset_of e = Some m0 ->
  ms_groups m0 !! group o = Some bands ->
  find_program h "r.learn.predict" = true ->
  1 < (set_test_nprocs h (n_jobs o)).1 ->
  parse_grid (grid_rows_cols o (set_test_nprocs h (n_jobs o)).1) = Some (rows, cols) ->
  1 <= rows -> 1 <= cols -> 1 < rows * cols ->
  let cats := grid_cats rows cols in
  let names := map (tmp_output (output o)) cats in
  let tile := tile_of o (grid_of h) (ms_region m0) bands in
  exists s',
    main h (ParallelModuleQueue child_pid (environ_GISRC h)) o flags (start D) = (inr 0, s') /\
    files (db s') !! environ_GISRC h = Some e /\
    mapsets (db s') !! mapset_of e
    = Some (set_rasters
              (fun R => <[output o := if flag flags "v" then Vrt names
                                      else Patched (map tile cats)]>
                          (fold_left (fun R cat => <[tmp_output (output o) cat := tile cat]> R)
                             cats R))
              (set_vectors <[grid_of h := cats]> m0)) /\
    (forall cat, cat ∈ cats -> mapsets (db s') !! cell_dir e cat = None) /\
    (forall d', d' <> mapset_of e -> (forall cat, cat ∈ cats -> d' <> cell_dir e cat) ->
       mapsets (db s') !! d' = mapsets D !! d') /\
    rm_regions s' = [] /\ rm_vectors s' = [grid_of h] /\
    rm_rasters s' = if flag flags "v" then [] else names.
Proof.
  intros He Hm Hg Hfound Hn Hgrid Hrows Hcols Hmany cats names tile.
  rewrite main_parallel by done. cbv zeta.
  rewrite (bind_inr _ _ _ _ _
             (generate_grid_ok h _ (start D) e m0 rows cols He Hm Hgrid Hrows Hcols)).
  cbv beta iota. fold cats. fold (grid_of h).
  rewrite (bind_inr _ _ _ _ _ (predict_on_cells_eq _ _ _ _ _ _ _)).
  set (D1 := logged_all _ _).
  assert (Hmaps1 : mapsets D1 !! mapset_of e
                   = Some (set_vectors <[grid_of h := cats]> m0)).
  { unfold D1. rewrite (proj2 (logged_all_same _ _)). cbn.
    by rewrite lookup_alter_eq, Hm. }
  assert (HD1 : ready h o e bands D1).
  { split; [unfold D1; by rewrite (proj1 (logged_all_same _ _))|].
    eexists _, cats. split; [exact Hmaps1|].
    split; [apply lookup_insert_eq | exact Hg]. }
  destruct (queue_ok (set_test_nprocs h (n_jobs o)).1 cats D1 HD1) as [HD2 Hmaps].
  cbv zeta in HD2, Hmaps.
  set (D2 := ParallelModuleQueue _ _ _ _ D1) in *.
  set (s2 := set_db D2 _).
  assert (He2 : files (db s2) !! environ_GISRC h = Some e) by apply HD2.
  assert (Hcur2 : mapsets (db s2) !! mapset_of e
                  = Some (set_vectors <[grid_of h := cats]> m0)).
  { cbn. rewrite Hmaps, lookup_fold_insert_notin; [done|].
    intros cat _. apply dir_not_current. }
  assert (Hcells : forall cat, cat ∈ cats ->
            mapsets (db s2) !! cell_dir e cat
            = Some (cell_of o (grid_of h) (ms_region m0) bands cat)).
  { intros cat Hc. cbn. rewrite Hmaps.
    apply (lookup_fold_insert_in (cell_dir e)
             (cell_of o (grid_of h) (ms_region m0) bands));
      [intros a b _ _; apply dir_inj | apply NoDup_grid_cats | done]. }
  assert (Hverify : verify_mapset h (MAPSET e) s2
                    = (inr (GISDBASE e, LOCATION_NAME e), s2)).
  { unfold verify_mapset.
    rewrite (bind_inr _ _ _ _ _ (grass_gisenv_Some _ _ _ He2)). cbv zeta.
    by rewrite String.eqb_refl. }
  rewrite (bind_inr _ _ _ _ _ Hverify). cbn [fst snd].
  destruct (copy_tiles_ok tile cats s2 _ (NoDup_grid_cats rows cols)
              (cats_plain rows cols) He2 Hcur2)
    as (s3 & Hrun & Hf3 & Hcur3 & Hgone & Hother & R1 & R2 & R3).
  { intros cat Hc. eexists. split; [by apply Hcells | apply tile_in_cell]. }
  rewrite (bind_inr _ _ _ _ _ Hrun).
  assert (He3 : files (db s3) !! environ_GISRC h = Some e) by (by rewrite Hf3).
  erewrite bind_inr; cycle 1.
  { eapply (patching_many_ok flags tile cats s3); [|apply cats_plain|done|exact Hcur3|].
    - unfold cats. rewrite length_grid_cats; lia.
    - intros cat Hc. cbn.
      apply (lookup_fold_insert_in (tmp_output (output o)) tile);
        [intros a b _ _; apply tmp_output_inj | apply NoDup_grid_cats | done]. }
  eexists. split; [reflexivity|]. cbn [db files mapsets set_mapsets logged
                                       rm_regions rm_vectors rm_rasters].
  split; [done|]. split.
  { rewrite lookup_alter_eq, Hcur3. cbn. by destruct m0. }
  split.
  { intros cat Hc. rewrite lookup_alter_ne by (apply not_eq_sym, dir_not_current).
    by apply Hgone. }
  split.
  { intros d' Hd1 Hd2. rewrite lookup_alter_ne by (by apply not_eq_sym).
    rewrite Hother by done. cbn. rewrite Hmaps.
    rewrite lookup_fold_insert_notin by (intros cat Hc; by apply not_eq_sym, Hd2).
    unfold D1. rewrite (proj2 (logged_all_same _ _)). cbn.
    by rewrite lookup_alter_ne by (by apply not_eq_sym). }
  rewrite R1, R2, R3. cbn. done.
Qed.

Lemma without_fold_insert {A V} (key : A -> string) (val : A -> V) (l : list A)
    (R : gmap string V) :
  without (map key l) (fold_left (fun R a => <[key a := val a]> R) l R)
  = without (map key l) R.
Proof.
  apply map_eq. intros x. rewrite !lookup_without.
  case_decide as Hx; [done|].
  apply lookup_fold_insert_notin. intros a Ha Heq. subst x. apply Hx.
  apply list_elem_of_In, in_map, list_elem_of_In, Ha.
Qed.

Lemma without_insert_notin {V} (names : list string) (x : string) (v : V)
    (R : gmap string V) :
  x ∉ names -> without names (<[x := v]> R) = <[x := v]> (without names R).
Proof.
  intros Hx. apply map_eq. intros y. rewrite lookup_without.
  destruct (decide (y = x)) as [->|Hne].
  - rewrite decide_False by done. by rewrite !lookup_insert_eq.
  - rewrite !lookup_insert_ne by done. by rewrite lookup_without.
Qed.

Lemma without_absent {V} (names : list string) (R : gmap string V) :
  (forall x, x ∈ names -> R !! x = None) -> without names R = R.
Proof.
  intros Hn. apply map_eq. intros x. rewrite lookup_without.
  case_decide as Hx; [by rewrite Hn|done].
Qed.

Lemma output_not_tile (cats : list string) :
  output o ∉ map (tmp_output (output o)) cats.
Proof.
  intros (cat & H & _)%list_elem_of_In%in_map_iff.
  symmetry in H. by apply append_neq in H.
Qed.

Lemma script_grid_ok (flags : list (string * bool)) (D : grassdb) (rows cols : Z) :
  files D !! environ_GISRC h = Some e ->
  mapsets D !! mapset_of e = Some m0 ->
  ms_groups m0 !! group o = Some bands ->
  find_program h "r.learn.predict" = true ->
  1 < (set_test_nprocs h (n_jobs o)).1 ->
  parse_grid (grid_rows_cols o (set_test_nprocs h (n_jobs o)).1) = Some (rows, cols) ->
  1 <= rows -> 1 <= cols -> 1 < rows * cols ->
  let cats := grid_cats rows cols in
  let names := map (tmp_output (output o)) cats in
  let tile := tile_of o (grid_of h) (ms_region m0) bands in
  exists s',
    script h (ParallelModuleQueue child_pid (environ_GISRC h)) o flags D = (0, s') /\
    files (db s') !! environ_GISRC h = Some e /\
    mapsets (db s') !! mapset_of e
    = Some {| ms_region := ms_region m0;
              ms_saved_regions := ms_saved_regions m0;
              ms_rasters :=
                without (if flag flags "v" then [] else names)
                  (<[output o := if flag flags "v" then Vrt names
                                 else Patched (map tile cats)]>
                     (fold_left (fun R cat => <[tmp_output (output o) cat := tile cat]> R)
                        cats (ms_rasters m0)));
              ms_groups := ms_groups m0;
              ms_vectors := delete (grid_of h) (ms_vectors m0) |} /\
    (forall cat, cat ∈ cats -> mapsets (db s') !! cell_dir e cat = None) /\
    (forall d', d' <> mapset_of e -> (forall cat, cat ∈ cats -> d' <> cell_dir e cat) ->
       mapsets (db s') !! d' = mapsets D !! d').
Proof.
  intros He Hm Hg Hfound Hn Hgrid Hrows Hcols Hmany cats names tile.
  destruct (main_grid_ok flags D rows cols He Hm Hg Hfound Hn Hgrid Hrows Hcols Hmany)
    as (s1 & Hmain & He1 & Hcur1 & Hgone1 & Hother1 & R1 & R2 & R3).
  fold cats in Hmain, Hcur1, Hgone1, Hother1, R3. fold names in Hcur1, R3.
  fold tile in Hcur1.
  destruct (cleanup_eq h s1 e He1 R1) as (_ & C2 & C3 & _).
  { rewrite R2. constructor; [apply mem_at_tmp_grid|constructor]. }
  { rewrite R3. destruct (flag flags "v"); [constructor|].
    unfold names. apply Forall_forall. intros x (cat & <- & Hc)%list_elem_of_In%in_map_iff.
    apply list_elem_of_In in Hc.
    pose proof (cats_plain rows cols) as Hp. rewrite Forall_forall in Hp.
    destruct (Hp cat Hc) as [Hat _].
    unfold tmp_output. by rewrite !mem_app, output_at, Hat. }
  exists (cleanup h s1).2. split; [unfold script; by rewrite Hmain|].
  split; [by rewrite C3|]. split.
  { rewrite C2, lookup_alter_eq, Hcur1, R2, R3. cbn. f_equal.
    unfold set_rasters, set_vectors, without. cbn. f_equal.
    apply delete_insert_eq. }
  split.
  { intros cat Hc. rewrite C2, lookup_alter_ne by (apply not_eq_sym, dir_not_current).
    by apply Hgone1. }
  intros d' Hd1 Hd2. rewrite C2, lookup_alter_ne by (by apply not_eq_sym).
  by apply Hother1.
Qed.

End Pipeline.

Section GridRun.
Import Grass Parallel.
Local Open Scope script_scope.

(** A run on a grid of two cells or more without [-v], the workers
    running one after the other, when the names of the output, of the
    tiles and of the grid are free: the script ends with status 0.
    Afterwards the mapset of the session is the one it was, with one
    raster more: [output], the patch of the tiles of the cells 1, 2,
    ..., each predicted over its own cell.  Tiles and grid are removed
    again, no mapset of a cell is left, the other mapsets are untouched
    and the session still points to the mapset it started in. *)
Theorem grid_run_leaves_output (h : host) (o : options) (e : gisenv) (m0 : mapset_data)
    (bands : list string) (child_pid : nat -> Z) (flags : list (string * bool))
    (D : grassdb) (rows cols : Z) :
  Py.mem "@" (output o) = false -> Py.mem "," (output o) = false ->
  Py.mem "@" (group o) = false -> Py.mem "," (group o) = false ->
  Py.mem "@" (MAPSET e) = false -> Py.mem "," (MAPSET e) = false ->
  (forall cat, MAPSET e <> new_mapset cat) ->
  files D !! environ_GISRC h = Some e ->
  mapsets D !! mapset_of e = Some m0 ->
  ms_groups m0 !! group o = Some bands ->
  find_program h "r.learn.predict" = true ->
  1 < (set_test_nprocs h (n_jobs o)).1 ->
  parse_grid (grid_rows_cols o (set_test_nprocs h (n_jobs o)).1) = Some (rows, cols) ->
  1 <= rows -> 1 <= cols -> 1 < rows * cols ->
  flag flags "v" = false ->
  ms_rasters m0 !! output o = None ->
  (forall cat, cat ∈ grid_cats rows cols ->
     ms_rasters m0 !! tmp_output (output o) cat = None) ->
  ms_vectors m0 !! grid_of h = None ->
  let cats := grid_cats rows cols in
  let r := script h (ParallelModuleQueue child_pid (environ_GISRC h)) o flags D in
  r.1 = 0 /\
  files (db r.2) !! environ_GISRC h = Some e /\
  mapsets (db r.2) !! mapset_of e
  = Some (set_rasters
            <[output o := Patched (map (tile_of o (grid_of h) (ms_region m0) bands) cats)]>
            m0) /\
  (forall cat, cat ∈ cats -> mapsets (db r.2) !! cell_dir e cat = None) /\
  (forall d', d' <> mapset_of e -> (forall cat, cat ∈ cats -> d' <> cell_dir e cat) ->
     mapsets (db r.2) !! d' = mapsets D !! d').
Proof.
  intros Ho1 Ho2 Hg1 Hg2 Hm1 Hm2 Huser He Hm Hg Hfound Hn Hgrid Hrows Hcols Hmany Hv
    Hout Htiles Hvec cats r.
  destruct (script_grid_ok h o e m0 bands child_pid Ho1 Ho2 Hg1 Hg2 Hm1 Hm2 Huser
              flags D rows cols He Hm Hg Hfound Hn Hgrid Hrows Hcols Hmany)
    as (s' & Hrun & Hfile & Hcur & Hgone & Hother).
  unfold r. rewrite Hrun. cbn [fst snd]. fold cats in Hcur, Hgone, Hother.
  split; [done|]. split; [done|]. split; [|done].
  rewrite Hcur, Hv. unfold set_rasters. do 2 f_equal.
  - rewrite without_insert_notin by apply output_not_tile.
    rewrite without_fold_insert, without_absent; [done|].
    intros x (cat & <- & Hc)%list_elem_of_In%in_map_iff.
    by apply Htiles, list_elem_of_In.
  - by apply delete_id.
Qed.

(** The same run with [-v]: the script ends with status 0, [output] is
    the virtual raster over the names of the tiles, in the order of the
    cells, and every tile is still in the mapset when the script has
    ended.  The grid is removed, and no mapset of a cell is left. *)
Theorem grid_run_vrt_keeps_tiles (h : host) (o : options) (e : gisenv) (m0 : mapset_data)
    (bands : list string) (child_pid : nat -> Z) (flags : list (string * bool))
    (D : grassdb) (rows cols : Z) :
  Py.mem "@" (output o) = false -> Py.mem "," (output o) = false ->
  Py.mem "@" (group o) = false -> Py.mem "," (group o) = false ->
  Py.mem "@" (MAPSET e) = false -> Py.mem "," (MAPSET e) = false ->
  (forall cat, MAPSET e <> new_mapset cat) ->
  files D !! environ_GISRC h = Some e ->
  mapsets D !! mapset_of e = Some m0 ->
  ms_groups m0 !! group o = Some bands ->
  find_program h "r.learn.predict" = true ->
  1 < (set_test_nprocs h (n_jobs o)).1 ->
  parse_grid (grid_rows_cols o (set_test_nprocs h (n_jobs o)).1) = Some (rows, cols) ->
  1 <= rows -> 1 <= cols -> 1 < rows * cols ->
  flag flags "v" = true ->
  ms_rasters m0 !! output o = None ->
  (forall cat, cat ∈ grid_cats rows cols ->
     ms_rasters m0 !! tmp_output (output o) cat = None) ->
  ms_vectors m0 !! grid_of h = None ->
  let cats := grid_cats rows cols in
  let r := script h (ParallelModuleQueue child_pid (environ_GISRC h)) o flags D in
  r.1 = 0 /\
  find_raster (db r.2) (mapset_of e) (output o)
  = Some (Vrt (map (tmp_output (output o)) cats)) /\
  (forall cat, cat ∈ cats ->
     find_raster (db r.2) (mapset_of e) (tmp_output (output o) cat)
     = Some (tile_of o (grid_of h) (ms_region m0) bands cat)) /\
  (forall name, Py.mem "@" name = false -> name <> output o ->
     name ∉ map (tmp_output (output o)) cats ->
     find_raster (db r.2) (mapset_of e) name = find_raster D (mapset_of e) name) /\
  find_vector (db r.2) (mapset_of e) (grid_of h) = None /\
  (forall cat, cat ∈ cats -> mapsets (db r.2) !! cell_dir e cat = None).
Proof.
  intros Ho1 Ho2 Hg1 Hg2 Hm1 Hm2 Huser He Hm Hg Hfound Hn Hgrid Hrows Hcols Hmany Hv
    _ _ _ cats r.
  destruct (script_grid_ok h o e m0 bands child_pid Ho1 Ho2 Hg1 Hg2 Hm1 Hm2 Huser
              flags D rows cols He Hm Hg Hfound Hn Hgrid Hrows Hcols Hmany)
    as (s' & Hrun & Hfile & Hcur & Hgone & Hother).
  unfold r. rewrite Hrun. cbn [fst snd]. fold cats in Hcur, Hgone, Hother.
  rewrite Hv in Hcur. cbn [without fold_left] in Hcur.
  split; [done|]. split; [|split; [|split; [|split; [|done]]]].
  - unfold find_raster. rewrite locate_here by done. cbn [fst snd].
    rewrite Hcur. cbn. apply lookup_insert_eq.
  - intros cat Hc.
    pose proof (cats_plain rows cols) as Hp. rewrite Forall_forall in Hp.
    destruct (Hp cat Hc) as [Hat _].
    unfold find_raster. rewrite locate_here
      by (unfold tmp_output; by rewrite !mem_app, Ho1, Hat).
    cbn [fst snd]. rewrite Hcur. cbn.
    rewrite lookup_insert_ne by (unfold tmp_output; apply append_neq).
    apply (lookup_fold_insert_in (tmp_output (output o))
             (tile_of o (grid_of h) (ms_region m0) bands));
      [intros a b _ _; apply tmp_output_inj | apply NoDup_grid_cats | done].
  - intros name Hat Hne Hnin. unfold find_raster. rewrite locate_here by done.
    cbn [fst snd]. rewrite Hcur, Hm. cbn.
    rewrite lookup_insert_ne by done.
    apply lookup_fold_insert_notin. intros cat Hc Heq. apply Hnin. rewrite <- Heq.
    by apply list_elem_of_In, in_map, list_elem_of_In.
  - unfold find_vector. rewrite locate_here by apply mem_at_tmp_grid. cbn [fst snd].
    rewrite Hcur. cbn. apply lookup_delete_eq.
Qed.

Lemma grid_run_leaves_output_witness :
  (script Demo.laptop Demo.queue (Demo.opts 2 "1,2") (parsed_flags false false false)
     Demo.location).1 = 0.
Proof.
  apply (grid_run_leaves_output Demo.laptop (Demo.opts 2 "1,2") Demo.rc Demo.user1
           ["b1"; "b2"] (fun k => 100 + Z.of_nat k) (parsed_flags false false false)
           Demo.location 1 2);
    first [reflexivity | lia | by intros cat [=]].
Defined.

Lemma grid_run_vrt_keeps_tiles_witness :
  (script Demo.laptop Demo.queue (Demo.opts 2 "1,2") (parsed_flags false false true)
     Demo.location).1 = 0.
Proof.
  apply (grid_run_vrt_keeps_tiles Demo.laptop (Demo.opts 2 "1,2") Demo.rc Demo.user1
           ["b1"; "b2"] (fun k => 100 + Z.of_nat k) (parsed_flags false false true)
           Demo.location 1 2);
    first [reflexivity | lia | by intros cat [=]].
Defined.

End GridRun.

(** ** A worker that cannot start *)
Section WorkerEdge.
Import Grass Worker.
Local Open Scope script_scope.

(** When the vector of the grid is not in the mapset of the session,
    the worker ends with the error of [v.db.select], which is the first
    module it runs: no mapset is made or removed, no session file is
    written and the model is not run. *)
Theorem worker_without_area (pid : Z) (o : options) (fl : list (string * bool))
    (gisrc : string) (d : grassdb) (e : gisenv) (m : mapset_data) :
  files d !! gisrc = Some e ->
  mapsets d !! mapset_of e = Some m ->
  Py.mem "@" (area o) = false ->
  ms_vectors m !! area o = None ->
  main pid o fl {| db := d; GISRC := gisrc |}
  = (inl (CalledModuleError "v.db.select"),
     {| db := logged (v_db_select "r" (area o) (where_ o)) d; GISRC := gisrc |}).
Proof.
  intros He Hm Hat Hv. unfold main. cbv zeta.
  erewrite bind_inl; [reflexivity|].
  apply worker_grass_eq. cbn [db GISRC]. unfold parse_v_db_select.
  unfold bind at 1. unfold run, modify. cbv beta iota.
  erewrite bind_inr; [|by apply (current_Some _ _ _ e m)].
  unfold bind at 1. unfold get. cbv beta iota.
  unfold find_vector. rewrite locate_here by done. cbn [fst snd mapsets logged].
  by rewrite Hm, Hv.
Qed.

Lemma worker_without_area_witness :
  main 100 Cells.cell1 [("p", false); ("z", false)]
    {| db := Demo.location; GISRC := "/tmp/rc" |}
  = (inl (CalledModuleError "v.db.select"),
     {| db := logged (v_db_select "r" "tmp_grid_77" "cat=1") Demo.location;
        GISRC := "/tmp/rc" |}).
Proof.
  apply (worker_without_area 100 Cells.cell1 [("p", false); ("z", false)] "/tmp/rc"
           Demo.location Demo.rc Demo.user1); reflexivity.
Defined.

End WorkerEdge.

(** ** The direct path, and what the scripts never do *)
Section DirectRun.
Import Grass Parallel.
Local Open Scope script_scope.

Lemma keeps_regions_grass {A} (f : M grassdb A) : keeps rm_regions (grass f).
Proof. intros s. unfold grass. by destruct (f (db s)). Qed.

(** However [main] ends and whatever the jobs of the queue did, it has
    put no region on [rm_regions]: the list is as it was, so that
    [cleanup] of the script, which starts with an empty list, asks for
    no region to be removed. *)
Theorem main_registers_no_region (h : host) (queue : queue_model) (o : options)
    (flags : list (string * bool)) (s : process) :
  rm_regions (main h queue o flags s).2 = rm_regions s.
Proof.
  revert s. change (keeps rm_regions (main h queue o flags)).
  unfold main, generate_grid, predict_on_cells, verify_mapset, copy_tiles, patching,
    rm_vectors_append, rm_rasters_extend.
  cbv zeta.
  repeat first
    [ apply keeps_ret | apply keeps_raise | apply keeps_get
    | apply keeps_bind; [|intros]
    | apply keeps_for_each; intros
    | apply keeps_regions_grass
    | apply keeps_modify; intros; reflexivity
    | match goal with
      | |- keeps _ (match ?x with _ => _ end) => destruct x
      | |- keeps _ (if ?b then _ else _) => destruct b
      | |- keeps _ (let (_, _) := ?x in _) => destruct x
      end ].
Qed.

Lemma keeps_rasters_grass {A} (f : M grassdb A) : keeps rm_rasters (grass f).
Proof. intros s. unfold grass. by destruct (f (db s)). Qed.

(** With [-v], however [main] ends and whatever the jobs of the queue
    did, no raster is put on [rm_rasters]: [cleanup] will not remove a
    tile the virtual raster is made of. *)
Theorem vrt_registers_no_raster (h : host) (queue : queue_model) (o : options)
    (flags : list (string * bool)) (s : process) :
  flag flags "v" = true ->
  rm_rasters (main h queue o flags s).2 = rm_rasters s.
Proof.
  intros Hv. revert s. change (keeps rm_rasters (main h queue o flags)).
  unfold main, generate_grid, predict_on_cells, verify_mapset, copy_tiles, patching,
    rm_vectors_append, rm_rasters_extend.
  cbv zeta. rewrite Hv. cbn [negb].
  repeat first
    [ apply keeps_ret | apply keeps_raise | apply keeps_get
    | apply keeps_bind; [|intros]
    | apply keeps_for_each; intros
    | apply keeps_rasters_grass
    | apply keeps_modify; intros; reflexivity
    | match goal with
      | |- keeps _ (match ?x with _ => _ end) => destruct x
      | |- keeps _ (if ?b then _ else _) => destruct b
      | |- keeps _ (let (_, _) := ?x in _) => destruct x
      end ].
Qed.

Lemma vrt_registers_no_raster_witness :
  rm_rasters (main Demo.laptop Demo.queue (Demo.opts 2 "1,2")
                (parsed_flags false false true) (start Demo.location)).2 = [].
Proof.
  apply (vrt_registers_no_raster Demo.laptop Demo.queue (Demo.opts 2 "1,2")
           (parsed_flags false false true) (start Demo.location)).
  reflexivity.
Defined.



End DirectRun.
